(** * Assignment reconciliation and calendar projection

    A shallow embedding of the schedule views and the reports of
    [openschichtplaner5_api/api.py]:

    - [get_dienstplan]              (month grid,   api.py 314-408),
    - [get_einsatzplan]             (shift matrix, api.py 410-577),
    - [get_dienstplan_range]        (month grid of a range,   api.py 579-642),
    - [get_einsatzplan_range]       (shift matrix of a range, api.py 644-767),
    - [get_jahresuebersicht]        (year grid,    api.py 769-971),
    - [get_reports_summary]         (api.py 1034-1101),
    - [get_employee_shifts_report]  (api.py 1103-1175),
    - [get_shift_coverage_report]   (api.py 1177-1271),

    together with the parts of Python's [datetime] and [calendar] modules
    they rely on.  Python [dict]s are insertion ordered, so they are
    modelled as association lists that keep the position of a key when its
    value is replaced.  Text is ASCII text; the month names of the year
    grid are carried as the bytes of their UTF-8 encoding. *)

From Stdlib Require Import ZArith List String Ascii Bool Lia.
From Stdlib Require Import DecimalString Sorted Permutation.
Import ListNotations.

Local Open Scope Z_scope.

(** ** Python strings *)

Module PyStr.

(** The value of a decimal digit, ['0'] being code point 48 *)
Definition digit_val (c : ascii) : option Z :=
  let n := Z.of_N (N_of_ascii c) in
  if (48 <=? n) && (n <=? 57) then Some (n - 48) else None.

Definition is_digit (c : ascii) : bool :=
  match digit_val c with Some _ => true | None => false end.

(** The last decimal digit of [n] as a character *)
Definition digit_char (n : Z) : ascii :=
  ascii_of_N (Z.to_N (48 + n mod 10)).

(** [len(s)] *)
Definition len (s : string) : Z := Z.of_nat (String.length s).

(** [c in s] for a one-character [c] *)
Fixpoint contains (c : ascii) (s : string) : bool :=
  match s with
  | EmptyString => false
  | String a r => Ascii.eqb a c || contains c r
  end.

(** [s[:n]] *)
Fixpoint take (n : nat) (s : string) : string :=
  match n, s with
  | O, _ => EmptyString
  | S _, EmptyString => EmptyString
  | S k, String a r => String a (take k r)
  end.

(** [s.split(c)]: one more part than there are separators *)
Fixpoint split (c : ascii) (s : string) : list string :=
  match s with
  | EmptyString => [EmptyString]
  | String a r =>
      if Ascii.eqb a c then EmptyString :: split c r
      else match split c r with
           | [] => [String a EmptyString]
           | p :: ps => String a p :: ps
           end
  end.

(** [s.replace(a, b)] for one-character [a] and [b] *)
Fixpoint replace (a b : ascii) (s : string) : string :=
  match s with
  | EmptyString => EmptyString
  | String c r => String (if Ascii.eqb c a then b else c) (replace a b r)
  end.

Fixpoint all_digits (s : string) : bool :=
  match s with
  | EmptyString => true
  | String a r => is_digit a && all_digits r
  end.

(** [s.isdigit()]: false on the empty string *)
Definition isdigit (s : string) : bool :=
  match s with
  | EmptyString => false
  | _ => all_digits s
  end.

Definition upper_char (c : ascii) : ascii :=
  let n := N_of_ascii c in
  if ((97 <=? n) && (n <=? 122))%N then ascii_of_N (n - 32) else c.

(** [s.upper()] *)
Fixpoint upper (s : string) : string :=
  match s with
  | EmptyString => EmptyString
  | String c r => String (upper_char c) (upper r)
  end.

(** [p in s] for a pattern [p] *)
Fixpoint is_infix (p s : string) : bool :=
  String.prefix p s ||
  match s with
  | EmptyString => false
  | String _ r => is_infix p r
  end.

(** Truth value of a string: non-empty *)
Definition truthy (s : string) : bool :=
  match s with EmptyString => false | _ => true end.

(** ["%02d" % n] and ["%04d" % n] on the ranges used for dates *)
Definition pad2 (n : Z) : string :=
  String (digit_char (n / 10)) (String (digit_char (n mod 10)) EmptyString).

Definition pad4 (n : Z) : string :=
  String (digit_char (n / 1000))
    (String (digit_char (n / 100 mod 10))
       (String (digit_char (n / 10 mod 10))
          (String (digit_char (n mod 10)) EmptyString))).

(** [str(n)] for a day number *)
Definition str_of_day (n : Z) : string :=
  if n <? 10 then String (digit_char n) EmptyString else pad2 n.

End PyStr.

(** ** Calendar dates: [datetime.date] and [calendar.monthrange] *)

Record date := mkdate { year : Z; month : Z; day : Z }.

Definition is_leap (y : Z) : bool :=
  (y mod 4 =? 0) && (negb (y mod 100 =? 0) || (y mod 400 =? 0)).

(** [calendar.monthrange(y, m)[1]] *)
Definition days_in_month (y m : Z) : Z :=
  match m with
  | 2 => if is_leap y then 29 else 28
  | 4 | 6 | 9 | 11 => 30
  | _ => 31
  end.

Definition valid_ymd (y m d : Z) : bool :=
  (1 <=? y) && (y <=? 9999) && (1 <=? m) && (m <=? 12) &&
  (1 <=? d) && (d <=? days_in_month y m).

Definition valid_date (x : date) : bool := valid_ymd (year x) (month x) (day x).

(** [date(y, m, d)]: [None] stands for the [ValueError] *)
Definition make_date (y m d : Z) : option date :=
  if valid_ymd y m d then Some (mkdate y m d) else None.

(** [a <= b] on dates *)
Definition date_leb (a b : date) : bool :=
  (year a <? year b) ||
  ((year a =? year b) &&
   ((month a <? month b) || ((month a =? month b) && (day a <=? day b)))).

(** [start <= x <= stop] *)
Definition in_window (start stop x : date) : bool :=
  date_leb start x && date_leb x stop.

(** [d.isoformat()] *)
Definition isoformat (x : date) : string :=
  (PyStr.pad4 (year x) ++ "-" ++ PyStr.pad2 (month x) ++ "-" ++ PyStr.pad2 (day x))%string.

(** ** [datetime.strptime]

    CPython turns a format into a regular expression and takes the first
    match in backtracking order ([_strptime.py]):
    [%Y] is [\d\d\d\d], [%y] is [\d\d],
    [%m] is [1[0-2]|0[1-9]|[1-9]] and
    [%d] is [3[0-1]|[1-2]\d|0[1-9]|[1-9]| [1-9]].
    The match must use up the whole string, and the fields must make a
    calendar date. *)

Module Strptime.
Import PyStr.

Inductive directive := Lit (c : ascii) | Dir_Y | Dir_y | Dir_m | Dir_d.

Record fields := mkfields { f_year : Z; f_month : Z; f_day : Z }.

Definition init : fields := mkfields 1900 1 1.

Definition in_range (lo hi : Z) (c : ascii) : option Z :=
  match digit_val c with
  | Some v => if (lo <=? v) && (v <=? hi) then Some v else None
  | None => None
  end.

(** One alternative of two characters, the first one fixed to the digits
    [lo1..hi1] and the second to [lo2..hi2] *)
Definition two (lo1 hi1 lo2 hi2 : Z) (s : string) : list (Z * string) :=
  match s with
  | String a (String b r) =>
      match in_range lo1 hi1 a, in_range lo2 hi2 b with
      | Some x, Some y => [(10 * x + y, r)]
      | _, _ => []
      end
  | _ => []
  end.

Definition one (lo hi : Z) (s : string) : list (Z * string) :=
  match s with
  | String a r =>
      match in_range lo hi a with
      | Some x => [(x, r)]
      | None => []
      end
  | _ => []
  end.

Definition space_one (s : string) : list (Z * string) :=
  match s with
  | String " " r => one 1 9 r
  | _ => []
  end.

Definition four (s : string) : list (Z * string) :=
  match s with
  | String a (String b (String c (String d r))) =>
      match digit_val a, digit_val b, digit_val c, digit_val d with
      | Some x, Some y, Some z, Some w =>
          [(1000 * x + 100 * y + 10 * z + w, r)]
      | _, _, _, _ => []
      end
  | _ => []
  end.

(** The ways a directive can match at the head of [s], in the order the
    regular expression tries them, each with the value read and the rest
    of the string. *)
Definition candidates (d : directive) (s : string) : list (Z * string) :=
  match d with
  | Lit c =>
      match s with
      | String a r => if Ascii.eqb a c then [(0, r)] else []
      | EmptyString => []
      end
  | Dir_Y => four s
  | Dir_y => two 0 9 0 9 s
  | Dir_m => two 1 1 0 2 s ++ two 0 0 1 9 s ++ one 1 9 s
  | Dir_d => two 3 3 0 1 s ++ two 1 2 0 9 s ++ two 0 0 1 9 s
             ++ one 1 9 s ++ space_one s
  end.

Definition store (d : directive) (v : Z) (f : fields) : fields :=
  match d with
  | Lit _ => f
  | Dir_Y => mkfields v (f_month f) (f_day f)
  | Dir_y => mkfields (if v <=? 68 then 2000 + v else 1900 + v) (f_month f) (f_day f)
  | Dir_m => mkfields (f_year f) v (f_day f)
  | Dir_d => mkfields (f_year f) (f_month f) v
  end.

Fixpoint first_some {A B} (k : A -> option B) (l : list A) : option B :=
  match l with
  | [] => None
  | a :: r => match k a with Some b => Some b | None => first_some k r end
  end.

Fixpoint regex_match (fmt : list directive) (s : string) (f : fields)
  : option (fields * string) :=
  match fmt with
  | [] => Some (f, s)
  | d :: fmt' =>
      first_some (fun c => regex_match fmt' (snd c) (store d (fst c) f))
                 (candidates d s)
  end.

(** [datetime.strptime(s, fmt).date()]; [None] stands for [ValueError] *)
Definition strptime (s : string) (fmt : list directive) : option date :=
  match regex_match fmt s init with
  | Some (f, EmptyString) => make_date (f_year f) (f_month f) (f_day f)
  | _ => None
  end.

(** ['%Y-%m-%d'], ['%m/%d/%Y'], ['%d/%m/%y'], ['%d.%m.%Y'], ['%Y%m%d'] *)
Definition fmt_Y_m_d  := [Dir_Y; Lit "-"; Dir_m; Lit "-"; Dir_d].
Definition fmt_m_d_Y  := [Dir_m; Lit "/"; Dir_d; Lit "/"; Dir_Y].
Definition fmt_d_m_y  := [Dir_d; Lit "/"; Dir_m; Lit "/"; Dir_y].
Definition fmt_d_m_Y  := [Dir_d; Lit "."; Dir_m; Lit "."; Dir_Y].
Definition fmt_Ymd    := [Dir_Y; Dir_m; Dir_d].

End Strptime.

(** The four text encodings of a date named by the specification *)
Definition encode_iso (x : date) : string := isoformat x.

Definition encode_slash (x : date) : string :=
  (PyStr.pad2 (month x) ++ "/" ++ PyStr.pad2 (day x) ++ "/" ++ PyStr.pad4 (year x))%string.

Definition encode_dot (x : date) : string :=
  (PyStr.pad2 (day x) ++ "." ++ PyStr.pad2 (month x) ++ "." ++ PyStr.pad4 (year x))%string.

Definition encode_compact (x : date) : string :=
  (PyStr.pad4 (year x) ++ PyStr.pad2 (month x) ++ PyStr.pad2 (day x))%string.


(** ** Python dictionaries

    Insertion ordered: a new key goes to the end, an existing key keeps
    its place when its value is replaced. *)

Module PyDict.
Section Dict.
Context {K V : Type} (eqb : K -> K -> bool).

(** [d.get(k)] *)
Fixpoint get (k : K) (d : list (K * V)) : option V :=
  match d with
  | [] => None
  | (k', v) :: r => if eqb k k' then Some v else get k r
  end.

(** [d[k] = v] *)
Fixpoint set (k : K) (v : V) (d : list (K * V)) : list (K * V) :=
  match d with
  | [] => [(k, v)]
  | (k', v') :: r =>
      if eqb k k' then (k', v) :: r else (k', v') :: set k v r
  end.

(** [k in d] *)
Definition mem (k : K) (d : list (K * V)) : bool :=
  match get k d with Some _ => true | None => false end.

Definition keys (d : list (K * V)) : list K := map fst d.
Definition values (d : list (K * V)) : list V := map snd d.

(** [{key(x): x for x in l}] *)
Definition of_list (key : V -> K) (l : list V) : list (K * V) :=
  fold_left (fun d x => set (key x) x d) l [].
End Dict.
End PyDict.

(** ** Responses

    Each view runs inside [try: ... except Exception: raise
    HTTPException(status_code=500)], so any exception that leaves the body
    ends the request with status 500. *)

Inductive response (A : Type) : Type :=
| Ok (a : A)
| HTTP500.
Arguments Ok {A} a.
Arguments HTTP500 {A}.

Definition bind {A B} (r : response A) (k : A -> response B) : response B :=
  match r with Ok a => k a | HTTP500 => HTTP500 end.

(** A [for] loop whose body may raise *)
Fixpoint for_each {S X} (body : S -> X -> response S) (l : list X) (s : S)
  : response S :=
  match l with
  | [] => Ok s
  | x :: r => bind (body s x) (for_each body r)
  end.

(** ** Records of the store *)

(** What the [date] field of a record may hold *)
Inductive date_value :=
| DNone                      (* key missing, or None *)
| DStr (s : string)          (* text *)
| DDateTime (d : date)       (* a [datetime]: has [.date()] *)
| DDate (d : date)           (* a [date]: has [.year] but no [.date] *)
| DInt (n : Z).              (* anything else, here an [int] *)

(** [if v:] *)
Definition truthy (v : date_value) : bool :=
  match v with
  | DNone => false
  | DStr s => PyStr.truthy s
  | DDateTime _ | DDate _ => true
  | DInt n => negb (n =? 0)
  end.

(** A native date value of the store is a calendar date *)
Definition wf_date_value (v : date_value) : bool :=
  match v with
  | DDateTime d | DDate d => valid_date d
  | _ => true
  end.

Record employee := mkemployee {
  emp_id : Z;
  emp_name : option string;
  emp_firstname : option string;
  emp_empend : date_value
}.

Record shift_def := mkshift_def {
  sd_id : Z;
  sd_name : option string;
  sd_shortname : option string;
  sd_colorbar : option Z;
  sd_colorbk : option Z;
  sd_colortext : option Z;
  sd_startend0 : option string
}.

(** A row of 5MASHI or 5SPSHI; [sr_type] is the row's ['type'] when that
    is text *)
Record shift_row := mkshift_row {
  sr_employee_id : option Z;
  sr_date : date_value;
  sr_shift_id : option Z;
  sr_type : option string
}.

Record absence_row := mkabsence_row {
  ab_employee_id : option Z;
  ab_date : date_value;
  ab_type : option Z
}.

Record leave_row := mkleave_row {
  lv_employee_id : option Z;
  lv_date : date_value;
  lv_leave_type_id : option Z
}.

(** The tables behind [self.engine]; 5LEAVE may not exist *)
Record store := mkstore {
  tbl_5EMPL : list employee;
  tbl_5MASHI : list shift_row;
  tbl_5SPSHI : list shift_row;
  tbl_5ABSEN : list absence_row;
  tbl_5LEAVE : option (list leave_row);
  tbl_5SHIFT : list shift_def
}.

Definition opt_Z_eqb (a b : option Z) : bool :=
  match a, b with
  | Some x, Some y => x =? y
  | None, None => true
  | _, _ => false
  end.

(** [{s['id']: s for s in ...}] *)
Definition shift_definitions (st : store) : list (Z * shift_def) :=
  PyDict.of_list Z.eqb sd_id (tbl_5SHIFT st).

(** [shift_definitions.get(shift_id, {})]; [None] stands for [{}] *)
Definition lookup_def (defs : list (Z * shift_def)) (shift_id : option Z)
  : option shift_def :=
  match shift_id with
  | Some i => PyDict.get Z.eqb i defs
  | None => None
  end.

(** [shift_def.get(field)] and [shift_def.get(field, default)] *)
Definition def_get {A} (field : shift_def -> option A) (sd : option shift_def)
  : option A :=
  match sd with Some s => field s | None => None end.

Definition def_get_or {A} (field : shift_def -> option A) (default : A)
  (sd : option shift_def) : option A :=
  match sd with Some s => field s | None => Some default end.

Definition opt_truthy (o : option string) : bool :=
  match o with Some s => PyStr.truthy s | None => false end.

(** [a or b] *)
Definition py_or (a : option string) (b : string) : string :=
  match a with
  | Some s => if PyStr.truthy s then s else b
  | None => b
  end.

(** What a date value is bound to once a view has tried to normalise it:
    a date, nothing (the record is skipped with [continue]), or a value
    that is not a date, on which [start_date <= shift_date] raises
    [TypeError]. *)
Inductive normalized :=
| NDate (d : date)
| NSkip
| NRaise.

Definition of_parse (o : option date) : normalized :=
  match o with Some d => NDate d | None => NSkip end.

(** [date(year, month, 1)] and [date(year, month, last_day)] *)
Definition month_window (y m : Z) : response (date * date) :=
  match make_date y m 1, make_date y m (days_in_month y m) with
  | Some a, Some b => Ok (a, b)
  | _, _ => HTTP500
  end.

(** ** Display codes *)

(** api.py 383:
    [shift_def.get('shortname') or shift_def.get('name', 'T')[:1]
       if shift_def.get('name') else 'T'];
    the conditional expression binds weaker than [or]. *)
Definition dienstplan_shift_code (sd : option shift_def) : string :=
  match def_get sd_name sd with
  | Some n =>
      if PyStr.truthy n
      then py_or (def_get sd_shortname sd) (PyStr.take 1 n)
      else "T"
  | None => "T"
  end.

(** api.py 936-941 *)
Definition jahres_shift_code (sd : option shift_def) : string :=
  let shift_code := def_get sd_shortname sd in
  let shift_code :=
    if negb (opt_truthy shift_code)
    then match def_get sd_name sd with
         | Some n => if PyStr.truthy n then Some (PyStr.upper (PyStr.take 2 n))
                     else shift_code
         | None => shift_code
         end
    else shift_code in
  py_or shift_code "T".

(** ** Year grid: [get_jahresuebersicht] *)

Inductive assignment_type := TMain | TSpecial | TAbsence | TLeave.

Record assignment := mkassignment {
  a_date : date_value;
  a_shift_id : option Z;
  a_type : assignment_type;
  a_priority : Z;
  a_extra : option Z
}.

(** api.py 848-891 *)
Definition all_assignments
  (mashi spshi : list shift_row) (absences : list absence_row)
  (leaves : list leave_row) : list assignment :=
  map (fun r => mkassignment (sr_date r) (sr_shift_id r) TMain 1 None)
      (filter (fun r => truthy (sr_date r)) mashi)
  ++ map (fun r => mkassignment (sr_date r) (sr_shift_id r) TSpecial 2 None)
      (filter (fun r => truthy (sr_date r)) spshi)
  ++ map (fun r => mkassignment (ab_date r) None TAbsence 3 (ab_type r))
      (filter (fun r => truthy (ab_date r)) absences)
  ++ map (fun r => mkassignment (lv_date r) None TLeave 4 (lv_leave_type_id r))
      (filter (fun r => truthy (lv_date r)) leaves).

(** api.py 901-914 *)
Definition jahres_date (v : date_value) : normalized :=
  match v with
  | DStr s =>
      if PyStr.contains "-" s
      then of_parse (Strptime.strptime (PyStr.take 10 s) Strptime.fmt_Y_m_d)
      else NSkip
  | DDateTime d => NDate d
  | DDate d => NDate d
  | _ => NSkip
  end.

(** The date an assignment counts for in the window, if any
    (api.py 898-917) *)
Definition assignment_day (start stop : date) (a : assignment) : option date :=
  if truthy (a_date a) then
    match jahres_date (a_date a) with
    | NDate d => if in_window start stop d then Some d else None
    | _ => None
    end
  else None.

(** api.py 918-922 *)
Definition reconcile_step (start stop : date)
  (date_assignments : list (string * assignment)) (a : assignment)
  : list (string * assignment) :=
  match assignment_day start stop a with
  | Some d =>
      let date_key := isoformat d in
      match PyDict.get String.eqb date_key date_assignments with
      | None => PyDict.set String.eqb date_key a date_assignments
      | Some kept =>
          if a_priority a >? a_priority kept
          then PyDict.set String.eqb date_key a date_assignments
          else date_assignments
      end
  | None => date_assignments
  end.

(** api.py 893-922 *)
Definition reconcile (start stop : date) (l : list assignment)
  : list (string * assignment) :=
  fold_left (reconcile_step start stop) l [].

Record month_entry := mkmonth_entry {
  mo_month : Z;
  mo_name : string;
  mo_days : list (string * option string)
}.

Definition german_months : list string :=
  ["Jänner"; "Februar"; "März"; "April"; "Mai"; "Juni";
   "Juli"; "August"; "September"; "Oktober"; "November"; "Dezember"]%string.

(** [range(a, b)] *)
Definition range (a b : Z) : list Z :=
  map (fun i => a + Z.of_nat i) (seq 0 (Z.to_nat (b - a))).

(** api.py 838-840 *)
Definition empty_days : list (string * option string) :=
  fold_left (fun days d => PyDict.set String.eqb (PyStr.str_of_day d) None days)
            (range 1 32) [].

(** api.py 832-846 *)
Definition init_months : list month_entry :=
  map (fun month_num =>
         mkmonth_entry month_num
           (nth (Z.to_nat (month_num - 1)) german_months EmptyString)
           empty_days)
      (range 1 13).

(** api.py 930-945: the code shown for a kept assignment *)
Definition assignment_code (defs : list (Z * shift_def)) (a : assignment)
  : string :=
  match a_type a with
  | TAbsence => "AB"
  | TLeave => "UA"
  | TMain | TSpecial => jahres_shift_code (lookup_def defs (a_shift_id a))
  end.

(** [months[month_idx]['days'][day_str] = code]; a list index out of
    range raises *)
Fixpoint set_day (months : list month_entry) (month_idx : nat)
  (day_str : string) (code : string) : response (list month_entry) :=
  match months, month_idx with
  | [], _ => HTTP500
  | m :: r, O =>
      Ok (mkmonth_entry (mo_month m) (mo_name m)
            (PyDict.set String.eqb day_str (Some code) (mo_days m)) :: r)
  | m :: r, S k => bind (set_day r k day_str code) (fun r' => Ok (m :: r'))
  end.

(** api.py 925-945 *)
Definition apply_step (defs : list (Z * shift_def))
  (months : list month_entry) (item : string * assignment)
  : response (list month_entry) :=
  match Strptime.strptime (fst item) Strptime.fmt_Y_m_d with
  | Some parsed_date =>
      set_day months (Z.to_nat (month parsed_date - 1))
        (PyStr.str_of_day (day parsed_date))
        (assignment_code defs (snd item))
  | None => HTTP500
  end.

Record jahresuebersicht := mkjahresuebersicht {
  ju_employee_id : Z;
  ju_year : Z;
  ju_months : list month_entry
}.

(** [.where("employee_id", "=", employee_id)] *)
Definition for_employee {R} (field : R -> option Z) (employee_id : Z)
  (rows : list R) : list R :=
  filter (fun r => opt_Z_eqb (field r) (Some employee_id)) rows.

(** api.py 769-971.  The employee's display name and the legend do not
    depend on the assignments and are left out. *)
Definition get_jahresuebersicht (st : store) (employee_id year : Z)
  : response jahresuebersicht :=
  match filter (fun e => emp_id e =? employee_id) (tbl_5EMPL st) with
  | [] => HTTP500
  | employee :: _ =>
      match make_date year 1 1, make_date year 12 31 with
      | Some start_date, Some end_date =>
          let mashi := for_employee sr_employee_id employee_id (tbl_5MASHI st) in
          let spshi := for_employee sr_employee_id employee_id (tbl_5SPSHI st) in
          let absences := for_employee ab_employee_id employee_id (tbl_5ABSEN st) in
          let leaves :=
            match tbl_5LEAVE st with
            | Some rows => for_employee lv_employee_id employee_id rows
            | None => []
            end in
          let defs := shift_definitions st in
          let date_assignments :=
            reconcile start_date end_date
              (all_assignments mashi spshi absences leaves) in
          bind (for_each (apply_step defs) date_assignments init_months)
               (fun months => Ok (mkjahresuebersicht (emp_id employee) year months))
      | _, _ => HTTP500
      end
  end.

(** ** [datetime.fromisoformat]

    The month grid and the shift matrix hand every text that contains a
    ['T'] to [datetime.fromisoformat], whose accepted inputs differ between
    Python releases.  The views are therefore defined over any such
    function; [None] stands for its [ValueError].  [fromisoformat_seconds]
    is the common core of all releases, [YYYY-MM-DD] alone or followed by
    one separator and [HH:MM:SS]; it is used to run the views on examples. *)

Definition clock_ok (s : string) : bool :=
  match Strptime.two 0 2 0 9 s with
  | [(h, String ":" r1)] =>
      match Strptime.two 0 5 0 9 r1 with
      | [(_, String ":" r2)] =>
          match Strptime.two 0 5 0 9 r2 with
          | [(_, EmptyString)] => h <? 24
          | _ => false
          end
      | _ => false
      end
  | _ => false
  end.

Definition fromisoformat_seconds (s : string) : option date :=
  match Strptime.four s with
  | [(y, String "-" r1)] =>
      match Strptime.two 0 9 0 9 r1 with
      | [(m, String "-" r2)] =>
          match Strptime.two 0 9 0 9 r2 with
          | [(d, EmptyString)] => make_date y m d
          | [(d, String _ clock)] =>
              if clock_ok clock then make_date y m d else None
          | _ => None
          end
      | _ => None
      end
  | _ => None
  end.

Definition is_null (v : date_value) : bool :=
  match v with DNone => true | _ => false end.

(** ** Month grid and shift matrix *)

Record cell := mkcell {
  c_shift_id : option Z;
  c_shift_code : string;
  c_shift_name : option string;
  c_date : string;
  c_bar : option Z;
  c_background : option Z;
  c_text : option Z
}.

Record employee_schedule := mkemployee_schedule {
  es_employee : employee;
  es_schedule : list (Z * cell)
}.

Record dienstplan := mkdienstplan {
  dp_year : Z;
  dp_month : Z;
  dp_days_in_month : Z;
  dp_employees : list employee_schedule
}.

Record matrix_entry := mkmatrix_entry {
  me_id : option Z;
  me_name : option string;
  me_firstname : option string
}.

(** The ['shift_definition'] of a row: the literal written for absences,
    or what [shift_definitions.get(shift_id, {})] gave *)
Inductive matrix_def :=
| AbsenceDef
| StoredDef (sd : option shift_def).

Record matrix_row := mkmatrix_row {
  mr_shift_definition : matrix_def;
  mr_days : list (Z * list matrix_entry)
}.

(** The variables of the loop of [get_einsatzplan] (api.py 463-467) *)
Record einsatz_state := mkeinsatz_state {
  shift_matrix : list (string * matrix_row);
  processed_count : Z;
  tagdienst_count : Z;
  date_parse_errors : Z
}.

Record einsatzplan := mkeinsatzplan {
  ep_year : Z;
  ep_month : Z;
  ep_days_in_month : Z;
  ep_shifts : list (string * matrix_row)
}.

(** api.py 385-395 *)
Definition dienstplan_cell (defs : list (Z * shift_def)) (shift : shift_row)
  (shift_date : date) : cell :=
  let shift_def := lookup_def defs (sr_shift_id shift) in
  mkcell (sr_shift_id shift)
         (dienstplan_shift_code shift_def)
         (def_get_or sd_name "Tagschicht"%string shift_def)
         (isoformat shift_date)
         (def_get_or sd_colorbar 65535 shift_def)
         (def_get_or sd_colorbk 65535 shift_def)
         (def_get_or sd_colortext 0 shift_def).

(** api.py 443-450 *)
Definition absence_assignments (absences : list absence_row) : list shift_row :=
  map (fun a => mkshift_row (ab_employee_id a) (ab_date a) (Some 99999)
                  (Some "absence"%string))
      absences.

(** [shift.get('type') == 'absence'] *)
Definition is_absence (shift : shift_row) : bool :=
  match sr_type shift with
  | Some t => String.eqb t "absence"
  | None => false
  end.

(** [employees_dict.get(employee_id, {})] *)
Definition lookup_employee (employees_dict : list (Z * employee))
  (employee_id : option Z) : option employee :=
  match employee_id with
  | Some i => PyDict.get Z.eqb i employees_dict
  | None => None
  end.

(** api.py 550-554 *)
Definition make_entry (employees_dict : list (Z * employee))
  (employee_id : option Z) : matrix_entry :=
  let employee := lookup_employee employees_dict employee_id in
  mkmatrix_entry employee_id
    (match employee with Some e => emp_name e | None => Some "Unknown"%string end)
    (match employee with Some e => emp_firstname e | None => Some EmptyString end).

(** api.py 541-554 *)
Definition place (shift_name : string) (shift_def : matrix_def) (day : Z)
  (entry : matrix_entry) (m : list (string * matrix_row))
  : list (string * matrix_row) :=
  let row :=
    match PyDict.get String.eqb shift_name m with
    | Some r => r
    | None => mkmatrix_row shift_def []
    end in
  let cell :=
    match PyDict.get Z.eqb day (mr_days row) with
    | Some l => l
    | None => []
    end in
  PyDict.set String.eqb shift_name
    (mkmatrix_row (mr_shift_definition row)
       (PyDict.set Z.eqb day (cell ++ [entry]) (mr_days row)))
    m.

(** api.py 525-530: the definition and the name of the row an assignment
    goes to; a definition whose name is null has no name, and
    [shift_name.upper()] raises on it *)
Definition assignment_shift_def (defs : list (Z * shift_def)) (shift : shift_row)
  : matrix_def :=
  if is_absence shift then AbsenceDef
  else StoredDef (lookup_def defs (sr_shift_id shift)).

Definition assignment_shift_name (defs : list (Z * shift_def)) (shift : shift_row)
  : option string :=
  if is_absence shift then Some "Abwesenheit"%string
  else def_get_or sd_name "Unbekannte Schicht"%string
         (lookup_def defs (sr_shift_id shift)).

(** api.py 538 *)
Definition is_tagdienst (shift_name : string) : bool :=
  PyStr.is_infix "Tagdienst" (PyStr.upper shift_name)
  || PyStr.is_infix "TD" (PyStr.upper shift_name).

(** The sort key of a row (api.py 566) *)
Definition row_start (r : matrix_row) : option string :=
  match mr_shift_definition r with
  | AbsenceDef => Some "00:00"%string
  | StoredDef sd => def_get_or sd_startend0 "00:00"%string sd
  end.

Definition start_key (x : string * matrix_row) : string :=
  match row_start (snd x) with Some s => s | None => EmptyString end.

Fixpoint insert_row (x : string * matrix_row) (l : list (string * matrix_row))
  : list (string * matrix_row) :=
  match l with
  | [] => [x]
  | y :: r =>
      if String.ltb (start_key y) (start_key x)
      then y :: insert_row x r
      else x :: y :: r
  end.

(** api.py 564-567: [sorted] is stable; comparing a [None] key with any
    other key raises [TypeError] *)
Definition sorted_shifts (m : list (string * matrix_row))
  : response (list (string * matrix_row)) :=
  if (2 <=? Z.of_nat (List.length m))
     && existsb (fun x => match row_start (snd x) with None => true | Some _ => false end) m
  then HTTP500
  else Ok (fold_right insert_row [] m).

Section Views.

Variable fromisoformat : string -> option date.

(** *** [get_dienstplan] *)

(** api.py 368-378 *)
Definition dienstplan_date (v : date_value) : normalized :=
  match v with
  | DStr s =>
      if PyStr.contains "T" s
      then of_parse (fromisoformat (PyStr.replace "T" " " s))
      else of_parse (Strptime.strptime (PyStr.take 10 s) Strptime.fmt_Y_m_d)
  | DDateTime d => NDate d
  | DDate d => NDate d
  | DNone | DInt _ => NRaise
  end.

(** api.py 362-396 *)
Definition dienstplan_step (start stop : date) (defs : list (Z * shift_def))
  (st : list (Z * employee_schedule) * Z) (shift : shift_row)
  : response (list (Z * employee_schedule) * Z) :=
  match sr_employee_id shift with
  | None => Ok st
  | Some emp_id =>
      match PyDict.get Z.eqb emp_id (fst st) with
      | None => Ok st
      | Some es =>
          if truthy (sr_date shift) then
            match dienstplan_date (sr_date shift) with
            | NSkip => Ok st
            | NRaise => HTTP500
            | NDate shift_date =>
                if in_window start stop shift_date then
                  Ok (PyDict.set Z.eqb emp_id
                        (mkemployee_schedule (es_employee es)
                           (PyDict.set Z.eqb (day shift_date)
                              (dienstplan_cell defs shift shift_date)
                              (es_schedule es)))
                        (fst st),
                      snd st + 1)
                else Ok st
            end
          else Ok st
      end
  end.

(** api.py 328-334; [limit] is at least 1 ([Query(None, ge=1, le=1000)]) *)
Definition active_employees (st : store) (limit : option Z) : list employee :=
  let employees := filter (fun e => is_null (emp_empend e)) (tbl_5EMPL st) in
  match limit with
  | Some n =>
      if n <? Z.of_nat (List.length employees)
      then firstn (Z.to_nat n) employees
      else employees
  | None => employees
  end.

(** api.py 353-358 *)
Definition empty_schedules (employees : list employee)
  : list (Z * employee_schedule) :=
  fold_left (fun d emp => PyDict.set Z.eqb (emp_id emp)
                            (mkemployee_schedule emp []) d)
            employees [].

(** api.py 314-408 *)
Definition get_dienstplan (st : store) (year month : Z) (limit : option Z)
  : response dienstplan :=
  bind (month_window year month) (fun w =>
    let employees := active_employees st limit in
    let shift_assignments := tbl_5MASHI st ++ tbl_5SPSHI st in
    let defs := shift_definitions st in
    bind (for_each (dienstplan_step (fst w) (snd w) defs) shift_assignments
            (empty_schedules employees, 0))
         (fun s => Ok (mkdienstplan year month (days_in_month year month)
                         (PyDict.values (fst s))))).

(** *** [get_einsatzplan] *)

(** api.py 479-518 *)
Definition einsatzplan_date (v : date_value) : normalized :=
  match v with
  | DStr s =>
      if PyStr.contains "T" s then
        of_parse (fromisoformat (PyStr.replace "T" " " s))
      else if PyStr.contains "-" s && (10 <=? PyStr.len s) then
        of_parse (Strptime.strptime (PyStr.take 10 s) Strptime.fmt_Y_m_d)
      else if PyStr.contains "/" s then
        match PyStr.split "/" s with
        | [_; _; part2] =>
            if PyStr.len part2 =? 4
            then of_parse (Strptime.strptime s Strptime.fmt_m_d_Y)
            else of_parse (Strptime.strptime s Strptime.fmt_d_m_y)
        | _ => NRaise
        end
      else if PyStr.contains "." s then
        of_parse (Strptime.strptime s Strptime.fmt_d_m_Y)
      else if (PyStr.len s =? 8) && PyStr.isdigit s then
        of_parse (Strptime.strptime s Strptime.fmt_Ymd)
      else NSkip
  | DDateTime d => NDate d
  | DDate d => NDate d
  | DNone | DInt _ => NSkip
  end.

Definition count_error (s : einsatz_state) : einsatz_state :=
  mkeinsatz_state (shift_matrix s) (processed_count s) (tagdienst_count s)
    (date_parse_errors s + 1).

(** api.py 470-556 *)
Definition einsatzplan_step (start stop : date) (defs : list (Z * shift_def))
  (employees_dict : list (Z * employee)) (s : einsatz_state)
  (shift : shift_row) : response einsatz_state :=
  if truthy (sr_date shift) then
    match einsatzplan_date (sr_date shift) with
    | NSkip => Ok (count_error s)
    | NRaise => HTTP500
    | NDate shift_date =>
        if in_window start stop shift_date then
          match assignment_shift_name defs shift with
          | None => HTTP500
          | Some name =>
              Ok (mkeinsatz_state
                    (place name (assignment_shift_def defs shift)
                       (day shift_date)
                       (make_entry employees_dict (sr_employee_id shift))
                       (shift_matrix s))
                    (processed_count s + 1)
                    (if is_tagdienst name then tagdienst_count s + 1
                     else tagdienst_count s)
                    (date_parse_errors s))
          end
        else Ok (count_error s)
    end
  else Ok s.

(** api.py 453 *)
Definition einsatzplan_assignments (st : store) : list shift_row :=
  tbl_5MASHI st ++ tbl_5SPSHI st ++ absence_assignments (tbl_5ABSEN st).

(** The loop of api.py 463-556, from the empty matrix *)
Definition einsatzplan_loop (st : store) (start stop : date)
  : response einsatz_state :=
  for_each (einsatzplan_step start stop (shift_definitions st)
              (PyDict.of_list Z.eqb emp_id (tbl_5EMPL st)))
           (einsatzplan_assignments st)
           (mkeinsatz_state [] 0 0 0).

(** api.py 410-577 *)
Definition get_einsatzplan (st : store) (year month : Z)
  : response einsatzplan :=
  bind (month_window year month) (fun w =>
    bind (einsatzplan_loop st (fst w) (snd w)) (fun s =>
      bind (sorted_shifts (shift_matrix s)) (fun shifts =>
        Ok (mkeinsatzplan year month (days_in_month year month) shifts)))).

End Views.

(** The slash encoding with a two-digit year, [DD/MM/YY] *)
Definition encode_slash_short (x : date) : string :=
  (PyStr.pad2 (day x) ++ "/" ++ PyStr.pad2 (month x) ++ "/"
   ++ PyStr.pad2 (year x mod 100))%string.

(** The priority api.py 857-889 writes next to each type *)
Definition priority_of_type (t : assignment_type) : Z :=
  match t with
  | TMain => 1
  | TSpecial => 2
  | TAbsence => 3
  | TLeave => 4
  end.

(** The assignments the reconciliation may be given: a native date is a
    calendar date, and the priority is the one written next to the type in
    api.py 857-889. *)
Definition well_formed (a : assignment) : Prop :=
  wf_date_value (a_date a) = true /\ a_priority a = priority_of_type (a_type a).

(** [w] is the first assignment of [l] with the greatest priority among
    those that count for day [d] *)
Definition first_greatest start stop (l : list assignment) (d : date)
  (w : assignment) : Prop :=
  exists l1 l2,
    l = l1 ++ w :: l2
    /\ assignment_day start stop w = Some d
    /\ (forall a, In a l1 -> assignment_day start stop a = Some d ->
                  a_priority a < a_priority w)
    /\ (forall a, In a l2 -> assignment_day start stop a = Some d ->
                  a_priority a <= a_priority w).

(** The native dates of the tables are calendar dates, as every
    [datetime.date] is *)
Definition wf_store (st : store) : Prop :=
  Forall (fun r => wf_date_value (sr_date r) = true) (tbl_5MASHI st)
  /\ Forall (fun r => wf_date_value (sr_date r) = true) (tbl_5SPSHI st)
  /\ Forall (fun r => wf_date_value (ab_date r) = true) (tbl_5ABSEN st)
  /\ match tbl_5LEAVE st with
     | Some rows => Forall (fun r => wf_date_value (lv_date r) = true) rows
     | None => True
     end.

(** The day keys ["1"] to ["31"] *)
Definition day_keys : list string := map PyStr.str_of_day (range 1 32).

(** The shape of the months of a year grid of year [y]: the months 1 to 12
    in order under their names, each with the day keys ["1"] to ["31"] in
    order, and every day after the last day of the month empty. *)
Definition year_grid_shape (y : Z) (months : list month_entry) : Prop :=
  map mo_month months = range 1 13
  /\ map mo_name months = german_months
  /\ Forall (fun m =>
               PyDict.keys (mo_days m) = day_keys
               /\ forall e, days_in_month y (mo_month m) < e <= 31 ->
                    PyDict.get String.eqb (PyStr.str_of_day e) (mo_days m)
                    = Some None)
            months.

(** [months[month_num - 1]['days'].get(str(day_num))] *)
Definition months_day (months : list month_entry) (month_num day_num : Z)
  : option (option string) :=
  match nth_error months (Z.to_nat (month_num - 1)) with
  | Some m => PyDict.get String.eqb (PyStr.str_of_day day_num) (mo_days m)
  | None => None
  end.

(** The code a year grid response shows for a day *)
Definition year_grid_day (r : response jahresuebersicht) (month_num day_num : Z)
  : option (option string) :=
  match r with
  | Ok out => months_day (ju_months out) month_num day_num
  | HTTP500 => None
  end.

(** The assignments [get_jahresuebersicht] reconciles for an employee *)
Definition year_assignments (st : store) (employee_id : Z) : list assignment :=
  all_assignments
    (for_employee sr_employee_id employee_id (tbl_5MASHI st))
    (for_employee sr_employee_id employee_id (tbl_5SPSHI st))
    (for_employee ab_employee_id employee_id (tbl_5ABSEN st))
    match tbl_5LEAVE st with
    | Some rows => for_employee lv_employee_id employee_id rows
    | None => []
    end.

(** The display code as the specification words it: the short name when
    present and non-empty, else the first two characters of the name in
    upper case, else one fixed character. *)
Definition spec_display_code (sd : option shift_def) : string :=
  match def_get sd_shortname sd with
  | Some (String c r) => String c r
  | _ =>
      match def_get sd_name sd with
      | Some (String c r) => PyStr.upper (PyStr.take 2 (String c r))
      | _ => "T"%string
      end
  end.

(** ** Reading the month grid and the shift matrix *)

(** The row's employee is one of [employees] *)
Definition scheduled (employees : list employee) (r : shift_row) : bool :=
  match sr_employee_id r with
  | Some i => existsb (fun e => emp_id e =? i) employees
  | None => false
  end.

(** The store with other assignment tables, and with another absence
    table *)
Definition with_assignments (st : store) (mashi spshi : list shift_row) : store :=
  mkstore (tbl_5EMPL st) mashi spshi (tbl_5ABSEN st) (tbl_5LEAVE st)
    (tbl_5SHIFT st).

Definition with_absences (st : store) (absences : list absence_row) : store :=
  mkstore (tbl_5EMPL st) (tbl_5MASHI st) (tbl_5SPSHI st) absences
    (tbl_5LEAVE st) (tbl_5SHIFT st).

(** The employee and the day of the window a row of the month grid is
    about (api.py 363-380) *)
Definition dienstplan_target (fromisoformat : string -> option date)
  (start stop : date) (r : shift_row) : option (Z * date) :=
  match sr_employee_id r with
  | Some e =>
      if truthy (sr_date r) then
        match dienstplan_date fromisoformat (sr_date r) with
        | NDate d => if in_window start stop d then Some (e, d) else None
        | _ => None
        end
      else None
  | None => None
  end.

(** [employee_schedules[e]['schedule'].get(k)] *)
Definition schedule_cell (schedules : list (Z * employee_schedule)) (e k : Z)
  : option cell :=
  match PyDict.get Z.eqb e schedules with
  | Some es => PyDict.get Z.eqb k (es_schedule es)
  | None => None
  end.

(** The cell of employee [e] on day [k] in the returned month grid *)
Definition dienstplan_cell_at (out : dienstplan) (e k : Z) : option cell :=
  match find (fun es => emp_id (es_employee es) =? e) (dp_employees out) with
  | Some es => PyDict.get Z.eqb k (es_schedule es)
  | None => None
  end.

(** [shift_matrix[name]['days'][k]], empty when there is none *)
Definition matrix_cell (m : list (string * matrix_row)) (name : string) (k : Z)
  : list matrix_entry :=
  match PyDict.get String.eqb name m with
  | Some row =>
      match PyDict.get Z.eqb k (mr_days row) with
      | Some l => l
      | None => []
      end
  | None => []
  end.

(** The number of entries of a matrix, over all rows and days *)
Definition total {K V} (w : V -> nat) (d : list (K * V)) : nat :=
  list_sum (map (fun kv => w (snd kv)) d).

Definition matrix_total (m : list (string * matrix_row)) : nat :=
  total (fun row => total (@List.length matrix_entry) (mr_days row)) m.

(** What the loop of the shift matrix does with a row: it places it,
    counts it in [date_parse_errors], or raises (api.py 470-556) *)
Definition is_placed (fromisoformat : string -> option date)
  (start stop : date) (r : shift_row) : bool :=
  truthy (sr_date r)
  && match einsatzplan_date fromisoformat (sr_date r) with
     | NDate d => in_window start stop d
     | _ => false
     end.

Definition fails_to_parse (fromisoformat : string -> option date)
  (r : shift_row) : bool :=
  truthy (sr_date r)
  && match einsatzplan_date fromisoformat (sr_date r) with
     | NSkip => true
     | _ => false
     end.

Definition parses_outside (fromisoformat : string -> option date)
  (start stop : date) (r : shift_row) : bool :=
  truthy (sr_date r)
  && match einsatzplan_date fromisoformat (sr_date r) with
     | NDate d => negb (in_window start stop d)
     | _ => false
     end.

Definition raises (fromisoformat : string -> option date)
  (start stop : date) (defs : list (Z * shift_def)) (r : shift_row) : bool :=
  truthy (sr_date r)
  && match einsatzplan_date fromisoformat (sr_date r) with
     | NRaise => true
     | NDate d =>
         in_window start stop d
         && match assignment_shift_name defs r with
            | None => true
            | Some _ => false
            end
     | NSkip => false
     end.

Definition count {A} (f : A -> bool) (l : list A) : Z :=
  Z.of_nat (List.length (filter f l)).

(** The entries of the schedules are keyed by the id of their employee,
    who is one of [employees] *)
Definition keyed_by (employees : list employee)
  (d : list (Z * employee_schedule)) : Prop :=
  forall k es, In (k, es) d ->
    In (es_employee es) employees /\ k = emp_id (es_employee es).

(** The cell of employee [e] on day [k] of a month grid response *)
Definition month_grid_cell (r : response dienstplan) (e k : Z) : option cell :=
  match r with
  | Ok out => dienstplan_cell_at out e k
  | HTTP500 => None
  end.

(** The entries of row [name] on day [k] of a shift matrix response *)
Definition shift_matrix_cell (r : response einsatzplan) (name : string) (k : Z)
  : list matrix_entry :=
  match r with
  | Ok out => matrix_cell (ep_shifts out) name k
  | HTTP500 => []
  end.

(** ** Example data *)

Definition shift_X : shift_def :=
  mkshift_def 1 (Some "Xenon"%string) (Some "X"%string) None None None
    (Some "06:00"%string).
Definition shift_Y : shift_def :=
  mkshift_def 2 (Some "Yard"%string) (Some "Y"%string) None None None
    (Some "14:00"%string).

Definition employee_7 : employee :=
  mkemployee 7 (Some "Huber"%string) (Some "Eva"%string) DNone.

(** Two main assignments of employee 7 on 2025-06-05, shift X before
    shift Y *)
Definition fact_shiftX : assignment :=
  mkassignment (DStr "2025-06-05") (Some 1) TMain 1 None.
Definition fact_shiftY : assignment :=
  mkassignment (DStr "2025-06-05") (Some 2) TMain 1 None.

Definition store_duplicate_main : store :=
  mkstore [employee_7]
    [mkshift_row (Some 7) (DStr "2025-06-05") (Some 1) None;
     mkshift_row (Some 7) (DStr "2025-06-05") (Some 2) None]
    [] [] None [shift_X; shift_Y].

(** A leave and a main assignment on one day, in both orders *)
Definition fact_leave : assignment :=
  mkassignment (DDate (mkdate 2025 6 5)) None TLeave 4 (Some 3).

(** A shift without a short name *)
Definition shift_frueh : shift_def :=
  mkshift_def 3 (Some "frueh"%string) None None None None (Some "06:00"%string).

(** A main assignment dated in the slash encoding *)
Definition fact_slash : assignment :=
  mkassignment (DStr "06/03/2025") (Some 1) TMain 1 None.

(** Employee 42 with a main assignment to the early shift and an absence
    on 2025-06-10 *)
Definition shift_early : shift_def :=
  mkshift_def 1 (Some "Fruehdienst"%string) (Some "FD"%string)
    (Some 255) (Some 65280) (Some 0) (Some "06:00"%string).

Definition employee_42 : employee :=
  mkemployee 42 (Some "Gruber"%string) (Some "Max"%string) DNone.

Definition store_main_and_absence : store :=
  mkstore [employee_42]
    [mkshift_row (Some 42) (DStr "2025-06-10") (Some 1) None]
    []
    [mkabsence_row (Some 42) (DStr "2025-06-10") (Some 1)]
    None [shift_early].

(** A main assignment outside June 2025, and one whose date has two
    slash-separated parts *)
Definition store_outside_window : store :=
  mkstore [employee_42]
    [mkshift_row (Some 42) (DStr "2025-07-01") (Some 1) None]
    [] [] None [shift_early].

Definition store_two_parts : store :=
  mkstore [employee_42]
    [mkshift_row (Some 42) (DStr "1/2") (Some 1) None]
    [] [] None [shift_early].

(** ** Employee names

    The range views and the year grid build an employee's name with an
    f-string, which writes [None] for a null field, and strip it. *)

(** [str(n)] *)
Definition str_of_Z (n : Z) : string := NilZero.string_of_int (Z.to_int n).

(** What an f-string writes for a field that holds text or [None] *)
Definition fmt (o : option string) : string :=
  match o with Some s => s | None => "None" end.

(** [c.isspace()] on ASCII: tab to carriage return, the four separators,
    and the space *)
Definition is_space (c : ascii) : bool :=
  let n := N_of_ascii c in
  (((9 <=? n) && (n <=? 13)) || ((28 <=? n) && (n <=? 32)))%N.

Fixpoint lstrip (s : string) : string :=
  match s with
  | EmptyString => EmptyString
  | String c r => if is_space c then lstrip r else s
  end.

Fixpoint rstrip (s : string) : string :=
  match s with
  | EmptyString => EmptyString
  | String c r =>
      match rstrip r with
      | EmptyString => if is_space c then EmptyString else String c EmptyString
      | kept => String c kept
      end
  end.

(** [s.strip()] *)
Definition strip (s : string) : string := rstrip (lstrip s).

(** All characters of [s] are white space *)
Fixpoint blank (s : string) : bool :=
  match s with
  | EmptyString => true
  | String c r => is_space c && blank r
  end.

(** api.py 786: the ["displayName"] of the year grid *)
Definition display_name (e : employee) : string :=
  strip (fmt (emp_firstname e) ++ " " ++ fmt (emp_name e)).

(** api.py 617 and 711:
    [f"{firstname} {name}".strip() or f"Mitarbeiter {id}"] *)
Definition employee_label (e : employee) : string :=
  py_or (Some (display_name e)) ("Mitarbeiter " ++ str_of_Z (emp_id e)).

(** ** The legend of the year grid *)

(** api.py 948-955 *)
Definition builtin_legend : list (string * option string) :=
  [("SD", Some "Spätdienst"); ("FD", Some "Frühdienst");
   ("UA", Some "Urlaub"); ("AB", Some "Abwesenheit");
   ("SP", Some "Special"); ("MN", Some "Manual")]%string.

(** api.py 958-961 *)
Definition legend_step (legend : list (string * option string))
  (shift_def : shift_def) : list (string * option string) :=
  match sd_shortname shift_def with
  | Some shortname =>
      if PyStr.truthy shortname
         && negb (PyDict.mem String.eqb shortname legend)
      then PyDict.set String.eqb shortname (sd_name shift_def) legend
      else legend
  | None => legend
  end.

(** api.py 947-961 *)
Definition jahres_legend (defs : list (Z * shift_def))
  : list (string * option string) :=
  fold_left legend_step (PyDict.values defs) builtin_legend.

(** ** Range views: [get_dienstplan_range] and [get_einsatzplan_range]

    Both views read the assignments with [where_date_range] queries of
    the query engine.  The views are defined over what these queries
    gave; [None] stands for a query that raised.  The ['start_time'] and
    ['end_time'] entries, copied from the shift definition, are left
    out. *)

(** [d.toordinal()] *)
Definition days_before_year (y : Z) : Z :=
  let p := y - 1 in p * 365 + p / 4 - p / 100 + p / 400.

Definition days_before_month (y m : Z) : Z :=
  fold_right Z.add 0 (map (days_in_month y) (range 1 m)).

Definition toordinal (d : date) : Z :=
  days_before_year (year d) + days_before_month (year d) (month d) + day d.

(** The day after [d] in the calendar, [d + timedelta(days=1)] *)
Definition next_day (d : date) : date :=
  if day d <? days_in_month (year d) (month d)
  then mkdate (year d) (month d) (day d + 1)
  else if month d <? 12
       then mkdate (year d) (month d + 1) 1
       else mkdate (year d + 1) 1 1.

(** [(end_date - start_date).days + 1] *)
Definition days_in_range (start_date end_date : date) : Z :=
  toordinal end_date - toordinal start_date + 1.

Record range_entry := mkrange_entry {
  re_date : date_value;
  re_shift_id : option Z;
  re_shift_name : option string
}.

Record range_employee := mkrange_employee {
  rg_id : Z;
  rg_name : string;
  rg_schedule : list range_entry
}.

Record dienstplan_range := mkdienstplan_range {
  dr_start_date : string;
  dr_end_date : string;
  dr_days_in_range : Z;
  dr_employees : list range_employee
}.

(** api.py 612-619 *)
Definition range_schedules (employees : list employee)
  : list (Z * range_employee) :=
  fold_left (fun d employee =>
               PyDict.set Z.eqb (emp_id employee)
                 (mkrange_employee (emp_id employee) (employee_label employee) [])
                 d)
            employees [].

(** api.py 625-632 *)
Definition range_entry_of (defs : list (Z * shift_def)) (a : shift_row)
  : range_entry :=
  mkrange_entry (sr_date a) (sr_shift_id a)
    (def_get_or sd_name "Schicht"%string (lookup_def defs (sr_shift_id a))).

(** api.py 622-632 *)
Definition dienstplan_range_step (defs : list (Z * shift_def))
  (d : list (Z * range_employee)) (a : shift_row)
  : list (Z * range_employee) :=
  match sr_employee_id a with
  | Some i =>
      match PyDict.get Z.eqb i d with
      | Some es =>
          PyDict.set Z.eqb i
            (mkrange_employee (rg_id es) (rg_name es)
               (rg_schedule es ++ [range_entry_of defs a]))
            d
      | None => d
      end
  | None => d
  end.

(** api.py 579-642.  [employees] is what the employee query gave, [mashi]
    and [spshi] what the two range queries gave.  When one of them
    raises, the handler of api.py 604-605 names [logger], which the
    module does not define, and the [NameError] ends the request. *)
Definition get_dienstplan_range (st : store) (employees : list employee)
  (mashi spshi : option (list shift_row)) (start_date end_date : date)
  : response dienstplan_range :=
  match mashi, spshi with
  | Some main_shifts, Some special_shifts =>
      let shift_assignments := main_shifts ++ special_shifts in
      let defs := shift_definitions st in
      Ok (mkdienstplan_range (isoformat start_date) (isoformat end_date)
            (days_in_range start_date end_date)
            (PyDict.values
               (fold_left (dienstplan_range_step defs) shift_assignments
                  (range_schedules employees))))
  | _, _ => HTTP500
  end.

(** What the four range queries of [get_einsatzplan_range] gave *)
Record range_queries := mkrange_queries {
  rq_mashi : option (list shift_row);
  rq_spshi : option (list shift_row);
  rq_absen : option (list absence_row);
  rq_leave : option (list leave_row)
}.

(** api.py 689-695 *)
Definition leave_assignments (leaves : list leave_row) : list shift_row :=
  map (fun l => mkshift_row (lv_employee_id l) (lv_date l) (Some 99998)
                  (Some "leave"%string))
      leaves.

(** api.py 656-707: a query that raises ends the loading, and what was
    loaded before it stays; a failing leave query is passed over *)
Definition range_assignments (q : range_queries) : list shift_row :=
  match rq_mashi q with
  | None => []
  | Some main_shifts =>
      match rq_spshi q with
      | None => main_shifts
      | Some special_shifts =>
          match rq_absen q with
          | None => main_shifts ++ special_shifts
          | Some absences =>
              main_shifts ++ special_shifts ++ absence_assignments absences
              ++ match rq_leave q with
                 | Some leaves => leave_assignments leaves
                 | None => []
                 end
          end
      end
  end.

Record range_assignment := mkrange_assignment {
  ra_date : date_value;
  ra_employee_id : option Z;
  ra_employee_name : string
}.

Record range_shift := mkrange_shift {
  rs_id : Z;
  rs_name : option string;
  rs_assignments : list range_assignment
}.

Record einsatzplan_range := mkeinsatzplan_range {
  er_start_date : string;
  er_end_date : string;
  er_days_in_range : Z;
  er_shifts : list range_shift
}.

(** api.py 711-712 *)
Definition employee_names (employees : list employee) : list (Z * string) :=
  fold_left (fun d e => PyDict.set Z.eqb (emp_id e) (employee_label e) d)
            employees [].

(** [employee_names.get(emp_id, f'Mitarbeiter {emp_id}')] *)
Definition employee_name_of (names : list (Z * string)) (emp_id : option Z)
  : string :=
  match emp_id with
  | Some i =>
      match PyDict.get Z.eqb i names with
      | Some n => n
      | None => ("Mitarbeiter " ++ str_of_Z i)%string
      end
  | None => "Mitarbeiter None"%string
  end.

(** api.py 715-739 *)
Definition shift_schedules (defs : list (Z * shift_def))
  : list (Z * range_shift) :=
  let from_defs :=
    fold_left (fun d kv =>
                 PyDict.set Z.eqb (fst kv)
                   (mkrange_shift (fst kv) (sd_name (snd kv)) []) d)
              defs [] in
  PyDict.set Z.eqb 99998 (mkrange_shift 99998 (Some "Urlaub"%string) [])
    (PyDict.set Z.eqb 99999 (mkrange_shift 99999 (Some "Abwesenheit"%string) [])
       from_defs).

(** [shift.get('type') == 'leave'] *)
Definition is_leave (shift : shift_row) : bool :=
  match sr_type shift with
  | Some t => String.eqb t "leave"
  | None => false
  end.

(** api.py 743-750: the id of the row an assignment goes to *)
Definition range_shift_id (a : shift_row) : option Z :=
  if is_absence a then Some 99999
  else if is_leave a then Some 99998
  else sr_shift_id a.

(** api.py 753-757 *)
Definition range_assignment_of (names : list (Z * string)) (a : shift_row)
  : range_assignment :=
  mkrange_assignment (sr_date a) (sr_employee_id a)
    (employee_name_of names (sr_employee_id a)).

(** api.py 742-757 *)
Definition einsatzplan_range_step (names : list (Z * string))
  (d : list (Z * range_shift)) (a : shift_row) : list (Z * range_shift) :=
  match range_shift_id a with
  | Some i =>
      match PyDict.get Z.eqb i d with
      | Some row =>
          PyDict.set Z.eqb i
            (mkrange_shift (rs_id row) (rs_name row)
               (rs_assignments row ++ [range_assignment_of names a]))
            d
      | None => d
      end
  | None => d
  end.

(** api.py 644-767 *)
Definition get_einsatzplan_range (st : store) (q : range_queries)
  (start_date end_date : date) : response einsatzplan_range :=
  let defs := shift_definitions st in
  let shift_assignments := range_assignments q in
  let names := employee_names (tbl_5EMPL st) in
  Ok (mkeinsatzplan_range (isoformat start_date) (isoformat end_date)
        (days_in_range start_date end_date)
        (PyDict.values
           (fold_left (einsatzplan_range_step names) shift_assignments
              (shift_schedules defs)))).

(** ** Reports *)

(** [a < b] on dates *)
Definition date_ltb (a b : date) : bool :=
  (year a <? year b) ||
  ((year a =? year b) &&
   ((month a <? month b) || ((month a =? month b) && (day a <? day b)))).

(** [min(x :: l)] and [max(x :: l)]: the first least and the first
    greatest element *)
Definition min_date (x : date) (l : list date) : date :=
  fold_left (fun m d => if date_ltb d m then d else m) l x.

Definition max_date (x : date) (l : list date) : date :=
  fold_left (fun m d => if date_ltb m d then d else m) l x.

(** api.py 1049-1055, 1136-1147 and 1210-1236: the date a report reads
    from a record.  Only text that contains a ['-'] is parsed; any other
    value, and text that does not parse, is passed over. *)
Definition report_date (v : date_value) : option date :=
  if truthy v then
    match v with
    | DStr s =>
        if PyStr.contains "-" s
        then Strptime.strptime (PyStr.take 10 s) Strptime.fmt_Y_m_d
        else None
    | _ => None
    end
  else None.

Record date_range := mkdate_range {
  earliest : option string;
  latest : option string;
  total_shifts : Z
}.

(** The ["statistics"] of the summary; the store has no table of groups,
    and their count is left out *)
Record statistics := mkstatistics {
  st_employees : Z;
  st_shift_types : Z;
  st_main_assignments : Z;
  st_special_assignments : Z;
  st_total_assignments : Z;
  st_date_range : date_range
}.

(** api.py 1046-1055 *)
Definition summary_dates (st : store) : list date :=
  fold_left (fun dates shift =>
               match report_date (sr_date shift) with
               | Some shift_date => dates ++ [shift_date]
               | None => dates
               end)
            (tbl_5MASHI st ++ tbl_5SPSHI st) [].

(** api.py 1034-1101 *)
Definition get_reports_summary (st : store) : statistics :=
  let mashi_count := Z.of_nat (List.length (tbl_5MASHI st)) in
  let spshi_count := Z.of_nat (List.length (tbl_5SPSHI st)) in
  let dates := summary_dates st in
  mkstatistics
    (Z.of_nat (List.length (tbl_5EMPL st)))
    (Z.of_nat (List.length (tbl_5SHIFT st)))
    mashi_count spshi_count (mashi_count + spshi_count)
    (match dates with
     | [] => mkdate_range None None 0
     | x :: r =>
         mkdate_range (Some (isoformat (min_date x r)))
           (Some (isoformat (max_date x r)))
           (Z.of_nat (List.length dates))
     end).

(** An assignment of the employee report: the record with its
    ['parsed_date'] and ['shift_name'] *)
Record report_assignment := mkreport_assignment {
  rp_assignment : shift_row;
  rp_parsed_date : date;
  rp_shift_name : option string
}.

(** api.py 1140 *)
Definition in_period (y : Z) (m : option Z) (shift_date : date) : bool :=
  (year shift_date =? y)
  && match m with
     | None => true
     | Some k => month shift_date =? k
     end.

(** api.py 1134-1147 *)
Definition filter_step (defs : list (Z * shift_def)) (y : Z) (m : option Z)
  (filtered : list report_assignment) (a : shift_row)
  : list report_assignment :=
  match report_date (sr_date a) with
  | Some shift_date =>
      if in_period y m shift_date
      then filtered
           ++ [mkreport_assignment a shift_date
                 (def_get_or sd_name "Unknown"%string
                    (lookup_def defs (sr_shift_id a)))]
      else filtered
  | None => filtered
  end.

Definition filtered_assignments (defs : list (Z * shift_def)) (y : Z)
  (m : option Z) (rows : list shift_row) : list report_assignment :=
  fold_left (filter_step defs y m) rows [].

Record shift_stat := mkshift_stat {
  ss_count : Z;
  ss_dates : list string
}.

Definition opt_string_eqb (a b : option string) : bool :=
  match a, b with
  | Some x, Some y => String.eqb x y
  | None, None => true
  | _, _ => false
  end.

(** api.py 1151-1159 *)
Definition stats_step (shift_stats : list (option string * shift_stat))
  (a : report_assignment) : list (option string * shift_stat) :=
  let shift_name := rp_shift_name a in
  let cur :=
    match PyDict.get opt_string_eqb shift_name shift_stats with
    | Some s => s
    | None => mkshift_stat 0 []
    end in
  PyDict.set opt_string_eqb shift_name
    (mkshift_stat (ss_count cur + 1)
       (ss_dates cur ++ [isoformat (rp_parsed_date a)]))
    shift_stats.

Record employee_report := mkemployee_report {
  rep_employee : employee;
  rep_year : Z;
  rep_month : option Z;
  rep_month_name : string;
  rep_total_shifts : Z;
  rep_shift_distribution : list (option string * shift_stat);
  rep_assignments : list report_assignment
}.

(** api.py 1166-1167 and 1258-1259 *)
Definition report_months : list string :=
  [""; "Januar"; "Februar"; "März"; "April"; "Mai"; "Juni";
   "Juli"; "August"; "September"; "Oktober"; "November"; "Dezember"]%string.

(** api.py 1103-1175.  [m] is between 1 and 12 when given
    ([Query(None, ge=1, le=12)]).  The 404 for an unknown employee is
    raised inside the [try] and leaves it as a 500. *)
Definition get_employee_shifts_report (st : store) (employee_id y : Z)
  (m : option Z) : response employee_report :=
  match filter (fun e => emp_id e =? employee_id) (tbl_5EMPL st) with
  | [] => HTTP500
  | employee :: _ =>
      let mashi_assignments :=
        for_employee sr_employee_id employee_id (tbl_5MASHI st) in
      let spshi_assignments :=
        for_employee sr_employee_id employee_id (tbl_5SPSHI st) in
      let all_assignments := mashi_assignments ++ spshi_assignments in
      let filtered :=
        filtered_assignments (shift_definitions st) y m all_assignments in
      Ok (mkemployee_report employee y m
            (match m with
             | Some k =>
                 if k =? 0 then "Ganzes Jahr"%string
                 else nth (Z.to_nat k) report_months EmptyString
             | None => "Ganzes Jahr"%string
             end)
            (Z.of_nat (List.length filtered))
            (fold_left stats_step filtered [])
            (firstn 50 filtered))
  end.

Record coverage_entry := mkcoverage_entry {
  ce_employee_id : option Z;
  ce_employee_name : string
}.

Record coverage_row := mkcoverage_row {
  cv_shift_definition : option shift_def;
  cv_coverage_by_day : list (Z * list coverage_entry);
  cv_total_assignments : Z
}.

(** api.py 1217 and 1232 *)
Definition coverage_name (employees_dict : list (Z * employee))
  (employee_id : option Z) : string :=
  let employee := lookup_employee employees_dict employee_id in
  strip (fmt (match employee with
              | Some e => emp_name e
              | None => Some "Unknown"%string
              end)
         ++ " "
         ++ fmt (match employee with
                 | Some e => emp_firstname e
                 | None => Some EmptyString
                 end)).

(** api.py 1209-1236 *)
Definition coverage_step (start stop : date) (defs : list (Z * shift_def))
  (employees_dict : list (Z * employee))
  (coverage_data : list (option string * coverage_row)) (a : shift_row)
  : list (option string * coverage_row) :=
  match report_date (sr_date a) with
  | Some shift_date =>
      if in_window start stop shift_date then
        let shift_def := lookup_def defs (sr_shift_id a) in
        let shift_name := def_get_or sd_name "Unknown"%string shift_def in
        let row :=
          match PyDict.get opt_string_eqb shift_name coverage_data with
          | Some r => r
          | None => mkcoverage_row shift_def [] 0
          end in
        let people :=
          match PyDict.get Z.eqb (day shift_date) (cv_coverage_by_day row) with
          | Some l => l
          | None => []
          end in
        PyDict.set opt_string_eqb shift_name
          (mkcoverage_row (cv_shift_definition row)
             (PyDict.set Z.eqb (day shift_date)
                (people
                 ++ [mkcoverage_entry (sr_employee_id a)
                       (coverage_name employees_dict (sr_employee_id a))])
                (cv_coverage_by_day row))
             (cv_total_assignments row + 1))
          coverage_data
      else coverage_data
  | None => coverage_data
  end.

(** An entry of ["coverage_statistics"]; the two averages, which are
    floating point numbers, are left out *)
Record coverage_stat := mkcoverage_stat {
  cs_days_covered : Z;
  cs_days_in_month : Z;
  cs_total_assignments : Z;
  cs_coverage_by_day : list (Z * list coverage_entry)
}.

Record coverage_report := mkcoverage_report {
  cr_year : Z;
  cr_month : Z;
  cr_month_name : string;
  cr_days_in_month : Z;
  cr_coverage_statistics : list (option string * coverage_stat);
  cr_total_shift_types : Z
}.

(** api.py 1239-1252 *)
Definition coverage_stats (last_day : Z)
  (coverage_data : list (option string * coverage_row))
  : list (option string * coverage_stat) :=
  fold_left (fun stats item =>
               PyDict.set opt_string_eqb (fst item)
                 (mkcoverage_stat
                    (Z.of_nat (List.length (cv_coverage_by_day (snd item))))
                    last_day
                    (cv_total_assignments (snd item))
                    (cv_coverage_by_day (snd item)))
                 stats)
            coverage_data [].

(** The loop of api.py 1208-1236 *)
Definition coverage_data (st : store) (start stop : date)
  : list (option string * coverage_row) :=
  fold_left (coverage_step start stop (shift_definitions st)
               (PyDict.of_list Z.eqb emp_id (tbl_5EMPL st)))
            (tbl_5MASHI st ++ tbl_5SPSHI st) [].

(** api.py 1177-1271.  [m] is between 1 and 12 ([Query(6, ge=1, le=12)]);
    the best and the worst covered shift, chosen by a floating point
    percentage, are left out. *)
Definition get_shift_coverage_report (st : store) (y m : Z)
  : response coverage_report :=
  bind (month_window y m) (fun w =>
    let last_day := days_in_month y m in
    let stats := coverage_stats last_day (coverage_data st (fst w) (snd w)) in
    Ok (mkcoverage_report y m
          (nth (Z.to_nat m) report_months EmptyString)
          last_day stats (Z.of_nat (List.length stats)))).

(** ** Further example data *)

(** Employee 7 with a main assignment, an absence and a leave on
    2025-06-05 *)
Definition store_leave_day : store :=
  mkstore [employee_7]
    [mkshift_row (Some 7) (DStr "2025-06-05") (Some 1) None]
    []
    [mkabsence_row (Some 7) (DStr "2025-06-05") (Some 1)]
    (Some [mkleave_row (Some 7) (DDate (mkdate 2025 6 5)) (Some 3)])
    [shift_X].

(** ** The common form of the grouping loops

    The loops of api.py 622-632, 742-757 and 1151-1159 append an entry to
    the list kept under a key of a dictionary.  [goes_to] tells whether a
    record goes to a key, [append_step] is the body of such a loop over
    the keys that are present, and [append_at] what it does to one
    item. *)

Definition goes_to {K X} (eqb : K -> K -> bool) (target : X -> option K)
  (k : K) (a : X) : bool :=
  match target a with
  | Some i => eqb i k
  | None => false
  end.

Definition append_step {K V X E} (eqb : K -> K -> bool)
  (target : X -> option K) (entries : V -> list E)
  (with_entries : V -> list E -> V) (entry : X -> E)
  (d : list (K * V)) (a : X) : list (K * V) :=
  match target a with
  | Some i =>
      match PyDict.get eqb i d with
      | Some v =>
          PyDict.set eqb i (with_entries v (entries v ++ [entry a])) d
      | None => d
      end
  | None => d
  end.

Definition append_at {K V X E} (eqb : K -> K -> bool)
  (target : X -> option K) (entries : V -> list E)
  (with_entries : V -> list E -> V) (entry : X -> E)
  (a : X) (kv : K * V) : K * V :=
  if goes_to eqb target (fst kv) a
  then (fst kv, with_entries (snd kv) (entries (snd kv) ++ [entry a]))
  else kv.

(** ** Reading the views' failures and cells *)

(** A row on which the loop of the month grid raises: it belongs to a
    listed employee, and its date is neither text nor a date
    (api.py 363-380) *)
Definition dienstplan_raises (fromisoformat : string -> option date)
  (employees : list employee) (r : shift_row) : bool :=
  scheduled employees r
  && truthy (sr_date r)
  && match dienstplan_date fromisoformat (sr_date r) with
     | NRaise => true
     | _ => false
     end.

(** An assignment of employee 42 whose date is a number *)
Definition store_number_date : store :=
  mkstore [employee_42]
    [mkshift_row (Some 42) (DInt 20250610) (Some 1) None]
    [] [] None [shift_early].

(** Employee 7 on the late shift Y on 2025-06-05 and on the early shift X
    the day after *)
Definition store_late_first : store :=
  mkstore [employee_7]
    [mkshift_row (Some 7) (DStr "2025-06-05") (Some 2) None;
     mkshift_row (Some 7) (DStr "2025-06-06") (Some 1) None]
    [] [] None [shift_X; shift_Y].

(** What the range queries gave for the first week of June 2025: two
    main assignments of employee 7, one of them to a shift that is not
    defined, an absence, and no leave table *)
Definition queries_june : range_queries :=
  mkrange_queries
    (Some [mkshift_row (Some 7) (DStr "2025-06-05") (Some 2) None;
           mkshift_row (Some 7) (DStr "2025-06-06") (Some 77) None])
    (Some [])
    (Some [mkabsence_row (Some 7) (DStr "2025-06-07") (Some 1)])
    None.

(** A report reads the record: its date is text that parses *)
Definition has_report_date (r : shift_row) : bool :=
  match report_date (sr_date r) with
  | Some _ => true
  | None => false
  end.

(** The coverage report counts the record: its date is text that parses
    to a day of the window *)
Definition covered (start stop : date) (r : shift_row) : bool :=
  match report_date (sr_date r) with
  | Some d => in_window start stop d
  | None => false
  end.

(** What holds of every row of the coverage data of a month of [last_day]
    days *)
Definition coverage_row_ok (last_day : Z) (row : coverage_row) : Prop :=
  cv_coverage_by_day row <> []
  /\ NoDup (PyDict.keys (cv_coverage_by_day row))
  /\ (forall k people, In (k, people) (cv_coverage_by_day row) ->
        1 <= k <= last_day /\ people <> [])
  /\ cv_total_assignments row
     = Z.of_nat (total (@List.length coverage_entry) (cv_coverage_by_day row)).

(** The date of the record is text *)
Definition is_text (v : date_value) : bool :=
  match v with
  | DStr _ => true
  | _ => false
  end.

(** Employee 7 with one main assignment, dated with a native date *)
Definition store_native_date : store :=
  mkstore [employee_7]
    [mkshift_row (Some 7) (DDate (mkdate 2025 6 5)) (Some 1) None]
    [] [] None [shift_X].

(** Two active employees, 42 and 7, and employee 9, who left at the end
    of 2024; each of the three has a main assignment in June 2025 *)
Definition employee_left : employee :=
  mkemployee 9 (Some "Maier"%string) (Some "Jo"%string)
    (DDate (mkdate 2024 12 31)).

Definition store_with_leaver : store :=
  mkstore [employee_42; employee_left; employee_7]
    [mkshift_row (Some 42) (DStr "2025-06-10") (Some 1) None;
     mkshift_row (Some 9) (DStr "2025-06-11") (Some 1) None;
     mkshift_row (Some 7) (DStr "2025-06-12") (Some 1) None]
    [] [] None [shift_early].

(** * Properties *)

(** ** Digits and padded numbers *)

Lemma is_digit_digit_char (n : Z) : PyStr.is_digit (PyStr.digit_char n) = true.
Proof.
  pose proof (Z.mod_pos_bound n 10 ltac:(lia)) as B.
  unfold PyStr.is_digit, PyStr.digit_val, PyStr.digit_char.
  rewrite N_ascii_embedding by lia.
  rewrite Z2N.id by lia.
  replace ((48 <=? 48 + n mod 10) && (48 + n mod 10 <=? 57)) with true by lia.
  reflexivity.
Qed.

Lemma digit_char_neq (n : Z) (c : ascii) :
  PyStr.is_digit c = false -> Ascii.eqb (PyStr.digit_char n) c = false.
Proof.
  intros Hc. destruct (Ascii.eqb_spec (PyStr.digit_char n) c) as [E|]; auto.
  rewrite <- E, is_digit_digit_char in Hc. discriminate.
Qed.

Lemma digit_val_digit_char (n : Z) :
  0 <= n <= 9 -> PyStr.digit_val (PyStr.digit_char n) = Some n.
Proof.
  intros H. unfold PyStr.digit_val, PyStr.digit_char.
  rewrite Z.mod_small by lia.
  rewrite N_ascii_embedding by lia.
  rewrite Z2N.id by lia.
  replace ((48 <=? 48 + n) && (48 + n <=? 57)) with true by lia.
  f_equal. lia.
Qed.

Lemma four_pad4 (y : Z) (r : string) :
  0 <= y <= 9999 -> Strptime.four (PyStr.pad4 y ++ r) = [(y, r)].
Proof.
  intros H. unfold PyStr.pad4. cbn [String.append Strptime.four].
  rewrite !digit_val_digit_char.
  - do 3 f_equal.
    pose proof (Z.div_mod y 10 ltac:(lia)).
    pose proof (Z.div_mod (y / 10) 10 ltac:(lia)).
    pose proof (Z.div_mod (y / 100) 10 ltac:(lia)).
    replace (y / 100) with (y / 10 / 10) in *
      by (rewrite Z.div_div by lia; reflexivity).
    replace (y / 1000) with (y / 10 / 10 / 10)
      by (rewrite !Z.div_div by lia; reflexivity).
    assert (y / 10 / 10 / 10 < 10).
    { rewrite !Z.div_div by lia. apply Z.div_lt_upper_bound; lia. }
    assert (0 <= y / 10 / 10 / 10) by (rewrite !Z.div_div by lia; apply Z.div_pos; lia).
    assert (E : y / 10 / 10 mod 10 = y / 10 / 10 / 10 * 0 + y / 10 / 10 - 10 * (y / 10 / 10 / 10)).
    { pose proof (Z.div_mod (y / 10 / 10) 10 ltac:(lia)). lia. }
    lia.
  - pose proof (Z.mod_pos_bound y 10 ltac:(lia)). lia.
  - pose proof (Z.mod_pos_bound (y / 10) 10 ltac:(lia)). lia.
  - pose proof (Z.mod_pos_bound (y / 100) 10 ltac:(lia)). lia.
  - split; [apply Z.div_pos; lia | ].
    assert (y / 1000 < 10) by (apply Z.div_lt_upper_bound; lia). lia.
Qed.

(** ** [strptime] reads back what the encodings write *)

Ltac enumerate_Z n :=
  let p := fresh "p" in
  destruct n as [|p|p]; try lia;
  do 5 (try (destruct p as [p|p|]; try lia)).

Lemma month_head (m : Z) (r : string) :
  1 <= m <= 12 ->
  hd_error (Strptime.candidates Strptime.Dir_m (PyStr.pad2 m ++ r)) = Some (m, r).
Proof. intros H. enumerate_Z m; reflexivity. Qed.

Lemma day_head (d : Z) (r : string) :
  1 <= d <= 31 ->
  hd_error (Strptime.candidates Strptime.Dir_d (PyStr.pad2 d ++ r)) = Some (d, r).
Proof. intros H. enumerate_Z d; reflexivity. Qed.

Lemma short_year_head (y : Z) (r : string) :
  0 <= y <= 99 ->
  hd_error (Strptime.candidates Strptime.Dir_y (PyStr.pad2 y ++ r)) = Some (y, r).
Proof.
  intros H. unfold PyStr.pad2. cbn [String.append Strptime.candidates Strptime.two].
  unfold Strptime.in_range.
  assert (0 <= y / 10 <= 9).
  { split; [apply Z.div_pos; lia | ].
    assert (y / 10 < 10) by (apply Z.div_lt_upper_bound; lia). lia. }
  pose proof (Z.mod_pos_bound y 10 ltac:(lia)).
  rewrite !digit_val_digit_char by lia.
  replace ((0 <=? y / 10) && (y / 10 <=? 9)) with true by lia.
  replace ((0 <=? y mod 10) && (y mod 10 <=? 9)) with true by lia.
  cbn [hd_error]. do 3 f_equal.
  pose proof (Z.div_mod y 10 ltac:(lia)). lia.
Qed.

Lemma year_head (y : Z) (r : string) :
  0 <= y <= 9999 ->
  hd_error (Strptime.candidates Strptime.Dir_Y (PyStr.pad4 y ++ r)) = Some (y, r).
Proof. intros H. cbn [Strptime.candidates]. rewrite four_pad4 by lia. reflexivity. Qed.

Lemma lit_head (c : ascii) (r : string) :
  hd_error (Strptime.candidates (Strptime.Lit c) (String c r)) = Some (0, r).
Proof. cbn. rewrite Ascii.eqb_refl. reflexivity. Qed.

Lemma regex_match_head (d : Strptime.directive) fmt s f v r res :
  hd_error (Strptime.candidates d s) = Some (v, r) ->
  Strptime.regex_match fmt r (Strptime.store d v f) = Some res ->
  Strptime.regex_match (d :: fmt) s f = Some res.
Proof.
  cbn [Strptime.regex_match]. destruct (Strptime.candidates d s) as [|c tl]; cbn.
  - discriminate.
  - intros [= ->]. cbn. intros ->. reflexivity.
Qed.

Lemma valid_ymd_bounds (y m d : Z) :
  valid_ymd y m d = true ->
  1 <= y <= 9999 /\ 1 <= m <= 12 /\ 1 <= d <= days_in_month y m /\ 1 <= d <= 31.
Proof.
  unfold valid_ymd. intros H.
  assert (days_in_month y m <= 31).
  { unfold days_in_month. destruct (is_leap y).
    - enumerate_Z m; cbn; lia.
    - enumerate_Z m; cbn; lia. }
  lia.
Qed.


Ltac read_field :=
  eapply regex_match_head;
  [ first [ apply year_head; lia | apply month_head; lia | apply day_head; lia
          | apply short_year_head; lia | apply lit_head
          | apply (year_head _ EmptyString); lia
          | apply (day_head _ EmptyString); lia
          | apply (short_year_head _ EmptyString); lia ] | ].

Ltac read_all := repeat read_field; reflexivity.

Section Roundtrip.

Variables y m d : Z.
Hypothesis Hy : 0 <= y <= 9999.
Hypothesis Hm : 1 <= m <= 12.
Hypothesis Hd : 1 <= d <= 31.

Lemma regex_encode_iso :
  Strptime.regex_match Strptime.fmt_Y_m_d (encode_iso (mkdate y m d)) Strptime.init
  = Some (Strptime.mkfields y m d, EmptyString).
Proof.
  unfold Strptime.fmt_Y_m_d, encode_iso, isoformat. cbn [year month day].
  read_all.
Qed.

Lemma regex_encode_slash :
  Strptime.regex_match Strptime.fmt_m_d_Y (encode_slash (mkdate y m d)) Strptime.init
  = Some (Strptime.mkfields y m d, EmptyString).
Proof.
  unfold Strptime.fmt_m_d_Y, encode_slash. cbn [year month day]. read_all.
Qed.

Lemma regex_encode_dot :
  Strptime.regex_match Strptime.fmt_d_m_Y (encode_dot (mkdate y m d)) Strptime.init
  = Some (Strptime.mkfields y m d, EmptyString).
Proof.
  unfold Strptime.fmt_d_m_Y, encode_dot. cbn [year month day]. read_all.
Qed.

Lemma regex_encode_compact :
  Strptime.regex_match Strptime.fmt_Ymd (encode_compact (mkdate y m d)) Strptime.init
  = Some (Strptime.mkfields y m d, EmptyString).
Proof.
  unfold Strptime.fmt_Ymd, encode_compact. cbn [year month day]. read_all.
Qed.

Lemma regex_encode_slash_short :
  Strptime.regex_match Strptime.fmt_d_m_y (encode_slash_short (mkdate y m d))
    Strptime.init
  = Some (Strptime.mkfields
            (if y mod 100 <=? 68 then 2000 + y mod 100 else 1900 + y mod 100)
            m d, EmptyString).
Proof.
  pose proof (Z.mod_pos_bound y 100 ltac:(lia)).
  unfold Strptime.fmt_d_m_y, encode_slash_short. cbn [year month day]. read_all.
Qed.

End Roundtrip.

Lemma strptime_of_regex fmt s (x : date) :
  valid_date x = true ->
  Strptime.regex_match fmt s Strptime.init
  = Some (Strptime.mkfields (year x) (month x) (day x), EmptyString) ->
  Strptime.strptime s fmt = Some x.
Proof.
  intros V E. unfold Strptime.strptime. rewrite E. cbn.
  unfold make_date. unfold valid_date in V. rewrite V. destruct x; reflexivity.
Qed.

Lemma strptime_encode_iso (x : date) :
  valid_date x = true ->
  Strptime.strptime (encode_iso x) Strptime.fmt_Y_m_d = Some x.
Proof.
  intros V. apply strptime_of_regex; trivial.
  destruct (valid_ymd_bounds _ _ _ V) as (? & ? & _ & ?).
  destruct x. apply regex_encode_iso; cbn in *; lia.
Qed.

Lemma strptime_encode_slash (x : date) :
  valid_date x = true ->
  Strptime.strptime (encode_slash x) Strptime.fmt_m_d_Y = Some x.
Proof.
  intros V. apply strptime_of_regex; trivial.
  destruct (valid_ymd_bounds _ _ _ V) as (? & ? & _ & ?).
  destruct x. apply regex_encode_slash; cbn in *; lia.
Qed.

Lemma strptime_encode_dot (x : date) :
  valid_date x = true ->
  Strptime.strptime (encode_dot x) Strptime.fmt_d_m_Y = Some x.
Proof.
  intros V. apply strptime_of_regex; trivial.
  destruct (valid_ymd_bounds _ _ _ V) as (? & ? & _ & ?).
  destruct x. apply regex_encode_dot; cbn in *; lia.
Qed.

Lemma strptime_encode_compact (x : date) :
  valid_date x = true ->
  Strptime.strptime (encode_compact x) Strptime.fmt_Ymd = Some x.
Proof.
  intros V. apply strptime_of_regex; trivial.
  destruct (valid_ymd_bounds _ _ _ V) as (? & ? & _ & ?).
  destruct x. apply regex_encode_compact; cbn in *; lia.
Qed.

Lemma strptime_encode_slash_short (x : date) :
  valid_date x = true -> 1969 <= year x <= 2068 ->
  Strptime.strptime (encode_slash_short x) Strptime.fmt_d_m_y = Some x.
Proof.
  intros V Hc. apply strptime_of_regex; trivial.
  destruct (valid_ymd_bounds _ _ _ V) as (? & ? & _ & ?).
  destruct x as [y m d]. cbn [year month day] in *.
  rewrite regex_encode_slash_short by lia. do 3 f_equal.
  pose proof (Z.div_mod y 100 ltac:(lia)).
  pose proof (Z.mod_pos_bound y 100 ltac:(lia)).
  destruct (y mod 100 <=? 68) eqn:E; lia.
Qed.

(** ** Which branch of a normaliser an encoding takes *)

Ltac encoded_text :=
  unfold encode_iso, isoformat, encode_slash, encode_dot, encode_compact,
    encode_slash_short, PyStr.pad4, PyStr.pad2, PyStr.isdigit, PyStr.len;
  cbn [String.append PyStr.contains PyStr.split PyStr.all_digits String.length
       year month day];
  repeat rewrite digit_char_neq by reflexivity;
  repeat rewrite is_digit_digit_char;
  cbn [PyStr.split orb andb].

Section Normalise.

Variable fromisoformat : string -> option date.
Variable x : date.
Hypothesis V : valid_date x = true.

Lemma einsatzplan_date_iso :
  einsatzplan_date fromisoformat (DStr (encode_iso x)) = NDate x.
Proof.
  unfold einsatzplan_date.
  replace (PyStr.contains "T" (encode_iso x)) with false by (encoded_text; reflexivity).
  replace (PyStr.contains "-" (encode_iso x)) with true by (encoded_text; reflexivity).
  replace (PyStr.len (encode_iso x)) with 10 by reflexivity.
  cbn [andb Z.leb Z.compare Pos.compare Pos.compare_cont].
  change (PyStr.take 10 (encode_iso x)) with (encode_iso x).
  rewrite strptime_encode_iso by exact V. reflexivity.
Qed.

Lemma einsatzplan_date_slash :
  einsatzplan_date fromisoformat (DStr (encode_slash x)) = NDate x.
Proof.
  unfold einsatzplan_date.
  replace (PyStr.contains "T" (encode_slash x)) with false by (encoded_text; reflexivity).
  replace (PyStr.contains "-" (encode_slash x)) with false by (encoded_text; reflexivity).
  replace (PyStr.contains "/" (encode_slash x)) with true by (encoded_text; reflexivity).
  replace (PyStr.split "/" (encode_slash x))
    with [PyStr.pad2 (month x); PyStr.pad2 (day x); PyStr.pad4 (year x)]
    by (encoded_text; reflexivity).
  cbn [andb]. change (PyStr.len (PyStr.pad4 (year x)) =? 4) with true. cbv iota.
  rewrite strptime_encode_slash by exact V. reflexivity.
Qed.

Lemma einsatzplan_date_dot :
  einsatzplan_date fromisoformat (DStr (encode_dot x)) = NDate x.
Proof.
  unfold einsatzplan_date.
  replace (PyStr.contains "T" (encode_dot x)) with false by (encoded_text; reflexivity).
  replace (PyStr.contains "-" (encode_dot x)) with false by (encoded_text; reflexivity).
  replace (PyStr.contains "/" (encode_dot x)) with false by (encoded_text; reflexivity).
  replace (PyStr.contains "." (encode_dot x)) with true by (encoded_text; reflexivity).
  cbn [andb]. rewrite strptime_encode_dot by exact V. reflexivity.
Qed.

Lemma einsatzplan_date_compact :
  einsatzplan_date fromisoformat (DStr (encode_compact x)) = NDate x.
Proof.
  unfold einsatzplan_date.
  replace (PyStr.contains "T" (encode_compact x)) with false by (encoded_text; reflexivity).
  replace (PyStr.contains "-" (encode_compact x)) with false by (encoded_text; reflexivity).
  replace (PyStr.contains "/" (encode_compact x)) with false by (encoded_text; reflexivity).
  replace (PyStr.contains "." (encode_compact x)) with false by (encoded_text; reflexivity).
  replace (PyStr.isdigit (encode_compact x)) with true by (encoded_text; reflexivity).
  change (PyStr.len (encode_compact x) =? 8) with true.
  cbn [andb]. rewrite strptime_encode_compact by exact V. reflexivity.
Qed.

Lemma einsatzplan_date_slash_short :
  1969 <= year x <= 2068 ->
  einsatzplan_date fromisoformat (DStr (encode_slash_short x)) = NDate x.
Proof.
  intros Hc. unfold einsatzplan_date.
  replace (PyStr.contains "T" (encode_slash_short x)) with false by (encoded_text; reflexivity).
  replace (PyStr.contains "-" (encode_slash_short x)) with false by (encoded_text; reflexivity).
  replace (PyStr.contains "/" (encode_slash_short x)) with true by (encoded_text; reflexivity).
  replace (PyStr.split "/" (encode_slash_short x))
    with [PyStr.pad2 (day x); PyStr.pad2 (month x); PyStr.pad2 (year x mod 100)]
    by (encoded_text; reflexivity).
  cbn [andb]. change (PyStr.len (PyStr.pad2 (year x mod 100)) =? 4) with false. cbv iota.
  rewrite strptime_encode_slash_short by (exact V || exact Hc). reflexivity.
Qed.

End Normalise.

(** C8: for every calendar date, the shift matrix reads its ISO, slash
    (month/day/4-digit year), dot and 8-digit encodings back as that same
    date; a slash text with a 2-digit last part is read as
    day/month/2-digit year. *)
Theorem C8_einsatzplan_date_encodings
  (fromisoformat : string -> option date) (x : date) :
  valid_date x = true ->
  einsatzplan_date fromisoformat (DStr (encode_iso x)) = NDate x
  /\ einsatzplan_date fromisoformat (DStr (encode_slash x)) = NDate x
  /\ einsatzplan_date fromisoformat (DStr (encode_dot x)) = NDate x
  /\ einsatzplan_date fromisoformat (DStr (encode_compact x)) = NDate x
  /\ (1969 <= year x <= 2068 ->
      einsatzplan_date fromisoformat (DStr (encode_slash_short x)) = NDate x).
Proof.
  intros V. repeat split.
  - now apply einsatzplan_date_iso.
  - now apply einsatzplan_date_slash.
  - now apply einsatzplan_date_dot.
  - now apply einsatzplan_date_compact.
  - now apply einsatzplan_date_slash_short.
Qed.

Lemma C8_witness :
  valid_date (mkdate 2025 6 3) = true
  /\ encode_iso (mkdate 2025 6 3) = "2025-06-03"%string
  /\ encode_slash (mkdate 2025 6 3) = "06/03/2025"%string
  /\ encode_dot (mkdate 2025 6 3) = "03.06.2025"%string
  /\ encode_compact (mkdate 2025 6 3) = "20250603"%string
  /\ einsatzplan_date fromisoformat_seconds (DStr "2025-06-03") = NDate (mkdate 2025 6 3)
  /\ einsatzplan_date fromisoformat_seconds (DStr "06/03/2025") = NDate (mkdate 2025 6 3)
  /\ einsatzplan_date fromisoformat_seconds (DStr "03.06.2025") = NDate (mkdate 2025 6 3)
  /\ einsatzplan_date fromisoformat_seconds (DStr "20250603") = NDate (mkdate 2025 6 3).
Proof.
  pose proof (C8_einsatzplan_date_encodings fromisoformat_seconds
                (mkdate 2025 6 3) eq_refl) as (H1 & H2 & H3 & H4 & _).
  repeat split; assumption.
Defined.

(** ** Dictionaries *)

Section DictFacts.

Context {K V : Type} (eqb : K -> K -> bool).
Hypothesis eqb_eq : forall a b, eqb a b = true <-> a = b.

Lemma eqb_same (k : K) : eqb k k = true.
Proof. now apply eqb_eq. Qed.

Lemma eqb_other (k k' : K) : k <> k' -> eqb k k' = false.
Proof.
  intros N. destruct (eqb k k') eqn:E; trivial.
  apply eqb_eq in E. contradiction.
Qed.

Lemma get_set_same (k : K) (v : V) (d : list (K * V)) :
  PyDict.get eqb k (PyDict.set eqb k v d) = Some v.
Proof.
  induction d as [|[k' v'] d IH]; cbn.
  - now rewrite eqb_same.
  - destruct (eqb k k') eqn:E; cbn; rewrite E; auto.
Qed.

Lemma get_set_other (k k' : K) (v : V) (d : list (K * V)) :
  k <> k' ->
  PyDict.get eqb k' (PyDict.set eqb k v d) = PyDict.get eqb k' d.
Proof.
  intros N. induction d as [|[k0 v0] d IH]; cbn.
  - rewrite eqb_other; auto.
  - destruct (eqb k k0) eqn:E; cbn.
    + apply eqb_eq in E. subst k0. rewrite !eqb_other; auto.
    + destruct (eqb k' k0); auto.
Qed.

Lemma get_In (k : K) (v : V) (d : list (K * V)) :
  PyDict.get eqb k d = Some v -> In (k, v) d.
Proof.
  induction d as [|[k' v'] d IH]; cbn; [discriminate|].
  destruct (eqb k k') eqn:E.
  - intros [= ->]. apply eqb_eq in E. subst. now left.
  - intros H. right. auto.
Qed.

Lemma In_set (k : K) (v : V) (d : list (K * V)) (x : K * V) :
  In x (PyDict.set eqb k v d) -> In x d \/ x = (k, v).
Proof.
  induction d as [|[k' v'] d IH]; cbn.
  - intros [<-|[]]. now right.
  - destruct (eqb k k') eqn:E; cbn.
    + apply eqb_eq in E. subst k'. intros [<-|H]; auto.
    + intros [<-|H]; auto. destruct (IH H); auto.
Qed.

Lemma keys_set_present (k : K) (v : V) (d : list (K * V)) :
  PyDict.mem eqb k d = true ->
  PyDict.keys (PyDict.set eqb k v d) = PyDict.keys d.
Proof.
  unfold PyDict.mem, PyDict.keys.
  induction d as [|[k' v'] d IH]; cbn; [discriminate|].
  destruct (eqb k k') eqn:E; cbn; [reflexivity|].
  intros H. f_equal. auto.
Qed.

Lemma keys_set_absent (k : K) (v : V) (d : list (K * V)) :
  PyDict.get eqb k d = None ->
  PyDict.keys (PyDict.set eqb k v d) = PyDict.keys d ++ [k].
Proof.
  unfold PyDict.keys.
  induction d as [|[k' v'] d IH]; cbn; [reflexivity|].
  destruct (eqb k k') eqn:E; cbn; [discriminate|].
  intros H. f_equal. auto.
Qed.

Lemma get_None_keys (k : K) (d : list (K * V)) :
  PyDict.get eqb k d = None -> ~ In k (PyDict.keys d).
Proof.
  unfold PyDict.keys.
  induction d as [|[k' v'] d IH]; cbn; [tauto|].
  destruct (eqb k k') eqn:E; [discriminate|].
  intros H [->|H']; [|now apply IH].
  rewrite eqb_same in E. discriminate.
Qed.

Lemma get_Some_mem (k : K) (v : V) (d : list (K * V)) :
  PyDict.get eqb k d = Some v -> PyDict.mem eqb k d = true.
Proof. unfold PyDict.mem. now intros ->. Qed.

Lemma NoDup_keys_set (k : K) (v : V) (d : list (K * V)) :
  NoDup (PyDict.keys d) -> NoDup (PyDict.keys (PyDict.set eqb k v d)).
Proof.
  intros H. destruct (PyDict.get eqb k d) eqn:E.
  - rewrite keys_set_present; [assumption|]. eapply get_Some_mem; eauto.
  - rewrite keys_set_absent by assumption.
    apply NoDup_app; repeat split.
    + assumption.
    + constructor; [intros []|constructor].
    + intros x Hx [<-|[]]. now apply get_None_keys in E.
Qed.

End DictFacts.

Lemma string_eqb_eq (a b : string) : String.eqb a b = true <-> a = b.
Proof. apply String.eqb_eq. Qed.

Lemma Z_eqb_eq (a b : Z) : Z.eqb a b = true <-> a = b.
Proof. apply Z.eqb_eq. Qed.

Lemma get_keys {V} (k : string) (d : list (string * V)) :
  In k (PyDict.keys d) -> PyDict.get String.eqb k d <> None.
Proof.
  intros H E. now apply (get_None_keys _ string_eqb_eq) in E.
Qed.

Lemma keys_get {V} (k : string) (d : list (string * V)) :
  PyDict.get String.eqb k d <> None -> In k (PyDict.keys d).
Proof.
  unfold PyDict.keys. induction d as [|[k' v] d IH]; cbn; [congruence|].
  destruct (String.eqb_spec k k') as [->|N]; auto.
Qed.

(** ** Reconciliation in the year grid *)

Lemma strptime_valid (s : string) fmt (d : date) :
  Strptime.strptime s fmt = Some d -> valid_date d = true.
Proof.
  unfold Strptime.strptime, make_date, valid_date.
  destruct (Strptime.regex_match fmt s Strptime.init) as [[f [|? ?]]|];
    try discriminate.
  destruct (valid_ymd _ _ _) eqn:E; [|discriminate].
  intros [= <-]. exact E.
Qed.

Lemma isoformat_inj (a b : date) :
  valid_date a = true -> valid_date b = true ->
  isoformat a = isoformat b -> a = b.
Proof.
  intros Va Vb E.
  pose proof (strptime_encode_iso a Va) as Ha.
  pose proof (strptime_encode_iso b Vb) as Hb.
  unfold encode_iso in *. rewrite E in Ha. congruence.
Qed.

Lemma assignment_day_valid start stop (a : assignment) (d : date) :
  wf_date_value (a_date a) = true ->
  assignment_day start stop a = Some d -> valid_date d = true.
Proof.
  unfold assignment_day, jahres_date. intros W.
  destruct (truthy (a_date a)); [|discriminate].
  destruct (a_date a) as [|s|x|x|n]; cbn in *; try discriminate.
  - destruct (PyStr.contains "-" s); [|discriminate].
    destruct (Strptime.strptime _ _) as [x|] eqn:E; cbn; [|discriminate].
    destruct (in_window start stop x); [|discriminate].
    intros [= <-]. eapply strptime_valid; eauto.
  - destruct (in_window start stop x); [|discriminate]. now intros [= <-].
  - destruct (in_window start stop x); [|discriminate]. now intros [= <-].
Qed.

Section Reconcile.

Variables start stop : date.

Lemma reconcile_app (l : list assignment) (a : assignment) :
  reconcile start stop (l ++ [a])
  = reconcile_step start stop (reconcile start stop l) a.
Proof. unfold reconcile. now rewrite fold_left_app. Qed.

Lemma first_greatest_skip l d w a :
  first_greatest start stop l d w ->
  (assignment_day start stop a = Some d -> a_priority a <= a_priority w) ->
  first_greatest start stop (l ++ [a]) d w.
Proof.
  intros (l1 & l2 & -> & Hw & H1 & H2) Ha.
  exists l1, (l2 ++ [a]). repeat split; auto.
  - now rewrite <- app_assoc.
  - intros x Hx Hd. apply in_app_or in Hx as [Hx|[<-|[]]]; auto.
Qed.

Lemma first_greatest_new l d a :
  assignment_day start stop a = Some d ->
  (forall x, In x l -> assignment_day start stop x = Some d ->
             a_priority x < a_priority a) ->
  first_greatest start stop (l ++ [a]) d a.
Proof.
  intros Ha H. exists l, []. repeat split; auto.
  intros x [].
Qed.

Lemma first_greatest_bound l d w a :
  first_greatest start stop l d w ->
  In a l -> assignment_day start stop a = Some d ->
  a_priority a <= a_priority w.
Proof.
  intros (l1 & l2 & -> & Hw & H1 & H2) Hin Hd.
  apply in_app_or in Hin as [Hin|[<-|Hin]].
  - specialize (H1 _ Hin Hd). lia.
  - lia.
  - auto.
Qed.

(** What the dictionary holds for a day after the loop of api.py
    897-922 *)
Lemma reconcile_lookup (l : list assignment) :
  Forall (fun a => wf_date_value (a_date a) = true) l ->
  forall d, valid_date d = true ->
  match PyDict.get String.eqb (isoformat d) (reconcile start stop l) with
  | Some w => first_greatest start stop l d w
  | None => forall a, In a l -> assignment_day start stop a <> Some d
  end.
Proof.
  induction l as [|a l IH] using rev_ind; intros W d V.
  - cbn. intros a [].
  - apply Forall_app in W as [Wl Wa]. inversion Wa as [|? ? Wa' _]; subst.
    specialize (IH Wl d V).
    rewrite reconcile_app. unfold reconcile_step.
    destruct (assignment_day start stop a) as [d'|] eqn:Ea.
    + pose proof (assignment_day_valid _ _ _ _ Wa' Ea) as V'.
      destruct (PyDict.get String.eqb (isoformat d') (reconcile start stop l))
        as [kept|] eqn:Ek.
      * destruct (a_priority a >? a_priority kept) eqn:Ep.
        -- destruct (String.eqb_spec (isoformat d') (isoformat d)) as [E|N].
           ++ apply isoformat_inj in E; trivial. subst d'.
              rewrite (get_set_same _ string_eqb_eq).
              rewrite Ek in IH.
              apply first_greatest_new; trivial.
              intros x Hx Hd.
              pose proof (first_greatest_bound _ _ _ _ IH Hx Hd). lia.
           ++ rewrite (get_set_other _ string_eqb_eq) by assumption.
              destruct (PyDict.get String.eqb (isoformat d) _) as [w|].
              ** apply first_greatest_skip; trivial.
                 intros Hd. rewrite Ea in Hd. injection Hd as ->. contradiction.
              ** intros x Hx. apply in_app_or in Hx as [Hx|[<-|[]]]; auto.
                 rewrite Ea. intros [= ->]. contradiction.
        -- destruct (String.eqb_spec (isoformat d') (isoformat d)) as [E|N].
           ++ apply isoformat_inj in E; trivial. subst d'.
              rewrite Ek in *. apply first_greatest_skip; trivial.
              intros _. lia.
           ++ destruct (PyDict.get String.eqb (isoformat d) _) as [w|].
              ** apply first_greatest_skip; trivial.
                 intros Hd. rewrite Ea in Hd. injection Hd as ->. contradiction.
              ** intros x Hx. apply in_app_or in Hx as [Hx|[<-|[]]]; auto.
                 rewrite Ea. intros [= ->]. contradiction.
      * destruct (String.eqb_spec (isoformat d') (isoformat d)) as [E|N].
        -- apply isoformat_inj in E; trivial. subst d'.
           rewrite (get_set_same _ string_eqb_eq).
           rewrite Ek in IH.
           apply first_greatest_new; trivial.
           intros x Hx Hd. exfalso. apply (IH x Hx Hd).
        -- rewrite (get_set_other _ string_eqb_eq) by assumption.
           destruct (PyDict.get String.eqb (isoformat d) _) as [w|].
           ++ apply first_greatest_skip; trivial.
              intros Hd. rewrite Ea in Hd. injection Hd as ->. contradiction.
           ++ intros x Hx. apply in_app_or in Hx as [Hx|[<-|[]]]; auto.
              rewrite Ea. intros [= ->]. contradiction.
    + destruct (PyDict.get String.eqb (isoformat d) _) as [w|].
      * apply first_greatest_skip; trivial. rewrite Ea. discriminate.
      * intros x Hx. apply in_app_or in Hx as [Hx|[<-|[]]]; auto.
        rewrite Ea. discriminate.
Qed.

(** Every entry of the dictionary is keyed by the ISO text of the day
    its assignment counts for, and no key occurs twice. *)
Lemma reconcile_entries (l : list assignment) :
  Forall (fun a => wf_date_value (a_date a) = true) l ->
  NoDup (PyDict.keys (reconcile start stop l))
  /\ forall k w, In (k, w) (reconcile start stop l) ->
       exists d, k = isoformat d /\ valid_date d = true
                 /\ assignment_day start stop w = Some d /\ In w l.
Proof.
  induction l as [|a l IH] using rev_ind; intros W.
  - cbn. split; [constructor | intros ? ? []].
  - apply Forall_app in W as [Wl Wa]. inversion Wa as [|? ? Wa' _]; subst.
    destruct (IH Wl) as [ND IHe]. clear IH.
    assert (Keep : forall k w, In (k, w) (reconcile start stop l) ->
              exists d, k = isoformat d /\ valid_date d = true
                /\ assignment_day start stop w = Some d /\ In w (l ++ [a])).
    { intros k w H. destruct (IHe k w H) as (d & ? & ? & ? & ?).
      exists d. repeat split; auto. apply in_or_app. now left. }
    assert (New : forall d k w, assignment_day start stop a = Some d ->
              In (k, w) (PyDict.set String.eqb (isoformat d) a (reconcile start stop l)) ->
              exists d, k = isoformat d /\ valid_date d = true
                /\ assignment_day start stop w = Some d /\ In w (l ++ [a])).
    { intros d k w Ea H. apply (In_set _ string_eqb_eq) in H as [H|[= -> ->]]; auto.
      exists d. repeat split; auto.
      - eapply assignment_day_valid; eauto.
      - apply in_or_app. right. now left. }
    rewrite reconcile_app. unfold reconcile_step.
    destruct (assignment_day start stop a) as [d|] eqn:Ea; [|now split].
    destruct (PyDict.get String.eqb (isoformat d) _) as [kept|].
    + destruct (a_priority a >? a_priority kept).
      * split; [apply (NoDup_keys_set _ string_eqb_eq); assumption | eauto].
      * now split.
    + split; [apply (NoDup_keys_set _ string_eqb_eq); assumption | eauto].
Qed.

End Reconcile.

Lemma well_formed_dates (l : list assignment) :
  Forall well_formed l -> Forall (fun a => wf_date_value (a_date a) = true) l.
Proof. apply Forall_impl. now intros a [H _]. Qed.

(** The list api.py 848-891 builds is well formed when the native dates of
    the rows are calendar dates. *)
Lemma all_assignments_well_formed mashi spshi absences leaves :
  Forall (fun r => wf_date_value (sr_date r) = true) mashi ->
  Forall (fun r => wf_date_value (sr_date r) = true) spshi ->
  Forall (fun r => wf_date_value (ab_date r) = true) absences ->
  Forall (fun r => wf_date_value (lv_date r) = true) leaves ->
  Forall well_formed (all_assignments mashi spshi absences leaves).
Proof.
  intros H1 H2 H3 H4. unfold all_assignments.
  repeat rewrite Forall_app. repeat split.
  all: apply Forall_forall; intros a Ha; apply in_map_iff in Ha as (r & <- & Hr);
    apply filter_In in Hr as [Hr _]; split; cbn; trivial.
  - now apply (proj1 (Forall_forall _ _) H1).
  - now apply (proj1 (Forall_forall _ _) H2).
  - now apply (proj1 (Forall_forall _ _) H3).
  - now apply (proj1 (Forall_forall _ _) H4).
Qed.

(** C2: for every input sequence and every day some assignment counts for,
    the dictionary holds exactly one entry for that day, an assignment of
    the input whose priority (main 1, special 2, absence 3, leave 4) is the
    greatest among the assignments of that day; when a leave is among them
    the entry is a leave, whatever the order of the input. *)
Theorem C2_reconcile_greatest_priority
  (start stop : date) (l : list assignment) (d : date) :
  Forall well_formed l ->
  (exists a, In a l /\ assignment_day start stop a = Some d) ->
  NoDup (PyDict.keys (reconcile start stop l))
  /\ exists w,
       PyDict.get String.eqb (isoformat d) (reconcile start stop l) = Some w
       /\ In w l
       /\ assignment_day start stop w = Some d
       /\ a_priority w = priority_of_type (a_type w)
       /\ (forall a, In a l -> assignment_day start stop a = Some d ->
                     a_priority a <= a_priority w)
       /\ ((exists a, In a l /\ assignment_day start stop a = Some d
                      /\ a_type a = TLeave) ->
           a_type w = TLeave).
Proof.
  intros W (a0 & Hin0 & Hd0).
  pose proof (well_formed_dates _ W) as Wd.
  assert (V : valid_date d = true).
  { eapply assignment_day_valid; eauto.
    now apply (proj1 (Forall_forall _ _) Wd). }
  split; [apply reconcile_entries; assumption|].
  pose proof (reconcile_lookup start stop l Wd d V) as L.
  destruct (PyDict.get String.eqb (isoformat d) (reconcile start stop l)) as [w|].
  - exists w.
    assert (Hw : In w l).
    { destruct L as (l1 & l2 & -> & _). apply in_or_app. right. now left. }
    assert (Rw : a_priority w = priority_of_type (a_type w)).
    { now apply (proj1 (Forall_forall _ _) W). }
    repeat split; trivial.
    + now destruct L as (l1 & l2 & _ & ? & _).
    + intros a Ha Hd. eapply first_greatest_bound; eauto.
    + intros (a & Ha & Hd & Ht).
      pose proof (first_greatest_bound _ _ _ _ _ _ L Ha Hd) as B.
      assert (Ra : a_priority a = priority_of_type (a_type a)).
      { now apply (proj1 (Forall_forall _ _) W). }
      rewrite Ra, Rw, Ht in B. destruct (a_type w); cbn in B; trivial; lia.
  - exfalso. exact (L a0 Hin0 Hd0).
Qed.

Lemma C2_witness :
  exists w,
    PyDict.get String.eqb "2025-06-05"%string
      (reconcile (mkdate 2025 1 1) (mkdate 2025 12 31) [fact_leave; fact_shiftX])
    = Some w
    /\ a_type w = TLeave.
Proof.
  assert (W : Forall well_formed [fact_leave; fact_shiftX]).
  { repeat constructor. }
  assert (E : exists a, In a [fact_leave; fact_shiftX]
                /\ assignment_day (mkdate 2025 1 1) (mkdate 2025 12 31) a
                   = Some (mkdate 2025 6 5)
                /\ a_type a = TLeave).
  { exists fact_leave. repeat split. now left. }
  assert (E' : exists a, In a [fact_leave; fact_shiftX]
                /\ assignment_day (mkdate 2025 1 1) (mkdate 2025 12 31) a
                   = Some (mkdate 2025 6 5)).
  { destruct E as (a & ? & ? & _). now exists a. }
  destruct (C2_reconcile_greatest_priority _ _ _ _ W E')
    as (_ & w & G & _ & _ & _ & _ & L).
  exists w. split; [exact G | exact (L E)].
Defined.

(** C1, as the code has it: among the assignments that count for a day,
    the dictionary keeps the first one of the greatest priority, so of
    several assignments of equal priority the first in input order is
    kept; for two main assignments [x; y] of one day it is [x]. *)
Theorem C1_first_seen_wins
  (start stop : date) (l : list assignment) (d : date) (w : assignment) :
  Forall (fun a => wf_date_value (a_date a) = true) l ->
  valid_date d = true ->
  PyDict.get String.eqb (isoformat d) (reconcile start stop l) = Some w ->
  first_greatest start stop l d w.
Proof.
  intros W V G.
  pose proof (reconcile_lookup start stop l W d V) as L.
  now rewrite G in L.
Qed.

Lemma C1_witness :
  first_greatest (mkdate 2025 1 1) (mkdate 2025 12 31)
    [fact_shiftX; fact_shiftY] (mkdate 2025 6 5) fact_shiftX.
Proof.
  apply (C1_first_seen_wins (mkdate 2025 1 1) (mkdate 2025 12 31)
           [fact_shiftX; fact_shiftY] (mkdate 2025 6 5) fact_shiftX).
  - repeat constructor.
  - reflexivity.
  - reflexivity.
Defined.

Lemma C1_counterexample :
  PyDict.get String.eqb "2025-06-05"%string
    (reconcile (mkdate 2025 1 1) (mkdate 2025 12 31) [fact_shiftX; fact_shiftY])
  = Some fact_shiftX
  /\ PyDict.get String.eqb "2025-06-05"%string
       (reconcile (mkdate 2025 1 1) (mkdate 2025 12 31) [fact_shiftX; fact_shiftY])
     <> Some fact_shiftY
  /\ year_grid_day (get_jahresuebersicht store_duplicate_main 7 2025) 6 5
     = Some (Some "X"%string).
Proof.
  split; [reflexivity|]. split; [discriminate|]. vm_compute. reflexivity.
Qed.

(** ** Rendering the year grid *)

Lemma str_of_day_inj (e f : Z) :
  1 <= e <= 31 -> 1 <= f <= 31 ->
  PyStr.str_of_day e = PyStr.str_of_day f -> e = f.
Proof.
  intros He Hf.
  enumerate_Z e; enumerate_Z f; intros E; (reflexivity || discriminate E).
Qed.

Lemma str_of_day_key (e : Z) : 1 <= e <= 31 -> In (PyStr.str_of_day e) day_keys.
Proof.
  intros He. unfold day_keys. apply in_map.
  enumerate_Z e; vm_compute; repeat (first [left; reflexivity | right]).
Qed.

Lemma keys_mem {V} (k : string) (d : list (string * V)) :
  In k (PyDict.keys d) -> PyDict.mem String.eqb k d = true.
Proof.
  intros H. unfold PyDict.mem.
  destruct (PyDict.get String.eqb k d) eqn:E; trivial.
  now apply (get_None_keys _ string_eqb_eq) in E.
Qed.

Lemma In_range (a b k : Z) : In k (range a b) <-> a <= k < b.
Proof.
  unfold range. rewrite in_map_iff. split.
  - intros (i & <- & Hi). apply in_seq in Hi. lia.
  - intros H. exists (Z.to_nat (k - a)). split; [lia|].
    apply in_seq. lia.
Qed.

Example range_1_13 : range 1 13 = [1; 2; 3; 4; 5; 6; 7; 8; 9; 10; 11; 12].
Proof. reflexivity. Qed.

Example day_keys_ends :
  hd_error day_keys = Some "1"%string
  /\ nth_error day_keys 30 = Some "31"%string
  /\ List.length day_keys = 31%nat.
Proof. repeat split. Qed.

Lemma empty_days_keys : PyDict.keys empty_days = day_keys.
Proof. vm_compute. reflexivity. Qed.

Lemma empty_days_get (e : Z) :
  1 <= e <= 31 ->
  PyDict.get String.eqb (PyStr.str_of_day e) empty_days = Some None.
Proof. intros He. enumerate_Z e; vm_compute; reflexivity. Qed.

Lemma days_in_month_bounds (y m : Z) : 28 <= days_in_month y m <= 31.
Proof.
  unfold days_in_month.
  destruct (is_leap y); destruct m as [|p|p]; try lia;
    do 4 (try (destruct p as [p|p|]; try lia)).
Qed.

Lemma init_months_shape (y : Z) : year_grid_shape y init_months.
Proof.
  repeat split.
  apply Forall_forall. intros m Hm.
  unfold init_months in Hm. apply in_map_iff in Hm as (k & <- & Hk).
  cbn [mo_month mo_days]. split.
  - apply empty_days_keys.
  - intros e He. apply empty_days_get.
    pose proof (days_in_month_bounds y k). lia.
Qed.

Lemma set_day_at (l1 l2 : list month_entry) (m : month_entry) ds code :
  set_day (l1 ++ m :: l2) (List.length l1) ds code
  = Ok (l1 ++ mkmonth_entry (mo_month m) (mo_name m)
                (PyDict.set String.eqb ds (Some code) (mo_days m)) :: l2).
Proof.
  induction l1 as [|x l1 IH]; cbn; [reflexivity|].
  now rewrite IH.
Qed.

Lemma year_window (y : Z) (d : date) :
  in_window (mkdate y 1 1) (mkdate y 12 31) d = true -> year d = y.
Proof.
  unfold in_window, date_leb. cbn [year month day]. lia.
Qed.

Lemma month_at (months : list month_entry) (l1 l2 : list month_entry)
  (m : month_entry) (k : Z) :
  map mo_month months = range 1 13 ->
  months = l1 ++ m :: l2 ->
  1 <= k <= 12 ->
  List.length l1 = Z.to_nat (k - 1) ->
  mo_month m = k.
Proof.
  intros Hm -> Hk Hl.
  assert (E : nth_error (map mo_month (l1 ++ m :: l2)) (List.length l1)
              = Some (mo_month m)).
  { rewrite map_app. rewrite nth_error_app2; rewrite length_map; [|lia].
    now rewrite Nat.sub_diag. }
  rewrite Hm, Hl in E.
  enumerate_Z k; cbn in E; now injection E as <-.
Qed.

(** One step of api.py 925-945 keeps the shape *)
Lemma apply_step_shape (y : Z) defs (months : list month_entry)
  (d : date) (a : assignment) :
  year_grid_shape y months ->
  valid_date d = true -> year d = y ->
  exists months',
    apply_step defs months (isoformat d, a) = Ok months'
    /\ year_grid_shape y months'.
Proof.
  intros (Hm & Hn & Hd) V Y. subst y.
  unfold apply_step. cbn [fst snd].
  pose proof (strptime_encode_iso d V) as P. unfold encode_iso in P. rewrite P.
  destruct (valid_ymd_bounds _ _ _ V) as (_ & Mb & Db & Db').
  assert (L : (Z.to_nat (month d - 1) < List.length months)%nat).
  { rewrite <- (length_map mo_month), Hm.
    change (List.length (range 1 13)) with 12%nat. lia. }
  destruct (nth_error months (Z.to_nat (month d - 1))) as [m|] eqn:N;
    [|apply nth_error_None in N; lia].
  apply nth_error_split in N as (l1 & l2 & E & Hl).
  pose proof (month_at _ _ _ _ _ Hm E Mb Hl) as Mm.
  subst months. rewrite <- Hl, set_day_at.
  eexists. split; [reflexivity|].
  unfold year_grid_shape. rewrite !map_app in *. cbn [map mo_month mo_name] in *.
  apply Forall_app in Hd as [Hd1 Hd2].
  apply Forall_cons_iff in Hd2 as [[Km Bm] Hd3].
  repeat split; trivial.
  apply Forall_app. split; trivial. constructor; trivial.
  cbn [mo_month mo_days]. split.
  - rewrite (keys_set_present _ (V:=option string)); trivial.
    apply keys_mem. rewrite Km. now apply str_of_day_key.
  - intros e He. rewrite (get_set_other _ string_eqb_eq); auto.
    intros Q. rewrite Mm in He.
    pose proof (days_in_month_bounds (year d) (month d)).
    apply str_of_day_inj in Q; lia.
Qed.

Lemma for_each_apply_shape (y : Z) defs (items : list (string * assignment)) :
  (forall k a, In (k, a) items ->
     exists d, k = isoformat d /\ valid_date d = true /\ year d = y) ->
  forall months, year_grid_shape y months ->
  exists months',
    for_each (apply_step defs) items months = Ok months'
    /\ year_grid_shape y months'.
Proof.
  induction items as [|[k a] items IH]; intros H months S.
  - exists months. now split.
  - destruct (H k a (or_introl eq_refl)) as (d & -> & V & Y).
    destruct (apply_step_shape y defs months d a S V Y) as (m1 & E1 & S1).
    destruct (IH (fun k a Hi => H k a (or_intror Hi)) m1 S1) as (m2 & E2 & S2).
    exists m2. split; trivial. cbn [for_each]. rewrite E1. exact E2.
Qed.

Lemma Forall_filter {A} (P : A -> Prop) (f : A -> bool) (l : list A) :
  Forall P l -> Forall P (filter f l).
Proof.
  intros H. apply Forall_forall. intros x Hx. apply filter_In in Hx as [Hx _].
  now apply (proj1 (Forall_forall _ _) H).
Qed.

Lemma year_assignments_well_formed (st : store) (employee_id : Z) :
  wf_store st ->
  Forall well_formed
    (all_assignments
       (for_employee sr_employee_id employee_id (tbl_5MASHI st))
       (for_employee sr_employee_id employee_id (tbl_5SPSHI st))
       (for_employee ab_employee_id employee_id (tbl_5ABSEN st))
       match tbl_5LEAVE st with
       | Some rows => for_employee lv_employee_id employee_id rows
       | None => []
       end).
Proof.
  intros (H1 & H2 & H3 & H4).
  apply all_assignments_well_formed; unfold for_employee;
    try now apply Forall_filter.
  destruct (tbl_5LEAVE st); [now apply Forall_filter | constructor].
Qed.

Lemma make_date_first (y : Z) :
  1 <= y <= 9999 -> make_date y 1 1 = Some (mkdate y 1 1).
Proof.
  intros H. unfold make_date, valid_ymd. cbn [days_in_month].
  replace ((1 <=? y) && (y <=? 9999)) with true by lia. reflexivity.
Qed.

Lemma make_date_last (y : Z) :
  1 <= y <= 9999 -> make_date y 12 31 = Some (mkdate y 12 31).
Proof.
  intros H. unfold make_date, valid_ymd. cbn [days_in_month].
  replace ((1 <=? y) && (y <=? 9999)) with true by lia. reflexivity.
Qed.

Lemma assignment_day_window start stop (a : assignment) (d : date) :
  assignment_day start stop a = Some d -> in_window start stop d = true.
Proof.
  unfold assignment_day.
  destruct (truthy (a_date a)); [|discriminate].
  destruct (jahres_date (a_date a)) as [x| |]; try discriminate.
  destruct (in_window start stop x) eqn:E; [|discriminate].
  now intros [= <-].
Qed.

(** C6: for every year [date] accepts and every employee of the store, the
    year grid has the twelve months in calendar order, each with the day
    keys ["1"] to ["31"], all of them empty before the assignments are
    applied, and every day after the last day of its month still empty in
    the result. *)
Theorem C6_year_grid_shape (st : store) (employee_id y : Z) :
  1 <= y <= 9999 ->
  (exists e, In e (tbl_5EMPL st) /\ emp_id e = employee_id) ->
  wf_store st ->
  List.length init_months = 12%nat
  /\ Forall (fun m => PyDict.keys (mo_days m) = day_keys
                      /\ Forall (fun kv => snd kv = None) (mo_days m))
            init_months
  /\ exists out,
       get_jahresuebersicht st employee_id y = Ok out
       /\ List.length (ju_months out) = 12%nat
       /\ year_grid_shape y (ju_months out).
Proof.
  intros Hy (e & He & Hid) W. split; [reflexivity|]. split.
  { apply Forall_forall. intros m Hm.
    unfold init_months in Hm. apply in_map_iff in Hm as (k & <- & _).
    cbn [mo_days]. split; [apply empty_days_keys|].
    vm_compute. repeat constructor. }
  unfold get_jahresuebersicht.
  destruct (filter (fun e0 => emp_id e0 =? employee_id) (tbl_5EMPL st))
    as [|employee rest] eqn:F.
  { exfalso. assert (X : In e (filter (fun e0 => emp_id e0 =? employee_id) (tbl_5EMPL st))).
    { apply filter_In. split; trivial. lia. }
    rewrite F in X. destruct X. }
  rewrite make_date_first, make_date_last by assumption.
  pose proof (year_assignments_well_formed st employee_id W) as Wf.
  apply well_formed_dates in Wf.
  destruct (reconcile_entries (mkdate y 1 1) (mkdate y 12 31) _ Wf) as [_ En].
  destruct (for_each_apply_shape y (shift_definitions st) _
              (fun k a Hi =>
                 match En k a Hi with
                 | ex_intro _ d (conj Hk (conj Hv (conj Hd _))) =>
                     ex_intro _ d (conj Hk (conj Hv
                       (year_window y d (assignment_day_window _ _ _ _ Hd))))
                 end)
              init_months (init_months_shape y))
    as (months & Em & Sm).
  rewrite Em. cbn [bind]. eexists. split; [reflexivity|].
  cbn [ju_months]. split; trivial.
  destruct Sm as (Hm & _). rewrite <- (length_map mo_month), Hm. reflexivity.
Qed.

Lemma C6_witness :
  exists out,
    get_jahresuebersicht store_duplicate_main 7 2025 = Ok out
    /\ List.length (ju_months out) = 12%nat
    /\ year_grid_shape 2025 (ju_months out).
Proof.
  assert (Hy : 1 <= 2025 <= 9999) by lia.
  assert (He : exists e, In e (tbl_5EMPL store_duplicate_main) /\ emp_id e = 7).
  { exists employee_7. split; [now left | reflexivity]. }
  assert (W : wf_store store_duplicate_main).
  { repeat split; repeat constructor. }
  exact (proj2 (proj2 (C6_year_grid_shape store_duplicate_main 7 2025 Hy He W))).
Defined.

(** ** The year grid shows the kept assignments *)

Lemma nth_error_middle {A} (l1 l2 : list A) (x y : A) (i : nat) :
  i <> List.length l1 ->
  nth_error (l1 ++ x :: l2) i = nth_error (l1 ++ y :: l2) i.
Proof.
  intros N. destruct (Nat.lt_ge_cases i (List.length l1)) as [L|G].
  - now rewrite !nth_error_app1.
  - rewrite !nth_error_app2 by assumption.
    destruct (i - List.length l1)%nat eqn:E; [lia | reflexivity].
Qed.

Lemma months_day_set (l1 l2 : list month_entry) (m : month_entry)
  (ds code : string) (month_num day_num : Z) :
  months_day
    (l1 ++ mkmonth_entry (mo_month m) (mo_name m)
             (PyDict.set String.eqb ds (Some code) (mo_days m)) :: l2)
    month_num day_num
  = if (Z.to_nat (month_num - 1) =? List.length l1)%nat
       && String.eqb ds (PyStr.str_of_day day_num)
    then Some (Some code)
    else months_day (l1 ++ m :: l2) month_num day_num.
Proof.
  unfold months_day.
  destruct (Nat.eqb_spec (Z.to_nat (month_num - 1)) (List.length l1)) as [->|N].
  - rewrite !nth_error_app2, Nat.sub_diag by lia. cbn [nth_error mo_days andb].
    destruct (String.eqb_spec ds (PyStr.str_of_day day_num)) as [<-|D].
    + now rewrite (get_set_same _ string_eqb_eq).
    + now rewrite (get_set_other _ string_eqb_eq).
  - cbn [andb]. now rewrite (nth_error_middle l1 l2 _ m).
Qed.

(** One step of api.py 925-945 writes the code of its assignment at its
    day and leaves the other days as they are *)
Lemma apply_step_day (y : Z) defs (months : list month_entry)
  (d' : date) (a : assignment) :
  year_grid_shape y months ->
  valid_date d' = true -> year d' = y ->
  exists months',
    apply_step defs months (isoformat d', a) = Ok months'
    /\ year_grid_shape y months'
    /\ forall d, valid_date d = true ->
         months_day months' (month d) (day d)
         = if (month d =? month d') && (day d =? day d')
           then Some (Some (assignment_code defs a))
           else months_day months (month d) (day d).
Proof.
  intros S V Y.
  destruct (apply_step_shape y defs months d' a S V Y) as (months' & E & S').
  exists months'. split; [exact E|]. split; [exact S'|].
  intros d Vd.
  destruct S as (Hm & _).
  unfold apply_step in E. cbn [fst snd] in E.
  pose proof (strptime_encode_iso d' V) as P. unfold encode_iso in P.
  rewrite P in E.
  destruct (valid_ymd_bounds _ _ _ V) as (_ & Mb & _ & Db).
  destruct (valid_ymd_bounds _ _ _ Vd) as (_ & Mb' & _ & Db').
  assert (L : (Z.to_nat (month d' - 1) < List.length months)%nat).
  { rewrite <- (length_map mo_month), Hm.
    change (List.length (range 1 13)) with 12%nat. lia. }
  destruct (nth_error months (Z.to_nat (month d' - 1))) as [mo|] eqn:N;
    [|apply nth_error_None in N; lia].
  apply nth_error_split in N as (l1 & l2 & -> & Hl).
  rewrite <- Hl, set_day_at in E. injection E as <-.
  rewrite months_day_set, Hl.
  destruct (Z.eqb_spec (month d) (month d')) as [Em|Nm].
  - rewrite Em, Nat.eqb_refl. cbn [andb].
    destruct (Z.eqb_spec (day d) (day d')) as [Ed|Nd].
    + now rewrite Ed, String.eqb_refl.
    + destruct (String.eqb_spec (PyStr.str_of_day (day d'))
                  (PyStr.str_of_day (day d))) as [Q|]; trivial.
      apply str_of_day_inj in Q; trivial. congruence.
  - destruct (Nat.eqb_spec (Z.to_nat (month d - 1)) (Z.to_nat (month d' - 1)));
      [lia | reflexivity].
Qed.

Lemma for_each_apply_day (y : Z) defs (items : list (string * assignment)) :
  (forall k a, In (k, a) items ->
     exists d, k = isoformat d /\ valid_date d = true /\ year d = y) ->
  NoDup (PyDict.keys items) ->
  forall months, year_grid_shape y months ->
  exists months',
    for_each (apply_step defs) items months = Ok months'
    /\ forall d, valid_date d = true -> year d = y ->
         months_day months' (month d) (day d)
         = match PyDict.get String.eqb (isoformat d) items with
           | Some a => Some (Some (assignment_code defs a))
           | None => months_day months (month d) (day d)
           end.
Proof.
  induction items as [|[k a] items IH]; intros H ND months S.
  - exists months. split; [reflexivity | trivial].
  - destruct (H k a (or_introl eq_refl)) as (d' & -> & V & Y).
    destruct (apply_step_day y defs months d' a S V Y) as (m1 & E1 & S1 & D1).
    cbn [PyDict.keys map fst] in ND. apply NoDup_cons_iff in ND as [Nk ND].
    destruct (IH (fun k a Hi => H k a (or_intror Hi)) ND m1 S1) as (m2 & E2 & D2).
    exists m2. split; [cbn [for_each]; now rewrite E1|].
    intros d Vd Yd. rewrite (D2 d Vd Yd), (D1 d Vd). cbn [PyDict.get].
    destruct (String.eqb_spec (isoformat d) (isoformat d')) as [Q|Q].
    + apply isoformat_inj in Q; trivial. subst d'.
      rewrite !Z.eqb_refl. cbn [andb].
      destruct (PyDict.get String.eqb (isoformat d) items) eqn:G; trivial.
      exfalso. apply Nk. apply keys_get. fold (PyDict.keys items). congruence.
    + destruct (PyDict.get String.eqb (isoformat d) items); trivial.
      destruct (Z.eqb_spec (month d) (month d')) as [Em|]; trivial.
      destruct (Z.eqb_spec (day d) (day d')) as [Ed|]; trivial.
      exfalso. apply Q. f_equal.
      destruct d, d'. cbn in *. congruence.
Qed.

Lemma init_months_day (d : date) :
  valid_date d = true -> months_day init_months (month d) (day d) = Some None.
Proof.
  intros V. destruct (valid_ymd_bounds _ _ _ V) as (_ & Mb & _ & Db).
  unfold months_day.
  destruct (nth_error init_months (Z.to_nat (month d - 1))) as [m|] eqn:N.
  - apply nth_error_In in N. unfold init_months in N.
    apply in_map_iff in N as (k & <- & _). cbn [mo_days].
    now apply empty_days_get.
  - apply nth_error_None in N. change (List.length init_months) with 12%nat in N.
    lia.
Qed.

(** For every day of the year, the grid shows the code of the assignment
    the reconciliation kept for it, and nothing when it kept none. *)
Lemma year_grid_shows_kept (st : store) (employee_id y : Z) (d : date) :
  1 <= y <= 9999 ->
  (exists e, In e (tbl_5EMPL st) /\ emp_id e = employee_id) ->
  wf_store st ->
  valid_date d = true -> year d = y ->
  year_grid_day (get_jahresuebersicht st employee_id y) (month d) (day d)
  = Some (option_map (assignment_code (shift_definitions st))
            (PyDict.get String.eqb (isoformat d)
               (reconcile (mkdate y 1 1) (mkdate y 12 31)
                  (year_assignments st employee_id)))).
Proof.
  intros Hy (e & He & Hid) W V Y.
  unfold get_jahresuebersicht.
  destruct (filter (fun e0 => emp_id e0 =? employee_id) (tbl_5EMPL st))
    as [|employee rest] eqn:F.
  { exfalso.
    assert (X : In e (filter (fun e0 => emp_id e0 =? employee_id) (tbl_5EMPL st))).
    { apply filter_In. split; trivial. lia. }
    rewrite F in X. destruct X. }
  rewrite make_date_first, make_date_last by assumption.
  fold (year_assignments st employee_id).
  pose proof (year_assignments_well_formed st employee_id W) as Wf.
  apply well_formed_dates in Wf. fold (year_assignments st employee_id) in Wf.
  destruct (reconcile_entries (mkdate y 1 1) (mkdate y 12 31) _ Wf) as [ND En].
  destruct (for_each_apply_day y (shift_definitions st) _
              (fun k a Hi =>
                 match En k a Hi with
                 | ex_intro _ x (conj Hk (conj Hv (conj Hd _))) =>
                     ex_intro _ x (conj Hk (conj Hv
                       (year_window y x (assignment_day_window _ _ _ _ Hd))))
                 end)
              ND init_months (init_months_shape y))
    as (months & Em & Dm).
  rewrite Em. cbn [bind year_grid_day ju_months].
  rewrite (Dm d V Y), (init_months_day d V).
  now destruct (PyDict.get String.eqb (isoformat d) _).
Qed.

(** ** Text dates in the year grid *)

Lemma reconcile_drop start stop (a : assignment) (l1 l2 : list assignment) :
  assignment_day start stop a = None ->
  reconcile start stop (l1 ++ a :: l2) = reconcile start stop (l1 ++ l2).
Proof.
  intros H. unfold reconcile. rewrite !fold_left_app. cbn [fold_left].
  unfold reconcile_step at 2. now rewrite H.
Qed.

Lemma no_dash_slash (x : date) : PyStr.contains "-" (encode_slash x) = false.
Proof. encoded_text. reflexivity. Qed.

Lemma no_dash_dot (x : date) : PyStr.contains "-" (encode_dot x) = false.
Proof. encoded_text. reflexivity. Qed.

Lemma no_dash_compact (x : date) : PyStr.contains "-" (encode_compact x) = false.
Proof. encoded_text. reflexivity. Qed.

(** C10: in the year grid an assignment dated by a text counts only when
    the text contains ['-'] and its first ten characters parse as
    [%Y-%m-%d] (to a day of the year); a text in the slash, dot or 8-digit
    encoding is skipped, and the reconciliation runs as if the assignment
    were not in the list.  The view keeps no count of skipped
    assignments. *)
Theorem C10_year_grid_text_dates
  (start stop : date) (a : assignment) (s : string) :
  a_date a = DStr s ->
  (forall d, assignment_day start stop a = Some d ->
     PyStr.contains "-" s = true
     /\ Strptime.strptime (PyStr.take 10 s) Strptime.fmt_Y_m_d = Some d
     /\ in_window start stop d = true)
  /\ ((exists x, s = encode_slash x \/ s = encode_dot x \/ s = encode_compact x) ->
      jahres_date (a_date a) = NSkip
      /\ assignment_day start stop a = None
      /\ forall l1 l2,
           reconcile start stop (l1 ++ a :: l2) = reconcile start stop (l1 ++ l2)).
Proof.
  intros E. split.
  - intros d. unfold assignment_day, jahres_date. rewrite E.
    destruct (truthy (DStr s)); [|discriminate].
    destruct (PyStr.contains "-" s); [|discriminate].
    destruct (Strptime.strptime _ _) as [x|]; cbn [of_parse]; [|discriminate].
    destruct (in_window start stop x) eqn:W; [|discriminate].
    intros [= <-]. auto.
  - intros (x & Hx).
    assert (N : PyStr.contains "-" s = false).
    { destruct Hx as [ -> | [ -> | -> ] ];
        [apply no_dash_slash | apply no_dash_dot | apply no_dash_compact]. }
    assert (J : jahres_date (a_date a) = NSkip).
    { rewrite E. unfold jahres_date. now rewrite N. }
    assert (D : assignment_day start stop a = None).
    { unfold assignment_day. rewrite J. now destruct (truthy (a_date a)). }
    repeat split; trivial.
    intros l1 l2. now apply reconcile_drop.
Qed.

Lemma C10_witness :
  jahres_date (DStr "06/03/2025") = NSkip
  /\ assignment_day (mkdate 2025 1 1) (mkdate 2025 12 31) fact_slash = None
  /\ reconcile (mkdate 2025 1 1) (mkdate 2025 12 31) [fact_shiftX; fact_slash]
     = reconcile (mkdate 2025 1 1) (mkdate 2025 12 31) [fact_shiftX].
Proof.
  destruct (C10_year_grid_text_dates (mkdate 2025 1 1) (mkdate 2025 12 31)
              fact_slash "06/03/2025" eq_refl) as [_ H].
  assert (X : exists x, "06/03/2025"%string = encode_slash x
                        \/ "06/03/2025"%string = encode_dot x
                        \/ "06/03/2025"%string = encode_compact x).
  { exists (mkdate 2025 6 3). left. reflexivity. }
  destruct (H X) as (J & D & R).
  split; [exact J|]. split; [exact D|].
  exact (R [fact_shiftX] []).
Defined.

(** ** Display codes *)

Lemma py_or_nonempty (a : option string) (b : string) :
  b <> EmptyString -> py_or a b <> EmptyString.
Proof.
  intros Hb. unfold py_or. destruct a as [[|c r]|]; cbn; trivial. discriminate.
Qed.

Lemma jahres_shift_code_spec (sd : option shift_def) :
  jahres_shift_code sd = spec_display_code sd.
Proof.
  unfold jahres_shift_code, spec_display_code.
  destruct (def_get sd_shortname sd) as [[|c r]|]; cbn; trivial;
    destruct (def_get sd_name sd) as [[|c' [|c'' r']]|]; reflexivity.
Qed.

(** C7, as the code has it: in the year grid the display code is the short
    name when present and non-empty, else the first two characters of the
    name in upper case, else ["T"]; in the month grid, for a definition
    with a non-empty name, it is the short name when present and non-empty,
    else the first character of the name as written; in both views the
    code is never empty. *)
Theorem C7_display_codes (sd : option shift_def) :
  jahres_shift_code sd = spec_display_code sd
  /\ jahres_shift_code sd <> EmptyString
  /\ dienstplan_shift_code sd <> EmptyString
  /\ (forall c r, def_get sd_name sd = Some (String c r) ->
        dienstplan_shift_code sd
        = match def_get sd_shortname sd with
          | Some (String c' r') => String c' r'
          | _ => String c EmptyString
          end).
Proof.
  split; [apply jahres_shift_code_spec|]. split; [|split].
  - rewrite jahres_shift_code_spec. unfold spec_display_code.
    destruct (def_get sd_shortname sd) as [[|c r]|]; try discriminate;
      destruct (def_get sd_name sd) as [[|c' [|c'' r']]|]; discriminate.
  - unfold dienstplan_shift_code.
    destruct (def_get sd_name sd) as [[|c r]|]; cbn; try discriminate.
    apply py_or_nonempty. discriminate.
  - intros c r E. unfold dienstplan_shift_code. rewrite E. cbn.
    destruct (def_get sd_shortname sd) as [[|c' r']|]; reflexivity.
Qed.

Lemma C7_witness :
  dienstplan_shift_code (Some shift_X) = "X"%string
  /\ dienstplan_shift_code (Some shift_frueh) = "f"%string.
Proof.
  destruct (C7_display_codes (Some shift_X)) as (_ & _ & _ & HX).
  destruct (C7_display_codes (Some shift_frueh)) as (_ & _ & _ & HF).
  split.
  - exact (HX "X"%char "enon"%string eq_refl).
  - exact (HF "f"%char "rueh"%string eq_refl).
Defined.

Lemma C7_counterexample :
  spec_display_code (Some shift_frueh) = "FR"%string
  /\ jahres_shift_code (Some shift_frueh) = "FR"%string
  /\ dienstplan_shift_code (Some shift_frueh) = "f"%string
  /\ dienstplan_shift_code (Some shift_frueh) <> spec_display_code (Some shift_frueh).
Proof. repeat split. discriminate. Qed.

(** ** The month grid *)

Lemma for_each_app {S X} (body : S -> X -> response S) (l1 l2 : list X) (s : S) :
  for_each body (l1 ++ l2) s = bind (for_each body l1 s) (for_each body l2).
Proof.
  revert s. induction l1 as [|x l1 IH]; intros s; cbn; [reflexivity|].
  destruct (body s x); cbn; auto.
Qed.

Lemma mem_set {V} (k i : Z) (v : V) (d : list (Z * V)) :
  PyDict.mem Z.eqb i (PyDict.set Z.eqb k v d) = (i =? k) || PyDict.mem Z.eqb i d.
Proof.
  unfold PyDict.mem. destruct (Z.eqb_spec i k) as [->|N].
  - now rewrite (get_set_same _ Z_eqb_eq).
  - rewrite (get_set_other _ Z_eqb_eq); auto.
Qed.

Lemma mem_empty_schedules (employees : list employee) (i : Z) :
  PyDict.mem Z.eqb i (empty_schedules employees)
  = existsb (fun e => emp_id e =? i) employees.
Proof.
  unfold empty_schedules.
  assert (G : forall d,
    PyDict.mem Z.eqb i
      (fold_left (fun d emp => PyDict.set Z.eqb (emp_id emp)
                                 (mkemployee_schedule emp []) d) employees d)
    = PyDict.mem Z.eqb i d || existsb (fun e => emp_id e =? i) employees).
  { induction employees as [|e l IH]; intros d; cbn.
    - now rewrite orb_false_r.
    - rewrite IH, mem_set. rewrite (Z.eqb_sym i).
      destruct (emp_id e =? i), (PyDict.mem Z.eqb i d); reflexivity. }
  now rewrite G.
Qed.

Lemma keyed_by_empty_schedules (employees : list employee) :
  keyed_by employees (empty_schedules employees).
Proof.
  unfold empty_schedules.
  assert (G : forall l d,
    (forall x, In x l -> In x employees) -> keyed_by employees d ->
    keyed_by employees
      (fold_left (fun d emp => PyDict.set Z.eqb (emp_id emp)
                                 (mkemployee_schedule emp []) d) l d)).
  { induction l as [|e l IH]; intros d Hl Hd; cbn; trivial.
    apply IH; [intros x Hx; apply Hl; now right|].
    intros k es H. apply (In_set _ Z_eqb_eq) in H as [H|[= -> ->]]; auto.
    cbn. split; trivial. apply Hl. now left. }
  apply G; [auto | intros k es []].
Qed.

Section MonthGrid.

Variable fromisoformat : string -> option date.
Variables start stop : date.
Variable defs : list (Z * shift_def).

Let step := dienstplan_step fromisoformat start stop defs.

Lemma step_not_scheduled (s : list (Z * employee_schedule) * Z) (r : shift_row) :
  match sr_employee_id r with
  | Some i => PyDict.mem Z.eqb i (fst s)
  | None => false
  end = false ->
  step s r = Ok s.
Proof.
  unfold step, dienstplan_step, PyDict.mem.
  destruct (sr_employee_id r) as [i|]; trivial.
  destruct (PyDict.get Z.eqb i (fst s)); [discriminate | trivial].
Qed.

Lemma step_mem s r s' :
  step s r = Ok s' -> forall i, PyDict.mem Z.eqb i (fst s') = PyDict.mem Z.eqb i (fst s).
Proof.
  unfold step, dienstplan_step. intros H i.
  destruct (sr_employee_id r) as [e|]; [|now injection H as <-].
  destruct (PyDict.get Z.eqb e (fst s)) as [es|] eqn:G; [|now injection H as <-].
  destruct (truthy (sr_date r)); [|now injection H as <-].
  destruct (dienstplan_date fromisoformat (sr_date r)) as [d| |];
    try discriminate; [|now injection H as <-].
  destruct (in_window start stop d); [|now injection H as <-].
  injection H as <-. cbn [fst]. rewrite mem_set.
  destruct (Z.eqb_spec i e) as [->|]; trivial.
  unfold PyDict.mem. now rewrite G.
Qed.

Lemma step_keyed employees s r s' :
  step s r = Ok s' -> keyed_by employees (fst s) -> keyed_by employees (fst s').
Proof.
  unfold step, dienstplan_step. intros H K.
  destruct (sr_employee_id r) as [e|]; [|now injection H as <-].
  destruct (PyDict.get Z.eqb e (fst s)) as [es|] eqn:G; [|now injection H as <-].
  destruct (truthy (sr_date r)); [|now injection H as <-].
  destruct (dienstplan_date fromisoformat (sr_date r)) as [d| |];
    try discriminate; [|now injection H as <-].
  destruct (in_window start stop d); [|now injection H as <-].
  injection H as <-. cbn [fst].
  intros k es' Hin. apply (In_set _ Z_eqb_eq) in Hin as [Hin|[= -> ->]]; auto.
  cbn [es_employee]. apply K. now apply (get_In _ Z_eqb_eq).
Qed.

Lemma loop_mem rows : forall s s',
  for_each step rows s = Ok s' ->
  forall i, PyDict.mem Z.eqb i (fst s') = PyDict.mem Z.eqb i (fst s).
Proof.
  induction rows as [|r rows IH]; intros s s' H i; cbn in H.
  - now injection H as <-.
  - destruct (step s r) as [s1|] eqn:E; [|discriminate]. cbn in H.
    rewrite (IH _ _ H). now apply step_mem with (r := r).
Qed.

Lemma loop_keyed employees rows : forall s s',
  for_each step rows s = Ok s' ->
  keyed_by employees (fst s) -> keyed_by employees (fst s').
Proof.
  induction rows as [|r rows IH]; intros s s' H K; cbn in H.
  - now injection H as <-.
  - destruct (step s r) as [s1|] eqn:E; [|discriminate]. cbn in H.
    apply (IH _ _ H). now apply step_keyed with (s := s) (r := r).
Qed.

(** Rows of employees without a schedule do not change the run *)
Lemma loop_filter (keep : shift_row -> bool) rows : forall s,
  (forall r, keep r = false ->
     match sr_employee_id r with
     | Some i => PyDict.mem Z.eqb i (fst s)
     | None => false
     end = false) ->
  for_each step (filter keep rows) s = for_each step rows s.
Proof.
  induction rows as [|r rows IH]; intros s H; cbn; [reflexivity|].
  destruct (keep r) eqn:Kr; cbn.
  - destruct (step s r) as [s1|] eqn:E; cbn; trivial.
    apply IH. intros r' Hr'. specialize (H r' Hr').
    destruct (sr_employee_id r'); trivial.
    now rewrite (step_mem _ _ _ E).
  - rewrite (step_not_scheduled s r (H r Kr)). cbn. now apply IH.
Qed.

Lemma step_cell s r s' :
  step s r = Ok s' ->
  forall e k,
    schedule_cell (fst s') e k
    = match dienstplan_target fromisoformat start stop r with
      | Some (e', d) =>
          if PyDict.mem Z.eqb e' (fst s) && (e' =? e) && (day d =? k)
          then Some (dienstplan_cell defs r d)
          else schedule_cell (fst s) e k
      | None => schedule_cell (fst s) e k
      end.
Proof.
  unfold step, dienstplan_step, dienstplan_target, PyDict.mem. intros H e k.
  destruct (sr_employee_id r) as [i|]; [|now injection H as <-].
  destruct (PyDict.get Z.eqb i (fst s)) as [es|] eqn:G.
  - destruct (truthy (sr_date r)); [|now injection H as <-].
    destruct (dienstplan_date fromisoformat (sr_date r)) as [d| |];
      try discriminate; [|now injection H as <-].
    destruct (in_window start stop d); [|now injection H as <-].
    injection H as <-. cbn [fst andb]. unfold schedule_cell.
    destruct (Z.eqb_spec i e) as [->|N].
    + rewrite (get_set_same _ Z_eqb_eq). cbn [es_schedule]. rewrite G.
      destruct (Z.eqb_spec (day d) k) as [->|N].
      * now rewrite (get_set_same _ Z_eqb_eq).
      * now rewrite (get_set_other _ Z_eqb_eq).
    + rewrite (get_set_other _ Z_eqb_eq) by assumption.
      now rewrite andb_false_r.
  - injection H as <-.
    destruct (truthy (sr_date r)); trivial.
    destruct (dienstplan_date fromisoformat (sr_date r)) as [d| |]; trivial.
    destruct (in_window start stop d); trivial.
    now rewrite G.
Qed.

Lemma loop_cell_untouched e k rows : forall s s',
  for_each step rows s = Ok s' ->
  (forall r d, In r rows ->
     dienstplan_target fromisoformat start stop r = Some (e, d) -> day d <> k) ->
  schedule_cell (fst s') e k = schedule_cell (fst s) e k.
Proof.
  induction rows as [|r rows IH]; intros s s' H N; cbn in H.
  - now injection H as <-.
  - destruct (step s r) as [s1|] eqn:E; [|discriminate]. cbn in H.
    rewrite (IH _ _ H) by (intros r' d Hr'; apply N; now right).
    rewrite (step_cell _ _ _ E).
    destruct (dienstplan_target fromisoformat start stop r) as [[e' d]|] eqn:T;
      trivial.
    destruct (Z.eqb_spec e' e) as [->|]; [|now rewrite andb_false_r].
    specialize (N r d (or_introl eq_refl) T).
    destruct (Z.eqb_spec (day d) k); [contradiction|]. now rewrite andb_false_r.
Qed.

(** The last row about an employee and a day decides the cell *)
Lemma loop_cell_last l1 r l2 e d s s' :
  for_each step (l1 ++ r :: l2) s = Ok s' ->
  dienstplan_target fromisoformat start stop r = Some (e, d) ->
  PyDict.mem Z.eqb e (fst s) = true ->
  (forall r' d', In r' l2 ->
     dienstplan_target fromisoformat start stop r' = Some (e, d') ->
     day d' <> day d) ->
  schedule_cell (fst s') e (day d) = Some (dienstplan_cell defs r d).
Proof.
  intros H T M N. rewrite for_each_app in H.
  destruct (for_each step l1 s) as [s1|] eqn:E1; [|discriminate].
  cbn [bind for_each] in H.
  destruct (step s1 r) as [s2|] eqn:E2; [|discriminate]. cbn [bind] in H.
  rewrite (loop_cell_untouched e (day d) l2 s2 s' H N).
  rewrite (step_cell _ _ _ E2), T.
  rewrite (loop_mem _ _ _ E1), M, !Z.eqb_refl. reflexivity.
Qed.

End MonthGrid.

Lemma find_values (employees : list employee) (d : list (Z * employee_schedule))
  (e : Z) :
  keyed_by employees d ->
  find (fun es => emp_id (es_employee es) =? e) (PyDict.values d)
  = PyDict.get Z.eqb e d.
Proof.
  induction d as [|[k es] d IH]; intros K; cbn; [reflexivity|].
  destruct (K k es (or_introl eq_refl)) as [_ ->].
  rewrite (Z.eqb_sym e). destruct (emp_id (es_employee es) =? e); trivial.
  apply IH. intros k' es' H. apply K. now right.
Qed.

Lemma active_employees_active (st : store) (limit : option Z) (e : employee) :
  In e (active_employees st limit) ->
  In e (tbl_5EMPL st) /\ emp_empend e = DNone.
Proof.
  unfold active_employees. intros H.
  assert (F : In e (filter (fun e => is_null (emp_empend e)) (tbl_5EMPL st))).
  { destruct limit as [n|]; trivial.
    destruct (n <? _); trivial.
    rewrite <- (firstn_skipn (Z.to_nat n)). apply in_or_app. now left. }
  apply filter_In in F as [F1 F2]. split; trivial.
  now destruct (emp_empend e).
Qed.

Lemma scheduled_limit (st : store) (limit : option Z) (r : shift_row) :
  scheduled (active_employees st None) r = false ->
  scheduled (active_employees st limit) r = false.
Proof.
  unfold scheduled. destruct (sr_employee_id r) as [i|]; trivial.
  intros H. destruct (existsb _ (active_employees st limit)) eqn:E; trivial.
  apply existsb_exists in E as (e & He & Hi).
  assert (X : existsb (fun e => emp_id e =? i) (active_employees st None) = true).
  { apply existsb_exists. exists e. split; trivial.
    unfold active_employees in *. destruct limit as [n|]; trivial.
    destruct (n <? _); trivial.
    rewrite <- (firstn_skipn (Z.to_nat n)). apply in_or_app. now left. }
  congruence.
Qed.

Lemma scheduled_mem (employees : list employee) (r : shift_row) :
  match sr_employee_id r with
  | Some i => PyDict.mem Z.eqb i (empty_schedules employees)
  | None => false
  end = scheduled employees r.
Proof.
  unfold scheduled. destruct (sr_employee_id r); trivial.
  apply mem_empty_schedules.
Qed.

(** C9: the month grid lists only employees of the store whose [empend] is
    null, and the assignments of every other employee are left out: the
    grid is the one computed without them, whatever their dates. *)
Theorem C9_month_grid_active_employees
  (fromisoformat : string -> option date) (st : store) (y m : Z)
  (limit : option Z) :
  (forall out, get_dienstplan fromisoformat st y m limit = Ok out ->
     Forall (fun es => In (es_employee es) (tbl_5EMPL st)
                       /\ emp_empend (es_employee es) = DNone)
            (dp_employees out))
  /\ get_dienstplan fromisoformat
       (with_assignments st
          (filter (scheduled (active_employees st None)) (tbl_5MASHI st))
          (filter (scheduled (active_employees st None)) (tbl_5SPSHI st)))
       y m limit
     = get_dienstplan fromisoformat st y m limit.
Proof.
  split.
  - intros out. unfold get_dienstplan.
    destruct (month_window y m) as [w|]; [|discriminate]. cbn [bind].
    destruct (for_each _ _ _) as [s|] eqn:E; [|discriminate]. cbn [bind].
    intros [= <-]. cbn [dp_employees].
    pose proof (loop_keyed fromisoformat (fst w) (snd w) (shift_definitions st)
                  (active_employees st limit) _ _ _ E
                  (keyed_by_empty_schedules _)) as K.
    apply Forall_forall. intros es Hes.
    unfold PyDict.values in Hes. apply in_map_iff in Hes as ([k es'] & <- & Hin).
    destruct (K k es' Hin) as [Ha _]. cbn [snd].
    now apply active_employees_active with (limit := limit).
  - unfold get_dienstplan.
    destruct (month_window y m) as [w|]; [|reflexivity]. cbn [bind].
    change (active_employees (with_assignments st _ _) limit)
      with (active_employees st limit).
    change (shift_definitions (with_assignments st _ _))
      with (shift_definitions st).
    cbn [with_assignments tbl_5MASHI tbl_5SPSHI].
    rewrite <- filter_app.
    rewrite loop_filter; [reflexivity|].
    intros r Hr. cbn [fst]. rewrite scheduled_mem.
    now apply scheduled_limit.
Qed.

Lemma C9_witness :
  (exists out,
     get_dienstplan fromisoformat_seconds store_with_leaver 2025 6 None = Ok out
     /\ map (fun es => emp_id (es_employee es)) (dp_employees out) = [42; 7]
     /\ Forall (fun es => In (es_employee es) (tbl_5EMPL store_with_leaver)
                          /\ emp_empend (es_employee es) = DNone)
               (dp_employees out))
  /\ get_dienstplan fromisoformat_seconds
       (with_assignments store_with_leaver
          [mkshift_row (Some 42) (DStr "2025-06-10") (Some 1) None;
           mkshift_row (Some 7) (DStr "2025-06-12") (Some 1) None]
          [])
       2025 6 None
     = get_dienstplan fromisoformat_seconds store_with_leaver 2025 6 None.
Proof.
  destruct (C9_month_grid_active_employees fromisoformat_seconds
              store_with_leaver 2025 6 None) as [Listed Left_out].
  split.
  - eexists. split; [reflexivity|]. split; [reflexivity|].
    apply Listed. reflexivity.
  - exact Left_out.
Defined.

(** C3, as the code has it: the month grid reads the main and the special
    assignments only.  The absence table does not change it, and the cell
    of an employee's day shows the last main or special assignment of that
    employee and day, with the name and code of its shift; so for an
    employee with a main assignment and an absence on one day it shows
    the main shift. *)
Theorem C3_month_grid_ignores_absences
  (fromisoformat : string -> option date) (st : store) (y m : Z)
  (limit : option Z) :
  (forall absences,
     get_dienstplan fromisoformat (with_absences st absences) y m limit
     = get_dienstplan fromisoformat st y m limit)
  /\ forall out start stop l1 r l2 e d,
       get_dienstplan fromisoformat st y m limit = Ok out ->
       month_window y m = Ok (start, stop) ->
       tbl_5MASHI st ++ tbl_5SPSHI st = l1 ++ r :: l2 ->
       dienstplan_target fromisoformat start stop r = Some (e, d) ->
       scheduled (active_employees st limit) r = true ->
       (forall r' d', In r' l2 ->
          dienstplan_target fromisoformat start stop r' = Some (e, d') ->
          day d' <> day d) ->
       dienstplan_cell_at out e (day d)
       = Some (dienstplan_cell (shift_definitions st) r d).
Proof.
  split; [reflexivity|].
  intros out start stop l1 r l2 e d H W Rows T S N.
  unfold get_dienstplan in H. rewrite W in H. cbn [bind fst snd] in H.
  rewrite Rows in H.
  destruct (for_each _ _ _) as [s|] eqn:E; [|discriminate]. cbn [bind] in H.
  injection H as <-. unfold dienstplan_cell_at. cbn [dp_employees].
  rewrite (find_values (active_employees st limit)).
  2:{ eapply loop_keyed; [exact E|]. apply keyed_by_empty_schedules. }
  assert (M : PyDict.mem Z.eqb e (empty_schedules (active_employees st limit)) = true).
  { pose proof (scheduled_mem (active_employees st limit) r) as X.
    unfold dienstplan_target in T.
    destruct (sr_employee_id r) as [i|]; [|discriminate].
    assert (i = e) as ->.
    { destruct (truthy (sr_date r)); [|discriminate].
      destruct (dienstplan_date fromisoformat (sr_date r)) as [x| |];
        try discriminate.
      destruct (in_window start stop x); [|discriminate]. now injection T. }
    now rewrite X. }
  exact (loop_cell_last fromisoformat start stop (shift_definitions st)
           l1 r l2 e d _ _ E T M N).
Qed.

Lemma C3_witness :
  month_grid_cell
    (get_dienstplan fromisoformat_seconds store_main_and_absence 2025 6 None)
    42 10
  = Some (dienstplan_cell (shift_definitions store_main_and_absence)
            (mkshift_row (Some 42) (DStr "2025-06-10") (Some 1) None)
            (mkdate 2025 6 10)).
Proof.
  destruct (get_dienstplan fromisoformat_seconds store_main_and_absence 2025 6 None)
    as [out|] eqn:G; [|discriminate G].
  cbn [month_grid_cell].
  apply (proj2 (C3_month_grid_ignores_absences fromisoformat_seconds
                  store_main_and_absence 2025 6 None)
           out (mkdate 2025 6 1) (mkdate 2025 6 30)
           [] (mkshift_row (Some 42) (DStr "2025-06-10") (Some 1) None) []
           42 (mkdate 2025 6 10)).
  - exact G.
  - reflexivity.
  - reflexivity.
  - reflexivity.
  - reflexivity.
  - intros r' d' [].
Defined.

Lemma C3_counterexample :
  month_grid_cell
    (get_dienstplan fromisoformat_seconds store_main_and_absence 2025 6 None)
    42 10
  = Some (mkcell (Some 1) "FD" (Some "Fruehdienst"%string) "2025-06-10"
            (Some 255) (Some 65280) (Some 0)).
Proof. vm_compute. reflexivity. Qed.

(** ** The shift matrix *)

Section Totals.

Context {K V : Type} (eqb : K -> K -> bool).
Hypothesis eqb_eq : forall a b, eqb a b = true <-> a = b.
Variable w : V -> nat.

Lemma total_set (k : K) (v : V) (d : list (K * V)) :
  (total w (PyDict.set eqb k v d)
   + match PyDict.get eqb k d with Some o => w o | None => 0 end
   = total w d + w v)%nat.
Proof.
  unfold total, list_sum. induction d as [|[k' v'] d IH]; cbn; [lia|].
  destruct (eqb k k'); cbn; lia.
Qed.

End Totals.

Lemma matrix_cell_place name def k entry m name' k' :
  matrix_cell (place name def k entry m) name' k'
  = if String.eqb name name' && (k =? k')
    then matrix_cell m name k ++ [entry]
    else matrix_cell m name' k'.
Proof.
  unfold matrix_cell, place.
  destruct (String.eqb_spec name name') as [<-|N].
  - rewrite (get_set_same _ string_eqb_eq). cbn [mr_days andb].
    destruct (Z.eqb_spec k k') as [<-|Nk].
    + rewrite (get_set_same _ Z_eqb_eq).
      destruct (PyDict.get String.eqb name m) as [row|]; reflexivity.
    + rewrite (get_set_other _ Z_eqb_eq) by assumption.
      destruct (PyDict.get String.eqb name m) as [row|]; reflexivity.
  - rewrite (get_set_other _ string_eqb_eq) by assumption. reflexivity.
Qed.

Lemma matrix_total_place name def k entry m :
  matrix_total (place name def k entry m) = S (matrix_total m).
Proof.
  unfold matrix_total, place.
  pose proof (total_set String.eqb
                (fun row => total (@List.length matrix_entry) (mr_days row))
                name
                (mkmatrix_row
                   (mr_shift_definition
                      match PyDict.get String.eqb name m with
                      | Some r => r
                      | None => mkmatrix_row def []
                      end)
                   (PyDict.set Z.eqb k
                      (match PyDict.get Z.eqb k
                               (mr_days match PyDict.get String.eqb name m with
                                        | Some r => r
                                        | None => mkmatrix_row def []
                                        end) with
                       | Some l => l
                       | None => []
                       end ++ [entry])
                      (mr_days match PyDict.get String.eqb name m with
                               | Some r => r
                               | None => mkmatrix_row def []
                               end)))
                m) as T.
  cbn [mr_days] in T.
  destruct (PyDict.get String.eqb name m) as [row|].
  - pose proof (total_set Z.eqb (@List.length matrix_entry) k
                  (match PyDict.get Z.eqb k (mr_days row) with
                   | Some l => l
                   | None => []
                   end ++ [entry]) (mr_days row)) as D.
    rewrite length_app in D. cbn [List.length] in D.
    destruct (PyDict.get Z.eqb k (mr_days row)); cbn [List.length] in *; lia.
  - cbn in T. cbn. lia.
Qed.

Section ShiftMatrix.

Variable fromisoformat : string -> option date.
Variables start stop : date.
Variable defs : list (Z * shift_def).
Variable employees_dict : list (Z * employee).

Let step := einsatzplan_step fromisoformat start stop defs employees_dict.

(** What one pass of the loop body does to the counters and the matrix *)
Lemma step_effect (s : einsatz_state) (r : shift_row) :
  if raises fromisoformat start stop defs r then step s r = HTTP500
  else
    exists s',
      step s r = Ok s'
      /\ date_parse_errors s'
         = date_parse_errors s
           + (if fails_to_parse fromisoformat r then 1 else 0)
           + (if parses_outside fromisoformat start stop r then 1 else 0)
      /\ processed_count s'
         = processed_count s
           + (if is_placed fromisoformat start stop r then 1 else 0)
      /\ matrix_total (shift_matrix s')
         = (matrix_total (shift_matrix s)
            + (if is_placed fromisoformat start stop r then 1 else 0))%nat
      /\ (forall name k x, In x (matrix_cell (shift_matrix s) name k) ->
                           In x (matrix_cell (shift_matrix s') name k))
      /\ (forall d name,
            truthy (sr_date r) = true ->
            einsatzplan_date fromisoformat (sr_date r) = NDate d ->
            in_window start stop d = true ->
            assignment_shift_name defs r = Some name ->
            In (make_entry employees_dict (sr_employee_id r))
               (matrix_cell (shift_matrix s') name (day d))).
Proof.
  unfold raises, fails_to_parse, parses_outside, is_placed, step, einsatzplan_step.
  destruct (truthy (sr_date r)); cbn [andb].
  2:{ exists s. repeat split; try lia; auto; try discriminate. }
  destruct (einsatzplan_date fromisoformat (sr_date r)) as [d| |]; cbn [andb negb].
  - destruct (in_window start stop d) eqn:W; cbn [andb negb].
    + destruct (assignment_shift_name defs r) as [name|]; [|reflexivity].
      eexists. split; [reflexivity|].
      cbn [date_parse_errors processed_count shift_matrix].
      repeat split; try lia.
      * rewrite matrix_total_place. lia.
      * intros n k x Hx. rewrite matrix_cell_place.
        destruct (String.eqb_spec name n) as [<-|]; trivial.
        destruct (Z.eqb_spec (day d) k) as [<-|]; trivial.
        cbn [andb]. apply in_or_app. now left.
      * intros d' name' _ [= <-] _ [= <-]. rewrite matrix_cell_place.
        rewrite String.eqb_refl, Z.eqb_refl. cbn [andb].
        apply in_or_app. right. now left.
    + exists (count_error s). split; [reflexivity|].
      cbn [count_error date_parse_errors processed_count shift_matrix].
      repeat split; try lia; auto.
      intros d' name' _ [= <-]. congruence.
  - exists (count_error s). split; [reflexivity|].
    cbn [count_error date_parse_errors processed_count shift_matrix].
    repeat split; try lia; auto; try discriminate.
  - reflexivity.
Qed.

Lemma count_cons {A} (f : A -> bool) (x : A) (l : list A) :
  count f (x :: l) = (if f x then 1 else 0) + count f l.
Proof. unfold count. cbn. destruct (f x); cbn [List.length]; lia. Qed.

(** The loop, when no row raises *)
Lemma loop_counts (rows : list shift_row) : forall s,
  Forall (fun r => raises fromisoformat start stop defs r = false) rows ->
  exists s',
    for_each step rows s = Ok s'
    /\ date_parse_errors s'
       = date_parse_errors s + count (fails_to_parse fromisoformat) rows
         + count (parses_outside fromisoformat start stop) rows
    /\ processed_count s'
       = processed_count s + count (is_placed fromisoformat start stop) rows
    /\ Z.of_nat (matrix_total (shift_matrix s'))
       = Z.of_nat (matrix_total (shift_matrix s))
         + count (is_placed fromisoformat start stop) rows.
Proof.
  induction rows as [|r rows IH]; intros s F.
  - exists s. unfold count. cbn. repeat split; lia.
  - apply Forall_cons_iff in F as [Fr F].
    pose proof (step_effect s r) as E. rewrite Fr in E.
    destruct E as (s1 & E1 & D1 & P1 & T1 & _).
    destruct (IH s1 F) as (s' & E' & D' & P' & T').
    exists s'. cbn [for_each]. rewrite E1. cbn [bind].
    rewrite !count_cons. repeat split; trivial; try lia.
    rewrite T', T1.
    destruct (is_placed fromisoformat start stop r); lia.
Qed.

(** A loop that returns met no raising row *)
Lemma loop_returns (rows : list shift_row) : forall s s',
  for_each step rows s = Ok s' ->
  Forall (fun r => raises fromisoformat start stop defs r = false) rows.
Proof.
  induction rows as [|r rows IH]; intros s s' H; [constructor|].
  cbn [for_each] in H. pose proof (step_effect s r) as E.
  destruct (raises fromisoformat start stop defs r) eqn:R.
  - rewrite E in H. discriminate.
  - constructor; trivial. destruct E as (s1 & E1 & _).
    rewrite E1 in H. cbn [bind] in H. eauto.
Qed.

Lemma loop_keeps (rows : list shift_row) : forall s s',
  for_each step rows s = Ok s' ->
  forall name k x, In x (matrix_cell (shift_matrix s) name k) ->
                   In x (matrix_cell (shift_matrix s') name k).
Proof.
  induction rows as [|r rows IH]; intros s s' H name k x Hx; cbn [for_each] in H.
  - now injection H as <-.
  - pose proof (step_effect s r) as E.
    destruct (raises fromisoformat start stop defs r).
    + rewrite E in H. discriminate.
    + destruct E as (s1 & E1 & _ & _ & _ & Keep & _).
      rewrite E1 in H. cbn [bind] in H. eauto.
Qed.

(** Every placed row has its entry in the matrix *)
Lemma loop_places (rows : list shift_row) : forall s s',
  for_each step rows s = Ok s' ->
  forall r d name,
    In r rows ->
    truthy (sr_date r) = true ->
    einsatzplan_date fromisoformat (sr_date r) = NDate d ->
    in_window start stop d = true ->
    assignment_shift_name defs r = Some name ->
    In (make_entry employees_dict (sr_employee_id r))
       (matrix_cell (shift_matrix s') name (day d)).
Proof.
  induction rows as [|r0 rows IH]; intros s s' H r d name Hin Ht Hd Hw Hn;
    [destruct Hin|].
  cbn [for_each] in H. pose proof (step_effect s r0) as E.
  destruct (raises fromisoformat start stop defs r0).
  - rewrite E in H. discriminate.
  - destruct E as (s1 & E1 & _ & _ & _ & _ & Put).
    rewrite E1 in H. cbn [bind] in H.
    destruct Hin as [->|Hin].
    + eapply loop_keeps; [exact H|]. now apply Put.
    + eapply IH; eauto.
Qed.

End ShiftMatrix.

(** *** Sorting the rows keeps them *)

Lemma get_insert_row (x : string * matrix_row) (l : list (string * matrix_row))
  (n : string) :
  ~ In (fst x) (PyDict.keys l) ->
  PyDict.get String.eqb n (insert_row x l)
  = if String.eqb n (fst x) then Some (snd x) else PyDict.get String.eqb n l.
Proof.
  destruct x as [kx vx]. cbn [fst snd].
  induction l as [|[ky vy] l IH]; intros N; cbn [insert_row PyDict.get].
  - reflexivity.
  - destruct (String.ltb _ _); cbn [PyDict.get]; [|reflexivity].
    rewrite IH by (intros H; apply N; now right).
    destruct (String.eqb_spec n ky) as [->|]; trivial.
    destruct (String.eqb_spec ky kx) as [->|]; trivial.
    exfalso. apply N. now left.
Qed.

Lemma get_sorted (m : list (string * matrix_row)) (n : string) :
  NoDup (PyDict.keys m) ->
  PyDict.get String.eqb n (fold_right insert_row [] m) = PyDict.get String.eqb n m.
Proof.
  induction m as [|[k v] m IH] in n |- *; intros ND; cbn [fold_right]; trivial.
  inversion ND as [|? ? Hk ND']; subst.
  rewrite get_insert_row.
  - cbn [fst snd PyDict.get]. destruct (String.eqb n k); auto.
  - cbn [fst]. intros H. apply Hk. apply keys_get.
    rewrite <- IH by assumption. now apply get_keys.
Qed.

Lemma total_insert_row (w : matrix_row -> nat) (x : string * matrix_row)
  (l : list (string * matrix_row)) :
  total w (insert_row x l) = (w (snd x) + total w l)%nat.
Proof.
  unfold total, list_sum.
  induction l as [|y l IH]; cbn [insert_row]; [reflexivity|].
  destruct (String.ltb _ _); cbn [map fold_right]; [rewrite IH|]; lia.
Qed.

Lemma total_sorted (w : matrix_row -> nat) (m : list (string * matrix_row)) :
  total w (fold_right insert_row [] m) = total w m.
Proof.
  induction m as [|x m IH]; cbn [fold_right]; trivial.
  rewrite total_insert_row, IH. reflexivity.
Qed.

Lemma place_NoDup name def k entry m :
  NoDup (PyDict.keys m) -> NoDup (PyDict.keys (place name def k entry m)).
Proof. apply (NoDup_keys_set _ string_eqb_eq). Qed.

Lemma loop_NoDup fromisoformat start stop defs employees_dict rows : forall s s',
  for_each (einsatzplan_step fromisoformat start stop defs employees_dict) rows s
  = Ok s' ->
  NoDup (PyDict.keys (shift_matrix s)) -> NoDup (PyDict.keys (shift_matrix s')).
Proof.
  induction rows as [|r rows IH]; intros s s' H ND; cbn [for_each] in H.
  - now injection H as <-.
  - destruct (einsatzplan_step _ _ _ _ _ s r) as [s1|] eqn:E; [|discriminate].
    cbn [bind] in H. apply (IH _ _ H).
    unfold einsatzplan_step in E.
    destruct (truthy (sr_date r)); [|now injection E as <-].
    destruct (einsatzplan_date fromisoformat (sr_date r)) as [d| |];
      try discriminate; [|now injection E as <-].
    destruct (in_window start stop d); [|now injection E as <-].
    destruct (assignment_shift_name defs r); [|discriminate].
    injection E as <-. cbn [shift_matrix]. now apply place_NoDup.
Qed.

(** What [get_einsatzplan] returns, in terms of the loop *)
Lemma get_einsatzplan_loop fromisoformat st y m out :
  get_einsatzplan fromisoformat st y m = Ok out ->
  exists start stop s,
    month_window y m = Ok (start, stop)
    /\ einsatzplan_loop fromisoformat st start stop = Ok s
    /\ (forall name k,
          matrix_cell (ep_shifts out) name k = matrix_cell (shift_matrix s) name k)
    /\ matrix_total (ep_shifts out) = matrix_total (shift_matrix s).
Proof.
  unfold get_einsatzplan.
  destruct (month_window y m) as [[start stop]|]; [|discriminate]. cbn [bind fst snd].
  destruct (einsatzplan_loop fromisoformat st start stop) as [s|] eqn:L;
    [|discriminate]. cbn [bind].
  unfold sorted_shifts. destruct (_ && _); [discriminate|]. cbn [bind].
  intros [= <-]. exists start, stop, s. repeat split; trivial.
  - intros name k. cbn [ep_shifts]. unfold matrix_cell.
    rewrite get_sorted; trivial.
    eapply loop_NoDup; [exact L|]. constructor.
  - cbn [ep_shifts]. apply total_sorted.
Qed.

(** C4, as the code has it: the shift matrix has no reconciliation.  Every
    assignment whose date lies in the month adds its own entry to the row
    of its shift name, so the matrix holds as many entries as there are
    such assignments, and an employee with a main assignment and an
    absence on one day is listed in the row of the main shift and in the
    row ["Abwesenheit"]. *)
Theorem C4_shift_matrix_keeps_every_assignment
  (fromisoformat : string -> option date) (st : store) (y m : Z)
  (out : einsatzplan) (start stop : date) :
  get_einsatzplan fromisoformat st y m = Ok out ->
  month_window y m = Ok (start, stop) ->
  (forall r d name,
     In r (einsatzplan_assignments st) ->
     truthy (sr_date r) = true ->
     einsatzplan_date fromisoformat (sr_date r) = NDate d ->
     in_window start stop d = true ->
     assignment_shift_name (shift_definitions st) r = Some name ->
     In (make_entry (PyDict.of_list Z.eqb emp_id (tbl_5EMPL st)) (sr_employee_id r))
        (matrix_cell (ep_shifts out) name (day d)))
  /\ Z.of_nat (matrix_total (ep_shifts out))
     = count (is_placed fromisoformat start stop) (einsatzplan_assignments st)
  /\ (forall r a d name,
        In r (tbl_5MASHI st) -> In a (tbl_5ABSEN st) ->
        ab_employee_id a = sr_employee_id r ->
        truthy (sr_date r) = true -> truthy (ab_date a) = true ->
        einsatzplan_date fromisoformat (sr_date r) = NDate d ->
        einsatzplan_date fromisoformat (ab_date a) = NDate d ->
        in_window start stop d = true ->
        is_absence r = false ->
        assignment_shift_name (shift_definitions st) r = Some name ->
        In (make_entry (PyDict.of_list Z.eqb emp_id (tbl_5EMPL st)) (sr_employee_id r))
           (matrix_cell (ep_shifts out) name (day d))
        /\ In (make_entry (PyDict.of_list Z.eqb emp_id (tbl_5EMPL st)) (sr_employee_id r))
              (matrix_cell (ep_shifts out) "Abwesenheit" (day d))).
Proof.
  intros G W.
  destruct (get_einsatzplan_loop _ _ _ _ _ G) as (start' & stop' & s & W' & L & C & T).
  rewrite W in W'. injection W' as <- <-.
  assert (P : forall r d name,
     In r (einsatzplan_assignments st) ->
     truthy (sr_date r) = true ->
     einsatzplan_date fromisoformat (sr_date r) = NDate d ->
     in_window start stop d = true ->
     assignment_shift_name (shift_definitions st) r = Some name ->
     In (make_entry (PyDict.of_list Z.eqb emp_id (tbl_5EMPL st)) (sr_employee_id r))
        (matrix_cell (ep_shifts out) name (day d))).
  { intros r d name Hin Ht Hd Hw Hn. rewrite C.
    exact (loop_places fromisoformat start stop _ _ _ _ _ L r d name Hin Ht Hd Hw Hn). }
  split; [exact P|]. split.
  - rewrite T.
    pose proof (loop_returns fromisoformat start stop _ _ _ _ _ L) as R.
    destruct (loop_counts fromisoformat start stop (shift_definitions st)
                (PyDict.of_list Z.eqb emp_id (tbl_5EMPL st))
                (einsatzplan_assignments st) (mkeinsatz_state [] 0 0 0) R)
      as (s' & L' & _ & _ & T').
    unfold einsatzplan_loop in L. rewrite L in L'. injection L' as <-.
    rewrite T'. reflexivity.
  - intros r a d name Hr Ha He Ht Hta Hd Hda Hw Hab Hn. split.
    + apply P; trivial. unfold einsatzplan_assignments. apply in_or_app. now left.
    + rewrite <- He.
      apply (P (mkshift_row (ab_employee_id a) (ab_date a) (Some 99999)
                  (Some "absence"%string)) d "Abwesenheit"%string); trivial.
      unfold einsatzplan_assignments, absence_assignments.
      apply in_or_app. right. apply in_or_app. right.
      apply in_map_iff. now exists a.
Qed.

Lemma C4_witness :
  In (mkmatrix_entry (Some 42) (Some "Gruber"%string) (Some "Max"%string))
     (shift_matrix_cell
        (get_einsatzplan fromisoformat_seconds store_main_and_absence 2025 6)
        "Fruehdienst" 10)
  /\ In (mkmatrix_entry (Some 42) (Some "Gruber"%string) (Some "Max"%string))
        (shift_matrix_cell
           (get_einsatzplan fromisoformat_seconds store_main_and_absence 2025 6)
           "Abwesenheit" 10).
Proof.
  destruct (get_einsatzplan fromisoformat_seconds store_main_and_absence 2025 6)
    as [out|] eqn:G; [|discriminate G].
  cbn [shift_matrix_cell].
  destruct (C4_shift_matrix_keeps_every_assignment fromisoformat_seconds
              store_main_and_absence 2025 6 out (mkdate 2025 6 1) (mkdate 2025 6 30)
              G eq_refl) as (_ & _ & Both).
  apply (Both (mkshift_row (Some 42) (DStr "2025-06-10") (Some 1) None)
              (mkabsence_row (Some 42) (DStr "2025-06-10") (Some 1))
              (mkdate 2025 6 10) "Fruehdienst"%string);
    try reflexivity; now left.
Defined.

Lemma C4_counterexample :
  shift_matrix_cell
    (get_einsatzplan fromisoformat_seconds store_main_and_absence 2025 6)
    "Fruehdienst" 10
  = [mkmatrix_entry (Some 42) (Some "Gruber"%string) (Some "Max"%string)]
  /\ shift_matrix_cell
       (get_einsatzplan fromisoformat_seconds store_main_and_absence 2025 6)
       "Abwesenheit" 10
     = [mkmatrix_entry (Some 42) (Some "Gruber"%string) (Some "Max"%string)].
Proof. split; vm_compute; reflexivity. Qed.

(** C5, as the code has it: [date_parse_errors] counts the assignments with
    a non-empty date that are not placed, those whose date fails to
    normalise and those whose date parses but lies outside the month;
    assignments without a date are passed over uncounted.  When no
    assignment raises, the loop runs to its end, and every assignment with
    a date is either placed or counted. *)
Theorem C5_date_parse_errors
  (fromisoformat : string -> option date) (st : store) (start stop : date) :
  Forall (fun r => raises fromisoformat start stop (shift_definitions st) r = false)
         (einsatzplan_assignments st) ->
  exists s,
    einsatzplan_loop fromisoformat st start stop = Ok s
    /\ date_parse_errors s
       = count (fails_to_parse fromisoformat) (einsatzplan_assignments st)
         + count (parses_outside fromisoformat start stop) (einsatzplan_assignments st)
    /\ processed_count s
       = count (is_placed fromisoformat start stop) (einsatzplan_assignments st)
    /\ date_parse_errors s + processed_count s
       = count (fun r => truthy (sr_date r)) (einsatzplan_assignments st).
Proof.
  intros R.
  destruct (loop_counts fromisoformat start stop (shift_definitions st)
              (PyDict.of_list Z.eqb emp_id (tbl_5EMPL st))
              (einsatzplan_assignments st) (mkeinsatz_state [] 0 0 0) R)
    as (s & L & D & P & _).
  exists s. cbn [date_parse_errors processed_count] in D, P.
  repeat split; trivial; try lia.
  rewrite D, P. clear - R.
  induction (einsatzplan_assignments st) as [|r rows IH]; [reflexivity|].
  apply Forall_cons_iff in R as [Rr R]. specialize (IH R).
  rewrite !count_cons.
  assert (E : (if fails_to_parse fromisoformat r then 1 else 0)
              + (if parses_outside fromisoformat start stop r then 1 else 0)
              + (if is_placed fromisoformat start stop r then 1 else 0)
              = if truthy (sr_date r) then 1 else 0).
  { unfold raises, fails_to_parse, parses_outside, is_placed in *.
    destruct (truthy (sr_date r)); cbn [andb] in *; trivial.
    destruct (einsatzplan_date fromisoformat (sr_date r)) as [d| |];
      try discriminate; trivial.
    destruct (in_window start stop d); reflexivity. }
  lia.
Qed.

Lemma C5_witness :
  exists s,
    einsatzplan_loop fromisoformat_seconds store_outside_window
      (mkdate 2025 6 1) (mkdate 2025 6 30) = Ok s
    /\ date_parse_errors s = 1.
Proof.
  assert (R : Forall (fun r => raises fromisoformat_seconds (mkdate 2025 6 1)
                                 (mkdate 2025 6 30)
                                 (shift_definitions store_outside_window) r = false)
                (einsatzplan_assignments store_outside_window)).
  { repeat constructor. }
  destruct (C5_date_parse_errors fromisoformat_seconds store_outside_window
              (mkdate 2025 6 1) (mkdate 2025 6 30) R) as (s & L & D & _).
  exists s. split; [exact L|]. rewrite D. reflexivity.
Defined.

Lemma C5_counterexample :
  einsatzplan_date fromisoformat_seconds (DStr "2025-07-01")
  = NDate (mkdate 2025 7 1)
  /\ count (fails_to_parse fromisoformat_seconds)
       (einsatzplan_assignments store_outside_window) = 0
  /\ einsatzplan_loop fromisoformat_seconds store_outside_window
       (mkdate 2025 6 1) (mkdate 2025 6 30)
     = Ok (mkeinsatz_state [] 0 0 1).
Proof. repeat split. Qed.

(** A text with a slash that does not split into three parts is left a
    text, and comparing it with the first day of the month raises: the
    request ends with status 500. *)
Example einsatzplan_two_part_date_raises :
  einsatzplan_date fromisoformat_seconds (DStr "1/2") = NRaise
  /\ get_einsatzplan fromisoformat_seconds store_two_parts 2025 6 = HTTP500.
Proof. split; reflexivity. Qed.

(** An invalid calendar date is counted and dropped. *)
Example einsatzplan_invalid_date_counted :
  einsatzplan_date fromisoformat_seconds (DStr "31/02/2025") = NSkip.
Proof. reflexivity. Qed.

(** * Further properties of the views *)

(** ** The year grid *)

Lemma reconcile_kept start stop (l : list assignment) (d : date) (a : assignment) :
  Forall well_formed l ->
  In a l -> assignment_day start stop a = Some d ->
  exists w,
    PyDict.get String.eqb (isoformat d) (reconcile start stop l) = Some w
    /\ In w l
    /\ assignment_day start stop w = Some d
    /\ priority_of_type (a_type a) <= priority_of_type (a_type w).
Proof.
  intros W Ha Hd.
  pose proof (well_formed_dates _ W) as Wd.
  assert (V : valid_date d = true).
  { eapply assignment_day_valid; eauto.
    now apply (proj1 (Forall_forall _ _) Wd). }
  pose proof (reconcile_lookup start stop l Wd d V) as L.
  destruct (PyDict.get String.eqb (isoformat d) (reconcile start stop l)) as [w|].
  - exists w.
    assert (Hw : In w l).
    { destruct L as (l1 & l2 & -> & _). apply in_or_app. right. now left. }
    repeat split; trivial.
    + now destruct L as (l1 & l2 & _ & ? & _).
    + pose proof (first_greatest_bound _ _ _ _ _ _ L Ha Hd) as B.
      destruct (proj1 (Forall_forall _ _) W a Ha) as [_ Ra].
      destruct (proj1 (Forall_forall _ _) W w Hw) as [_ Rw].
      now rewrite <- Ra, <- Rw.
  - exfalso. exact (L a Ha Hd).
Qed.

(** X1: a day with a leave shows ["UA"], whatever else is assigned on it; a
    day with an absence and no leave shows ["AB"]; a day with no
    assignment shows nothing. *)
Theorem year_grid_leave_absence_codes (st : store) (employee_id y : Z) (d : date) :
  1 <= y <= 9999 ->
  (exists e, In e (tbl_5EMPL st) /\ emp_id e = employee_id) ->
  wf_store st ->
  valid_date d = true -> year d = y ->
  ((exists a, In a (year_assignments st employee_id)
              /\ assignment_day (mkdate y 1 1) (mkdate y 12 31) a = Some d
              /\ a_type a = TLeave) ->
   year_grid_day (get_jahresuebersicht st employee_id y) (month d) (day d)
   = Some (Some "UA"%string))
  /\ ((exists a, In a (year_assignments st employee_id)
                 /\ assignment_day (mkdate y 1 1) (mkdate y 12 31) a = Some d
                 /\ a_type a = TAbsence) ->
      (forall b, In b (year_assignments st employee_id) ->
                 assignment_day (mkdate y 1 1) (mkdate y 12 31) b = Some d ->
                 a_type b <> TLeave) ->
      year_grid_day (get_jahresuebersicht st employee_id y) (month d) (day d)
      = Some (Some "AB"%string))
  /\ ((forall b, In b (year_assignments st employee_id) ->
                 assignment_day (mkdate y 1 1) (mkdate y 12 31) b <> Some d) ->
      year_grid_day (get_jahresuebersicht st employee_id y) (month d) (day d)
      = Some None).
Proof.
  intros Hy He W V Y.
  rewrite (year_grid_shows_kept st employee_id y d Hy He W V Y).
  pose proof (year_assignments_well_formed st employee_id W) as Wf.
  fold (year_assignments st employee_id) in Wf.
  split; [|split].
  - intros (a & Ha & Hd & Ht).
    destruct (reconcile_kept _ _ _ _ _ Wf Ha Hd) as (w & G & _ & _ & B).
    rewrite G. cbn [option_map]. unfold assignment_code.
    rewrite Ht in B. destruct (a_type w); cbn in B; try lia. reflexivity.
  - intros (a & Ha & Hd & Ht) NoLeave.
    destruct (reconcile_kept _ _ _ _ _ Wf Ha Hd) as (w & G & Hw & Hdw & B).
    rewrite G. cbn [option_map]. unfold assignment_code.
    rewrite Ht in B. specialize (NoLeave w Hw Hdw).
    destruct (a_type w); cbn in B; try lia; [reflexivity | contradiction].
  - intros None_.
    pose proof (reconcile_lookup (mkdate y 1 1) (mkdate y 12 31) _
                  (well_formed_dates _ Wf) d V) as L.
    destruct (PyDict.get String.eqb (isoformat d) _) as [w|]; [|reflexivity].
    exfalso. destruct L as (l1 & l2 & E & Hw & _).
    apply (None_ w); trivial. rewrite E. apply in_or_app. right. now left.
Qed.

Lemma year_grid_leave_absence_codes_witness :
  year_grid_day (get_jahresuebersicht store_leave_day 7 2025) 6 5
  = Some (Some "UA"%string).
Proof.
  assert (Hy : 1 <= 2025 <= 9999) by lia.
  assert (He : exists e, In e (tbl_5EMPL store_leave_day) /\ emp_id e = 7).
  { exists employee_7. split; [now left | reflexivity]. }
  assert (W : wf_store store_leave_day).
  { repeat split; repeat constructor. }
  apply (proj1 (year_grid_leave_absence_codes store_leave_day 7 2025
                  (mkdate 2025 6 5) Hy He W eq_refl eq_refl)).
  exists fact_leave. split; [|split; reflexivity].
  right. right. now left.
Defined.

(** ** The legend of the year grid *)

Lemma legend_fold (l : list shift_def) (k : string) :
  forall legend,
    PyDict.get String.eqb k (fold_left legend_step l legend)
    = match PyDict.get String.eqb k legend with
      | Some v => Some v
      | None =>
          if PyStr.truthy k
          then option_map sd_name
                 (find (fun sd => opt_string_eqb (sd_shortname sd) (Some k)) l)
          else None
      end.
Proof.
  induction l as [|sd l IH]; intros legend; cbn [fold_left find].
  - destruct (PyDict.get String.eqb k legend); trivial.
    now destruct (PyStr.truthy k).
  - rewrite IH. unfold legend_step, PyDict.mem.
    destruct (sd_shortname sd) as [s|]; cbn [opt_string_eqb].
    2:{ reflexivity. }
    destruct (String.eqb_spec s k) as [->|N].
    + destruct (PyStr.truthy k) eqn:T; cbn [andb].
      * destruct (PyDict.get String.eqb k legend) eqn:G; cbn [negb]; rewrite ?G.
        -- reflexivity.
        -- now rewrite (get_set_same _ string_eqb_eq).
      * now destruct (PyDict.get String.eqb k legend).
    + destruct (PyStr.truthy s && negb _); [|reflexivity].
      rewrite (get_set_other _ string_eqb_eq) by congruence. reflexivity.
Qed.

(** X2: the legend keeps its six fixed entries, whatever the shift
    definitions say; any other short name stands for the name of the
    first definition that carries it, and nothing else is in the legend.
    So every code the year grid takes from a short name has an entry. *)
Theorem jahres_legend_entries (defs : list (Z * shift_def)) :
  (forall k,
     PyDict.get String.eqb k (jahres_legend defs)
     = match PyDict.get String.eqb k builtin_legend with
       | Some v => Some v
       | None =>
           if PyStr.truthy k
           then option_map sd_name
                  (find (fun sd => opt_string_eqb (sd_shortname sd) (Some k))
                     (PyDict.values defs))
           else None
       end)
  /\ (forall sd, In sd (PyDict.values defs) ->
        opt_truthy (sd_shortname sd) = true ->
        PyDict.mem String.eqb (jahres_shift_code (Some sd)) (jahres_legend defs)
        = true).
Proof.
  split.
  - intros k. apply legend_fold.
  - intros sd Hin T. unfold jahres_shift_code, PyDict.mem.
    cbn [def_get]. rewrite T. cbn [negb].
    destruct (sd_shortname sd) as [s|] eqn:S; [|discriminate].
    cbn [opt_truthy] in T. cbn [py_or]. rewrite T.
    unfold jahres_legend. rewrite legend_fold, T.
    destruct (PyDict.get String.eqb s builtin_legend); trivial.
    destruct (find _ _) as [x|] eqn:F; trivial.
    exfalso. apply (find_none _ _ F) in Hin.
    rewrite S in Hin. cbn [opt_string_eqb] in Hin.
    now rewrite String.eqb_refl in Hin.
Qed.
(** ** The month grid *)

Lemma month_loop_fails fromisoformat start stop defs (rows : list shift_row) :
  forall s,
    for_each (dienstplan_step fromisoformat start stop defs) rows s = HTTP500
    <-> existsb (fun r =>
                   match sr_employee_id r with
                   | Some i => PyDict.mem Z.eqb i (fst s)
                   | None => false
                   end
                   && truthy (sr_date r)
                   && match dienstplan_date fromisoformat (sr_date r) with
                      | NRaise => true
                      | _ => false
                      end) rows = true.
Proof.
  induction rows as [|r rows IH]; intros s; cbn [for_each existsb].
  - split; discriminate.
  - destruct (dienstplan_step fromisoformat start stop defs s r) as [s'|] eqn:E;
      cbn [bind].
    + rewrite IH.
      assert (M : forall i, PyDict.mem Z.eqb i (fst s') = PyDict.mem Z.eqb i (fst s))
        by exact (step_mem fromisoformat start stop defs s r s' E).
      assert (N : match sr_employee_id r with
                  | Some i => PyDict.mem Z.eqb i (fst s)
                  | None => false
                  end
                  && truthy (sr_date r)
                  && match dienstplan_date fromisoformat (sr_date r) with
                     | NRaise => true
                     | _ => false
                     end = false).
      { unfold dienstplan_step, PyDict.mem in *.
        destruct (sr_employee_id r) as [i|]; trivial.
        destruct (PyDict.get Z.eqb i (fst s)); trivial.
        destruct (truthy (sr_date r)); trivial.
        destruct (dienstplan_date fromisoformat (sr_date r)); trivial.
        discriminate. }
      rewrite N. cbn [orb].
      assert (X : forall l,
                 existsb (fun r0 =>
                   match sr_employee_id r0 with
                   | Some i => PyDict.mem Z.eqb i (fst s')
                   | None => false
                   end
                   && truthy (sr_date r0)
                   && match dienstplan_date fromisoformat (sr_date r0) with
                      | NRaise => true
                      | _ => false
                      end) l
                 = existsb (fun r0 =>
                   match sr_employee_id r0 with
                   | Some i => PyDict.mem Z.eqb i (fst s)
                   | None => false
                   end
                   && truthy (sr_date r0)
                   && match dienstplan_date fromisoformat (sr_date r0) with
                      | NRaise => true
                      | _ => false
                      end) l).
      { induction l as [|a l IHl]; cbn [existsb]; trivial.
        rewrite IHl. destruct (sr_employee_id a); trivial. now rewrite M. }
      now rewrite X.
    + split; trivial. intros _.
      unfold dienstplan_step, PyDict.mem in *.
      destruct (sr_employee_id r) as [i|]; [|discriminate].
      destruct (PyDict.get Z.eqb i (fst s)); [|discriminate].
      destruct (truthy (sr_date r)); [|discriminate].
      destruct (dienstplan_date fromisoformat (sr_date r)) as [d| |];
        try discriminate; trivial.
      destruct (in_window start stop d); discriminate.
Qed.

Lemma month_raises_scheduled fromisoformat (employees : list employee)
  (l : list shift_row) :
  existsb (fun r =>
             match sr_employee_id r with
             | Some i => PyDict.mem Z.eqb i (empty_schedules employees)
             | None => false
             end
             && truthy (sr_date r)
             && match dienstplan_date fromisoformat (sr_date r) with
                | NRaise => true
                | _ => false
                end) l
  = existsb (dienstplan_raises fromisoformat employees) l.
Proof.
  induction l as [|a l IH]; trivial.
  cbn [existsb]. rewrite IH. unfold dienstplan_raises.
  now rewrite scheduled_mem.
Qed.

(** X3: the month grid fails in two cases only: the month is no month of the
    calendar, or an assignment of a listed employee carries a date that
    is neither text nor a date.  Text that does not parse never makes it
    fail, and neither does any assignment of an employee who is not
    listed. *)
Theorem month_grid_fails_iff
  (fromisoformat : string -> option date) (st : store) (y m : Z)
  (limit : option Z) :
  get_dienstplan fromisoformat st y m limit = HTTP500
  <-> month_window y m = HTTP500
      \/ existsb (dienstplan_raises fromisoformat (active_employees st limit))
           (tbl_5MASHI st ++ tbl_5SPSHI st) = true.
Proof.
  unfold get_dienstplan.
  destruct (month_window y m) as [w|]; cbn [bind].
  2:{ split; auto. }
  pose proof (month_loop_fails fromisoformat (fst w) (snd w)
                (shift_definitions st) (tbl_5MASHI st ++ tbl_5SPSHI st)
                (empty_schedules (active_employees st limit), 0)) as F.
  cbn [fst] in F. rewrite month_raises_scheduled in F.
  destruct (for_each _ _ _) as [s|]; cbn [bind].
  - split; [discriminate|]. intros [X|X]; [discriminate|].
    apply F in X. discriminate.
  - split; trivial. intros _. right. now apply F.
Qed.

Lemma empty_schedules_entries (employees : list employee) k es :
  In (k, es) (empty_schedules employees) -> es_schedule es = [].
Proof.
  unfold empty_schedules.
  assert (G : forall (d : list (Z * employee_schedule)),
             (forall k es, In (k, es) d -> es_schedule es = []) ->
             forall k es,
               In (k, es)
                 (fold_left (fun d emp => PyDict.set Z.eqb (emp_id emp)
                                            (mkemployee_schedule emp []) d)
                    employees d) ->
               es_schedule es = []).
  { induction employees as [|e l IH]; intros d Hd k' es'; cbn [fold_left].
    - apply Hd.
    - apply IH. intros k2 es2 H2.
      apply (In_set _ Z_eqb_eq) in H2 as [H2|H2].
      + eapply Hd; eauto.
      + injection H2 as _ ->. reflexivity. }
  apply G. intros ? ? [].
Qed.

Lemma schedule_cell_empty (employees : list employee) e k :
  schedule_cell (empty_schedules employees) e k = None.
Proof.
  unfold schedule_cell.
  destruct (PyDict.get Z.eqb e (empty_schedules employees)) as [es|] eqn:G; trivial.
  apply (get_In _ Z_eqb_eq) in G.
  now rewrite (empty_schedules_entries _ _ _ G).
Qed.

Lemma in_month_window (y m : Z) (start stop d : date) :
  month_window y m = Ok (start, stop) ->
  in_window start stop d = true ->
  year d = y /\ month d = m /\ 1 <= day d <= days_in_month y m.
Proof.
  unfold month_window, make_date.
  destruct (valid_ymd y m 1); [|discriminate].
  destruct (valid_ymd y m (days_in_month y m)); [|discriminate].
  intros [= <- <-]. unfold in_window, date_leb. cbn [year month day]. lia.
Qed.

Lemma dienstplan_shift_code_nonempty (sd : option shift_def) :
  dienstplan_shift_code sd <> EmptyString.
Proof.
  unfold dienstplan_shift_code.
  destruct (def_get sd_name sd) as [n|]; [|discriminate].
  destruct n as [|c n]; cbn [PyStr.truthy]; [discriminate|].
  apply py_or_nonempty. discriminate.
Qed.

Lemma month_loop_cells fromisoformat start stop defs
  (P : Z -> cell -> Prop) :
  (forall r e d, dienstplan_target fromisoformat start stop r = Some (e, d) ->
                 P (day d) (dienstplan_cell defs r d)) ->
  forall rows s s',
    for_each (dienstplan_step fromisoformat start stop defs) rows s = Ok s' ->
    (forall e k c, schedule_cell (fst s) e k = Some c -> P k c) ->
    forall e k c, schedule_cell (fst s') e k = Some c -> P k c.
Proof.
  intros HP. induction rows as [|r rows IH]; intros s s'; cbn [for_each].
  - now intros [= <-].
  - destruct (dienstplan_step fromisoformat start stop defs s r) as [s1|] eqn:E;
      cbn [bind]; [|discriminate].
    intros L Hs. apply (IH _ _ L). intros e k c.
    rewrite (step_cell fromisoformat start stop defs s r s1 E).
    destruct (dienstplan_target fromisoformat start stop r) as [[e' d]|] eqn:T.
    + destruct (PyDict.mem Z.eqb e' (fst s) && (e' =? e) && (day d =? k)) eqn:B.
      * intros [= <-]. apply andb_prop in B as [_ B].
        apply Z.eqb_eq in B as <-. now apply HP with (e := e').
      * apply Hs.
    + apply Hs.
Qed.

(** X4: every cell of the month grid is keyed by a day of the month, is
    dated with that day of that month in ISO form, and carries a code
    that is not empty. *)
Theorem month_grid_cells_in_month
  (fromisoformat : string -> option date) (st : store) (y m : Z)
  (limit : option Z) (out : dienstplan) (e k : Z) (c : cell) :
  get_dienstplan fromisoformat st y m limit = Ok out ->
  dienstplan_cell_at out e k = Some c ->
  1 <= k <= days_in_month y m
  /\ c_date c = isoformat (mkdate y m k)
  /\ c_shift_code c <> EmptyString.
Proof.
  unfold get_dienstplan.
  destruct (month_window y m) as [[start stop]|] eqn:W; cbn [bind]; [|discriminate].
  destruct (for_each _ _ _) as [s|] eqn:E; cbn [bind]; [|discriminate].
  intros [= <-]. unfold dienstplan_cell_at. cbn [dp_employees fst snd] in *.
  rewrite (find_values (active_employees st limit)).
  2:{ eapply loop_keyed; [exact E|]. apply keyed_by_empty_schedules. }
  fold (schedule_cell (fst s) e k).
  apply (month_loop_cells fromisoformat start stop (shift_definitions st)
           (fun k c => 1 <= k <= days_in_month y m
                       /\ c_date c = isoformat (mkdate y m k)
                       /\ c_shift_code c <> EmptyString)) with (2 := E).
  - intros r e' d T. unfold dienstplan_target in T.
    destruct (sr_employee_id r); [|discriminate].
    destruct (truthy (sr_date r)); [|discriminate].
    destruct (dienstplan_date fromisoformat (sr_date r)) as [x| |]; try discriminate.
    destruct (in_window start stop x) eqn:I; [|discriminate].
    injection T as _ <-.
    destruct (in_month_window _ _ _ _ _ W I) as (Y & M & D).
    split; [exact D|]. split.
    + cbn [dienstplan_cell c_date]. destruct x as [xy xm xd].
      cbn [year month day] in *. now subst.
    + cbn [dienstplan_cell c_shift_code]. apply dienstplan_shift_code_nonempty.
  - intros e' k' c'. cbn [fst]. now rewrite schedule_cell_empty.
Qed.
Lemma month_grid_fails_iff_witness :
  get_dienstplan fromisoformat_seconds store_number_date 2025 6 None = HTTP500.
Proof.
  apply (proj2 (month_grid_fails_iff fromisoformat_seconds store_number_date
                  2025 6 None)).
  right. reflexivity.
Defined.

Lemma month_grid_cells_in_month_witness :
  exists c,
    month_grid_cell
      (get_dienstplan fromisoformat_seconds store_main_and_absence 2025 6 None)
      42 10 = Some c
    /\ 1 <= 10 <= days_in_month 2025 6
    /\ c_date c = isoformat (mkdate 2025 6 10)
    /\ c_shift_code c <> EmptyString.
Proof.
  eexists. split; [reflexivity|].
  eapply (month_grid_cells_in_month fromisoformat_seconds
            store_main_and_absence 2025 6 None _ 42 10); reflexivity.
Defined.

Section DictOrder.

Context {K V : Type} (eqb : K -> K -> bool).
Hypothesis eqb_eq : forall a b, eqb a b = true <-> a = b.

Lemma set_fresh (k : K) (v : V) (d : list (K * V)) :
  PyDict.get eqb k d = None -> PyDict.set eqb k v d = d ++ [(k, v)].
Proof.
  induction d as [|[k' v'] d IH]; cbn; trivial.
  destruct (eqb k k'); [discriminate|]. intros G. now rewrite IH.
Qed.

Lemma get_app_fresh (k k' : K) (v : V) (d : list (K * V)) :
  k <> k' -> PyDict.get eqb k d = None ->
  PyDict.get eqb k (d ++ [(k', v)]) = None.
Proof.
  intros N. induction d as [|[k2 v2] d IH]; cbn.
  - intros _. now rewrite (eqb_other eqb eqb_eq) by assumption.
  - destruct (eqb k k2); [discriminate|]. exact IH.
Qed.

Lemma map_set_present {W} (f : K * V -> W) (k : K) (v v0 : V) (d : list (K * V)) :
  PyDict.get eqb k d = Some v0 -> f (k, v) = f (k, v0) ->
  map f (PyDict.set eqb k v d) = map f d.
Proof.
  intros G F. induction d as [|[k' v'] d IH]; cbn in *; [discriminate|].
  destruct (eqb k k') eqn:E.
  - apply eqb_eq in E. subst k'. injection G as ->. cbn. now rewrite F.
  - cbn. now rewrite IH.
Qed.

Lemma fold_set_fresh {X} (key : X -> K) (val : X -> V) (l : list X) :
  NoDup (map key l) ->
  forall d,
    (forall x, In x l -> PyDict.get eqb (key x) d = None) ->
    fold_left (fun d x => PyDict.set eqb (key x) (val x) d) l d
    = d ++ map (fun x => (key x, val x)) l.
Proof.
  induction l as [|x l IH]; intros ND d Hd; cbn [fold_left map].
  - now rewrite app_nil_r.
  - apply NoDup_cons_iff in ND as [Nx ND].
    rewrite set_fresh by (apply Hd; now left).
    rewrite IH; trivial.
    + now rewrite <- app_assoc.
    + intros x' Hx'. apply get_app_fresh.
      * intros Eq. apply Nx. rewrite <- Eq. now apply in_map.
      * apply Hd. now right.
Qed.

End DictOrder.

Lemma month_step_employees fromisoformat start stop defs s r s' :
  dienstplan_step fromisoformat start stop defs s r = Ok s' ->
  map (fun kv => es_employee (snd kv)) (fst s')
  = map (fun kv => es_employee (snd kv)) (fst s).
Proof.
  unfold dienstplan_step.
  destruct (sr_employee_id r) as [i|]; [|now intros [= <-]].
  destruct (PyDict.get Z.eqb i (fst s)) as [es|] eqn:G; [|now intros [= <-]].
  destruct (truthy (sr_date r)); [|now intros [= <-]].
  destruct (dienstplan_date fromisoformat (sr_date r)) as [d| |];
    try discriminate; [|now intros [= <-]].
  destruct (in_window start stop d); [|now intros [= <-]].
  intros [= <-]. cbn [fst].
  now apply (map_set_present Z.eqb Z_eqb_eq) with (v0 := es).
Qed.

Lemma month_loop_employees fromisoformat start stop defs rows : forall s s',
  for_each (dienstplan_step fromisoformat start stop defs) rows s = Ok s' ->
  map (fun kv => es_employee (snd kv)) (fst s')
  = map (fun kv => es_employee (snd kv)) (fst s).
Proof.
  induction rows as [|r rows IH]; intros s s'; cbn [for_each].
  - now intros [= <-].
  - destruct (dienstplan_step fromisoformat start stop defs s r) as [s1|] eqn:E;
      cbn [bind]; [|discriminate].
    intros L. rewrite (IH _ _ L).
    exact (month_step_employees _ _ _ _ _ _ _ E).
Qed.

(** X5: when the ids of the active employees are distinct, the month grid
    lists exactly the active employees, each once and in the order of
    the employee table, cut to the limit when one is given. *)
Theorem month_grid_lists_active_in_order
  (fromisoformat : string -> option date) (st : store) (y m : Z)
  (limit : option Z) (out : dienstplan) :
  NoDup (map emp_id (active_employees st limit)) ->
  get_dienstplan fromisoformat st y m limit = Ok out ->
  map es_employee (dp_employees out) = active_employees st limit
  /\ (forall n, limit = Some n -> 0 <= n ->
        Z.of_nat (List.length (dp_employees out)) <= n).
Proof.
  intros ND. unfold get_dienstplan.
  destruct (month_window y m) as [w|]; cbn [bind]; [|discriminate].
  destruct (for_each _ _ _) as [s|] eqn:E; cbn [bind]; [|discriminate].
  intros [= <-]. cbn [dp_employees].
  assert (M : map es_employee (PyDict.values (fst s)) = active_employees st limit).
  { unfold PyDict.values. rewrite map_map.
    rewrite (month_loop_employees _ _ _ _ _ _ _ E). cbn [fst].
    unfold empty_schedules.
    rewrite (fold_set_fresh Z.eqb Z_eqb_eq emp_id
               (fun emp => mkemployee_schedule emp [])) by (trivial; reflexivity).
    cbn [app]. rewrite map_map. cbn [snd es_employee]. apply map_id. }
  split; [exact M|].
  intros n -> Hn. rewrite <- (length_map es_employee), M.
  unfold active_employees.
  destruct (n <? _) eqn:B.
  - rewrite length_firstn. lia.
  - apply Z.ltb_ge in B. exact B.
Qed.

Lemma month_grid_lists_active_in_order_witness :
  (exists out,
     get_dienstplan fromisoformat_seconds store_with_leaver 2025 6 None = Ok out
     /\ map es_employee (dp_employees out) = [employee_42; employee_7])
  /\ exists out,
       get_dienstplan fromisoformat_seconds store_with_leaver 2025 6 (Some 1)
       = Ok out
       /\ map es_employee (dp_employees out) = [employee_42]
       /\ Z.of_nat (List.length (dp_employees out)) <= 1.
Proof.
  assert (ND : NoDup (map emp_id (active_employees store_with_leaver None))).
  { repeat constructor; cbn; intuition discriminate. }
  assert (ND1 : NoDup (map emp_id (active_employees store_with_leaver (Some 1)))).
  { repeat constructor. intros []. }
  split.
  - eexists. split; [reflexivity|].
    exact (proj1 (month_grid_lists_active_in_order fromisoformat_seconds
                    store_with_leaver 2025 6 None _ ND eq_refl)).
  - eexists. split; [reflexivity|].
    destruct (month_grid_lists_active_in_order fromisoformat_seconds
                store_with_leaver 2025 6 (Some 1) _ ND1 eq_refl) as [M L].
    split; [exact M|]. apply (L 1); [reflexivity | lia].
Defined.
(** ** The shift matrix *)

Lemma matrix_step_source fromisoformat start stop defs employees_dict s r s' :
  einsatzplan_step fromisoformat start stop defs employees_dict s r = Ok s' ->
  forall name k x,
    In x (matrix_cell (shift_matrix s') name k) ->
    In x (matrix_cell (shift_matrix s) name k)
    \/ exists d,
         truthy (sr_date r) = true
         /\ einsatzplan_date fromisoformat (sr_date r) = NDate d
         /\ in_window start stop d = true
         /\ day d = k
         /\ assignment_shift_name defs r = Some name
         /\ x = make_entry employees_dict (sr_employee_id r).
Proof.
  unfold einsatzplan_step.
  destruct (truthy (sr_date r)) eqn:T; [|intros [= <-]; auto].
  destruct (einsatzplan_date fromisoformat (sr_date r)) as [d| |] eqn:D;
    try discriminate; [|intros [= <-]; auto].
  destruct (in_window start stop d) eqn:I; [|intros [= <-]; auto].
  destruct (assignment_shift_name defs r) as [n|] eqn:N; [|discriminate].
  intros [= <-] name k x. cbn [shift_matrix].
  rewrite matrix_cell_place.
  destruct (String.eqb n name && (day d =? k)) eqn:B; auto.
  apply andb_prop in B as [B1 B2].
  apply String.eqb_eq in B1. apply Z.eqb_eq in B2. subst.
  intros H. apply in_app_or in H as [H|[<-|[]]]; auto.
  right. exists d. repeat split; trivial.
Qed.

Lemma matrix_loop_source fromisoformat start stop defs employees_dict rows :
  forall s s',
    for_each (einsatzplan_step fromisoformat start stop defs employees_dict)
      rows s = Ok s' ->
    forall name k x,
      In x (matrix_cell (shift_matrix s') name k) ->
      In x (matrix_cell (shift_matrix s) name k)
      \/ exists r d,
           In r rows
           /\ truthy (sr_date r) = true
           /\ einsatzplan_date fromisoformat (sr_date r) = NDate d
           /\ in_window start stop d = true
           /\ day d = k
           /\ assignment_shift_name defs r = Some name
           /\ x = make_entry employees_dict (sr_employee_id r).
Proof.
  induction rows as [|r rows IH]; intros s s'; cbn [for_each].
  - intros [= <-]. auto.
  - destruct (einsatzplan_step _ _ _ _ _ s r) as [s1|] eqn:E; cbn [bind];
      [|discriminate].
    intros L name k x H.
    destruct (IH _ _ L name k x H) as [H1|(r' & d & Hin & Rest)].
    + destruct (matrix_step_source _ _ _ _ _ _ _ _ E name k x H1)
        as [H0|(d & Rest)]; auto.
      right. exists r, d. split; [now left | exact Rest].
    + right. exists r', d. split; [now right | exact Rest].
Qed.

(** X6: the shift matrix invents nothing: every entry of every cell stands
    for an assignment whose date lies in the month, in the row of that
    assignment's shift name and under its day, which is a day of the
    month. *)
Theorem shift_matrix_entries_have_a_source
  (fromisoformat : string -> option date) (st : store) (y m : Z)
  (out : einsatzplan) (start stop : date) (name : string) (k : Z)
  (x : matrix_entry) :
  get_einsatzplan fromisoformat st y m = Ok out ->
  month_window y m = Ok (start, stop) ->
  In x (matrix_cell (ep_shifts out) name k) ->
  1 <= k <= days_in_month y m
  /\ exists r d,
       In r (einsatzplan_assignments st)
       /\ truthy (sr_date r) = true
       /\ einsatzplan_date fromisoformat (sr_date r) = NDate d
       /\ in_window start stop d = true
       /\ day d = k
       /\ assignment_shift_name (shift_definitions st) r = Some name
       /\ x = make_entry (PyDict.of_list Z.eqb emp_id (tbl_5EMPL st))
                (sr_employee_id r).
Proof.
  intros G W H.
  destruct (get_einsatzplan_loop _ _ _ _ _ G) as (a & b & s & W' & L & Cells & _).
  rewrite W in W'. injection W' as <- <-.
  rewrite Cells in H. unfold einsatzplan_loop in L.
  destruct (matrix_loop_source _ _ _ _ _ _ _ _ L name k x H)
    as [[]|(r & d & Hin & T & D & I & K & N & X)].
  split.
  - destruct (in_month_window _ _ _ _ _ W I) as (_ & _ & Dd). now rewrite <- K.
  - exists r, d. repeat split; trivial.
Qed.

Lemma shift_matrix_entries_have_a_source_witness :
  1 <= 10 <= days_in_month 2025 6
  /\ exists r d,
       In r (einsatzplan_assignments store_main_and_absence)
       /\ truthy (sr_date r) = true
       /\ einsatzplan_date fromisoformat_seconds (sr_date r) = NDate d
       /\ in_window (mkdate 2025 6 1) (mkdate 2025 6 30) d = true
       /\ day d = 10
       /\ assignment_shift_name (shift_definitions store_main_and_absence) r
          = Some "Abwesenheit"%string
       /\ mkmatrix_entry (Some 42) (Some "Gruber"%string) (Some "Max"%string)
          = make_entry (PyDict.of_list Z.eqb emp_id
                          (tbl_5EMPL store_main_and_absence))
              (sr_employee_id r).
Proof.
  destruct (get_einsatzplan fromisoformat_seconds store_main_and_absence 2025 6)
    as [out|] eqn:G; [|discriminate G].
  apply (shift_matrix_entries_have_a_source fromisoformat_seconds
           store_main_and_absence 2025 6 out (mkdate 2025 6 1)
           (mkdate 2025 6 30) "Abwesenheit" 10
           (mkmatrix_entry (Some 42) (Some "Gruber"%string) (Some "Max"%string))
           G eq_refl).
  vm_compute in G. injection G as <-. now left.
Defined.

Lemma ltb_leb (a b : string) : String.ltb a b = true -> String.leb a b = true.
Proof.
  unfold String.ltb, String.leb. now destruct (String.compare a b).
Qed.

Lemma not_ltb_leb (a b : string) : String.ltb a b = false -> String.leb b a = true.
Proof.
  unfold String.ltb, String.leb. rewrite (String.compare_antisym b a).
  now destruct (String.compare a b).
Qed.

Lemma insert_row_sorted (x : string * matrix_row) (l : list (string * matrix_row)) :
  Sorted (fun a b => String.leb (start_key a) (start_key b) = true) l ->
  Sorted (fun a b => String.leb (start_key a) (start_key b) = true)
         (insert_row x l).
Proof.
  induction l as [|y l IH]; intros S; cbn [insert_row].
  - repeat constructor.
  - destruct (String.ltb (start_key y) (start_key x)) eqn:B.
    + apply Sorted_inv in S as [S H]. constructor; [now apply IH|].
      destruct l as [|z l]; cbn [insert_row].
      * constructor. now apply ltb_leb.
      * destruct (String.ltb (start_key z) (start_key x)).
        -- constructor. now apply HdRel_inv in H.
        -- constructor. now apply ltb_leb.
    + constructor; trivial. constructor. now apply not_ltb_leb.
Qed.

Lemma insert_row_perm (x : string * matrix_row) (l : list (string * matrix_row)) :
  Permutation (x :: l) (insert_row x l).
Proof.
  induction l as [|y l IH]; cbn [insert_row]; [apply Permutation_refl|].
  destruct (String.ltb (start_key y) (start_key x)); [|apply Permutation_refl].
  apply perm_trans with (y :: x :: l); [apply perm_swap|]. now constructor.
Qed.

Lemma sorted_rows_perm (m : list (string * matrix_row)) :
  Permutation m (fold_right insert_row [] m).
Proof.
  induction m as [|x l IH]; cbn [fold_right]; [constructor|].
  apply perm_trans with (x :: fold_right insert_row [] l);
    [now constructor | apply insert_row_perm].
Qed.

Lemma sorted_rows_sorted (m : list (string * matrix_row)) :
  Sorted (fun a b => String.leb (start_key a) (start_key b) = true)
         (fold_right insert_row [] m).
Proof.
  induction m as [|x l IH]; cbn [fold_right].
  - constructor.
  - now apply insert_row_sorted.
Qed.

(** X7: the rows of the shift matrix come in ascending order of their start
    time, a row without one counting as ["00:00"]; they are the rows the
    loop built, and when there are two or more, every one of them has a
    start time that is not null. *)
Theorem shift_matrix_rows_sorted
  (fromisoformat : string -> option date) (st : store) (y m : Z)
  (out : einsatzplan) (start stop : date) (s : einsatz_state) :
  get_einsatzplan fromisoformat st y m = Ok out ->
  month_window y m = Ok (start, stop) ->
  einsatzplan_loop fromisoformat st start stop = Ok s ->
  Sorted (fun a b => String.leb (start_key a) (start_key b) = true)
         (ep_shifts out)
  /\ Permutation (shift_matrix s) (ep_shifts out)
  /\ ((2 <= List.length (ep_shifts out))%nat ->
      Forall (fun row => row_start (snd row) <> None) (ep_shifts out)).
Proof.
  unfold get_einsatzplan. intros G W L. rewrite W in G. cbn [bind fst snd] in G.
  rewrite L in G. cbn [bind] in G. unfold sorted_shifts in G.
  destruct (_ && _) eqn:B; [discriminate|]. cbn [bind] in G.
  injection G as <-. cbn [ep_shifts].
  pose proof (sorted_rows_perm (shift_matrix s)) as P.
  split; [apply sorted_rows_sorted|]. split; [exact P|].
  intros Len. rewrite <- (Permutation_length P) in Len.
    apply andb_false_iff in B as [B|B].
    + apply Z.leb_gt in B. lia.
    + eapply Permutation_Forall; [exact P|].
      apply Forall_forall. intros row Hrow Hn.
      assert (X : existsb (fun x => match row_start (snd x) with
                                    | None => true
                                    | Some _ => false
                                    end) (shift_matrix s) = true).
      { apply existsb_exists. exists row. split; trivial. now rewrite Hn. }
      rewrite X in B. discriminate.
Qed.
Lemma shift_matrix_rows_sorted_witness :
  exists out,
    get_einsatzplan fromisoformat_seconds store_late_first 2025 6 = Ok out
    /\ PyDict.keys (ep_shifts out) = ["Xenon"; "Yard"]%string
    /\ Sorted (fun a b => String.leb (start_key a) (start_key b) = true)
              (ep_shifts out).
Proof.
  eexists. split; [reflexivity|]. split; [reflexivity|].
  eapply (proj1 (shift_matrix_rows_sorted fromisoformat_seconds store_late_first
                   2025 6 _ (mkdate 2025 6 1) (mkdate 2025 6 30) _
                   eq_refl eq_refl eq_refl)).
Defined.
(** ** The failures of the shift matrix *)

Lemma existsb_Forall_false {A} (f : A -> bool) (l : list A) :
  existsb f l = false <-> Forall (fun x => f x = false) l.
Proof.
  induction l as [|x l IH]; cbn [existsb].
  - split; [constructor | reflexivity].
  - rewrite orb_false_iff, IH. split.
    + intros [H1 H2]. now constructor.
    + intros H. apply Forall_cons_iff in H. exact H.
Qed.

(** X8: the shift matrix fails in three cases only: the month is no month of
    the calendar; the loop raises on an assignment, which it does on a
    slash date that has not three parts and on an assignment of the
    month whose shift definition has a null name; or two or more rows
    were built and one of them has a null start time, which the sort
    cannot compare. *)
Theorem shift_matrix_fails_iff
  (fromisoformat : string -> option date) (st : store) (y m : Z) :
  get_einsatzplan fromisoformat st y m = HTTP500
  <-> match month_window y m with
      | HTTP500 => True
      | Ok w =>
          existsb (raises fromisoformat (fst w) (snd w) (shift_definitions st))
            (einsatzplan_assignments st) = true
          \/ exists s,
               einsatzplan_loop fromisoformat st (fst w) (snd w) = Ok s
               /\ (2 <= List.length (shift_matrix s))%nat
               /\ exists row, In row (shift_matrix s)
                              /\ row_start (snd row) = None
      end.
Proof.
  unfold get_einsatzplan.
  destruct (month_window y m) as [w|]; cbn [bind]; [|tauto].
  destruct (einsatzplan_loop fromisoformat st (fst w) (snd w)) as [s|] eqn:L;
    cbn [bind].
  - pose proof (loop_returns fromisoformat (fst w) (snd w) _ _ _ _ _ L) as R.
    apply existsb_Forall_false in R.
    unfold sorted_shifts.
    destruct ((2 <=? Z.of_nat (List.length (shift_matrix s)))
              && existsb (fun x => match row_start (snd x) with
                                   | None => true
                                   | Some _ => false
                                   end) (shift_matrix s)) eqn:B; cbn [bind].
    + split; trivial. intros _. right. exists s.
      apply andb_prop in B as [B1 B2]. apply Z.leb_le in B1.
      apply existsb_exists in B2 as (row & Hin & Hrow).
      split; trivial. split; [lia|]. exists row. split; trivial.
      now destruct (row_start (snd row)).
    + split; [discriminate|]. intros [X|(s' & [= <-] & Len & row & Hin & Hrow)].
      * rewrite R in X. discriminate.
      * exfalso. apply andb_false_iff in B as [B|B].
        -- apply Z.leb_gt in B. lia.
        -- assert (X : existsb (fun x => match row_start (snd x) with
                                         | None => true
                                         | Some _ => false
                                         end) (shift_matrix s) = true).
           { apply existsb_exists. exists row. split; trivial. now rewrite Hrow. }
           rewrite X in B. discriminate.
  - split; trivial. intros _. left.
    destruct (existsb _ (einsatzplan_assignments st)) eqn:X; trivial.
    exfalso. apply existsb_Forall_false in X.
    destruct (loop_counts fromisoformat (fst w) (snd w) (shift_definitions st)
                (PyDict.of_list Z.eqb emp_id (tbl_5EMPL st))
                (einsatzplan_assignments st) (mkeinsatz_state [] 0 0 0) X)
      as (s & Ls & _).
    unfold einsatzplan_loop in L. rewrite Ls in L. discriminate.
Qed.

Lemma shift_matrix_fails_iff_witness :
  get_einsatzplan fromisoformat_seconds store_two_parts 2025 6 = HTTP500.
Proof.
  apply (proj2 (shift_matrix_fails_iff fromisoformat_seconds store_two_parts
                  2025 6)).
  left. reflexivity.
Defined.
(** ** The range views *)

(** *** Loops that append to the entry of a key

    With distinct keys, a grouping loop leaves every key in its place and
    appends to each the entries of the records that go to it, in the
    order of the records. *)

Section Grouping.

Context {K V X E : Type} (eqb : K -> K -> bool).
Hypothesis eqb_eq : forall a b, eqb a b = true <-> a = b.

Variable target : X -> option K.
Variable entries : V -> list E.
Variable with_entries : V -> list E -> V.
Variable entry : X -> E.

Hypothesis entries_with : forall v l, entries (with_entries v l) = l.
Hypothesis with_with : forall v l l',
  with_entries (with_entries v l) l' = with_entries v l'.
Hypothesis with_same : forall v, with_entries v (entries v) = v.

Local Abbreviation goes := (goes_to eqb target).
Local Abbreviation step := (append_step eqb target entries with_entries entry).
Local Abbreviation at_item := (append_at eqb target entries with_entries entry).

Lemma append_at_absent (i : K) (a : X) (d : list (K * V)) :
  target a = Some i -> PyDict.get eqb i d = None -> map (at_item a) d = d.
Proof.
  intros T. induction d as [|[k v] d IH]; cbn [PyDict.get map]; trivial.
  destruct (eqb i k) eqn:B; [discriminate|]. intros G.
  rewrite (IH G). unfold append_at, goes_to. cbn [fst]. now rewrite T, B.
Qed.

Lemma append_step_map (d : list (K * V)) (a : X) :
  NoDup (PyDict.keys d) -> step d a = map (at_item a) d.
Proof.
  unfold append_step. destruct (target a) as [i|] eqn:T.
  2:{ intros _. symmetry. rewrite <- (map_id d) at 2. apply map_ext.
      intros kv. unfold append_at, goes_to. now rewrite T. }
  induction d as [|[k v] d IH]; cbn [PyDict.get PyDict.set map PyDict.keys];
    trivial.
  intros ND. apply NoDup_cons_iff in ND as [Nk ND].
  unfold append_at at 1, goes_to. cbn [fst snd]. rewrite T.
  destruct (eqb i k) eqn:B.
  - cbn [PyDict.set]. rewrite ?B. f_equal.
    apply eqb_eq in B. subst k. symmetry. apply (append_at_absent i); trivial.
    destruct (PyDict.get eqb i d) eqn:G; trivial.
    exfalso. apply Nk. apply (get_In _ eqb_eq) in G.
    exact (in_map fst d (i, v0) G).
  - specialize (IH ND). destruct (PyDict.get eqb i d) as [v0|].
    + cbn [PyDict.set]. rewrite ?B. now rewrite IH.
    + now rewrite <- IH.
Qed.

Lemma keys_append_at (a : X) (d : list (K * V)) :
  PyDict.keys (map (at_item a) d) = PyDict.keys d.
Proof.
  unfold PyDict.keys. rewrite map_map. apply map_ext.
  intros kv. unfold append_at. now destruct (goes (fst kv) a).
Qed.

Lemma append_all (l : list X) : forall (kv : K * V),
  fold_left (fun kv a => at_item a kv) l kv
  = (fst kv,
     with_entries (snd kv)
       (entries (snd kv) ++ map entry (filter (goes (fst kv)) l))).
Proof.
  induction l as [|a l IH]; intros [k v]; cbn [fold_left filter map fst snd].
  - now rewrite app_nil_r, with_same.
  - rewrite IH. unfold append_at. cbn [fst snd].
    destruct (goes k a); cbn [fst snd map]; trivial.
    now rewrite entries_with, with_with, <- app_assoc.
Qed.

Lemma append_fold (l : list X) : forall (d : list (K * V)),
  NoDup (PyDict.keys d) ->
  fold_left step l d
  = map (fun kv => fold_left (fun kv a => at_item a kv) l kv) d.
Proof.
  induction l as [|a l IH]; intros d ND; cbn [fold_left].
  - now rewrite map_id.
  - rewrite (append_step_map d a ND).
    rewrite IH by now rewrite keys_append_at.
    now rewrite map_map.
Qed.

Lemma append_loop (l : list X) (d : list (K * V)) :
  NoDup (PyDict.keys d) ->
  fold_left step l d
  = map (fun kv =>
           (fst kv,
            with_entries (snd kv)
              (entries (snd kv) ++ map entry (filter (goes (fst kv)) l))))
        d.
Proof.
  intros ND. rewrite (append_fold l d ND).
  apply map_ext. intros kv. apply append_all.
Qed.

End Grouping.
Section DictKeys.

Context {K V : Type} (eqb : K -> K -> bool).
Hypothesis eqb_eq : forall a b, eqb a b = true <-> a = b.

Lemma In_get (k : K) (v : V) (d : list (K * V)) :
  NoDup (PyDict.keys d) -> In (k, v) d -> PyDict.get eqb k d = Some v.
Proof.
  induction d as [|[k' v'] d IH]; cbn [PyDict.keys map PyDict.get fst];
    [intros _ []|].
  intros ND H. apply NoDup_cons_iff in ND as [Nk ND].
  destruct H as [[= -> ->]|H].
  - now rewrite (eqb_same eqb eqb_eq).
  - destruct (eqb k k') eqn:B; [|now apply IH].
    apply eqb_eq in B. subst k'. exfalso. apply Nk.
    exact (in_map fst d (k, v) H).
Qed.

Lemma fold_set_NoDup {X} (key : X -> K) (val : X -> V) (l : list X) :
  forall d, NoDup (PyDict.keys d) ->
    NoDup (PyDict.keys
             (fold_left (fun d x => PyDict.set eqb (key x) (val x) d) l d)).
Proof.
  induction l as [|x l IH]; intros d ND; cbn [fold_left]; trivial.
  apply IH. now apply (NoDup_keys_set eqb eqb_eq).
Qed.

Lemma get_map_values {W} (f : K -> V -> W) (k : K) (d : list (K * V)) :
  PyDict.get eqb k (map (fun kv => (fst kv, f (fst kv) (snd kv))) d)
  = option_map (f k) (PyDict.get eqb k d).
Proof.
  induction d as [|[k' v'] d IH]; cbn [map PyDict.get fst snd]; trivial.
  destruct (eqb k k') eqn:B; trivial.
  apply eqb_eq in B. now subst.
Qed.

End DictKeys.

Lemma shift_definitions_NoDup (st : store) :
  NoDup (PyDict.keys (shift_definitions st)).
Proof.
  unfold shift_definitions, PyDict.of_list.
  apply (fold_set_NoDup Z.eqb Z_eqb_eq sd_id (fun x => x)). constructor.
Qed.

Lemma shift_schedules_NoDup (defs : list (Z * shift_def)) :
  NoDup (PyDict.keys (shift_schedules defs)).
Proof.
  unfold shift_schedules.
  do 2 apply (NoDup_keys_set Z.eqb Z_eqb_eq).
  apply (fold_set_NoDup Z.eqb Z_eqb_eq fst
           (fun kv => mkrange_shift (fst kv) (sd_name (snd kv)) [])).
  constructor.
Qed.

Lemma shift_schedules_get (defs : list (Z * shift_def)) (k : Z) :
  NoDup (PyDict.keys defs) ->
  PyDict.get Z.eqb k (shift_schedules defs)
  = if k =? 99998 then Some (mkrange_shift 99998 (Some "Urlaub"%string) [])
    else if k =? 99999
         then Some (mkrange_shift 99999 (Some "Abwesenheit"%string) [])
         else option_map (fun sd => mkrange_shift k (sd_name sd) [])
                (PyDict.get Z.eqb k defs).
Proof.
  intros ND. unfold shift_schedules.
  destruct (Z.eqb_spec k 99998) as [->|N1].
  { apply (get_set_same _ Z_eqb_eq). }
  rewrite (get_set_other _ Z_eqb_eq) by congruence.
  destruct (Z.eqb_spec k 99999) as [->|N2].
  { apply (get_set_same _ Z_eqb_eq). }
  rewrite (get_set_other _ Z_eqb_eq) by congruence.
  rewrite (fold_set_fresh Z.eqb Z_eqb_eq fst
             (fun kv => mkrange_shift (fst kv) (sd_name (snd kv)) []))
    by (trivial; reflexivity).
  cbn [app].
  exact (get_map_values Z.eqb Z_eqb_eq
           (fun k sd => mkrange_shift k (sd_name sd) []) k defs).
Qed.

Lemma shift_schedules_entries (defs : list (Z * shift_def)) k row :
  NoDup (PyDict.keys defs) ->
  In (k, row) (shift_schedules defs) ->
  rs_id row = k /\ rs_assignments row = [].
Proof.
  intros ND H.
  apply (In_get Z.eqb Z_eqb_eq) in H; [|apply shift_schedules_NoDup].
  rewrite (shift_schedules_get defs k ND) in H.
  destruct (k =? 99998) eqn:B1.
  { apply Z.eqb_eq in B1. injection H as <-. now subst. }
  destruct (k =? 99999) eqn:B2.
  { apply Z.eqb_eq in B2. injection H as <-. now subst. }
  destruct (PyDict.get Z.eqb k defs); [|discriminate].
  injection H as <-. now split.
Qed.

Lemma einsatzplan_range_shifts (st : store) (q : range_queries)
  (start_date end_date : date) (out : einsatzplan_range) :
  get_einsatzplan_range st q start_date end_date = Ok out ->
  er_shifts out
  = map (fun kv =>
           mkrange_shift (rs_id (snd kv)) (rs_name (snd kv))
             (map (range_assignment_of (employee_names (tbl_5EMPL st)))
                (filter (goes_to Z.eqb range_shift_id (fst kv))
                   (range_assignments q))))
        (shift_schedules (shift_definitions st)).
Proof.
  unfold get_einsatzplan_range. intros [= <-]. cbn [er_shifts].
  change (einsatzplan_range_step (employee_names (tbl_5EMPL st)))
    with (append_step Z.eqb range_shift_id rs_assignments
            (fun row l => mkrange_shift (rs_id row) (rs_name row) l)
            (range_assignment_of (employee_names (tbl_5EMPL st)))).
  rewrite (append_loop Z.eqb Z_eqb_eq);
    trivial; try (now intros []); try apply shift_schedules_NoDup.
  unfold PyDict.values. rewrite map_map. apply map_ext_in.
  intros [k row] Hin. cbn [fst snd].
  destruct (shift_schedules_entries _ _ _ (shift_definitions_NoDup st) Hin)
    as [_ ->].
  reflexivity.
Qed.

(** X9: in the shift matrix of a range every row lists exactly the loaded
    assignments that go to its id: absences to 99999, leaves to 99998,
    the others to their shift id, in the order they were loaded; an
    assignment with no shift id, or with one that has no definition, is
    in no row.  No two rows share an id. *)
Theorem einsatzplan_range_rows (st : store) (q : range_queries)
  (start_date end_date : date) (out : einsatzplan_range) :
  get_einsatzplan_range st q start_date end_date = Ok out ->
  (forall row, In row (er_shifts out) ->
     rs_assignments row
     = map (range_assignment_of (employee_names (tbl_5EMPL st)))
         (filter (goes_to Z.eqb range_shift_id (rs_id row))
            (range_assignments q)))
  /\ NoDup (map rs_id (er_shifts out)).
Proof.
  intros G. rewrite (einsatzplan_range_shifts _ _ _ _ _ G). split.
  - intros row H. apply in_map_iff in H as ([k row0] & <- & Hin).
    cbn [fst snd rs_assignments rs_id].
    now destruct (shift_schedules_entries _ _ _ (shift_definitions_NoDup st) Hin)
      as [-> _].
  - rewrite map_map. cbn [rs_id].
    pose proof (shift_schedules_NoDup (shift_definitions st)) as ND.
    unfold PyDict.keys in ND.
    erewrite map_ext_in; [exact ND|].
    intros [k row0] Hin. cbn [fst snd].
    now destruct (shift_schedules_entries _ _ _ (shift_definitions_NoDup st) Hin).
Qed.

(** X10: the rows of the shift matrix of a range are those of the shift
    definitions and the two rows 99999 and 99998, which are always
    there and are named ["Abwesenheit"] and ["Urlaub"], also when a shift
    definition has one of these ids; every other row carries the name of
    its definition. *)
Theorem einsatzplan_range_row_names (st : store) (q : range_queries)
  (start_date end_date : date) (out : einsatzplan_range) :
  get_einsatzplan_range st q start_date end_date = Ok out ->
  (forall k, In k (map rs_id (er_shifts out))
             <-> k = 99999 \/ k = 99998
                 \/ PyDict.mem Z.eqb k (shift_definitions st) = true)
  /\ (forall row, In row (er_shifts out) ->
        (rs_id row = 99999 -> rs_name row = Some "Abwesenheit"%string)
        /\ (rs_id row = 99998 -> rs_name row = Some "Urlaub"%string)
        /\ (rs_id row <> 99999 -> rs_id row <> 99998 ->
            exists sd,
              PyDict.get Z.eqb (rs_id row) (shift_definitions st) = Some sd
              /\ rs_name row = sd_name sd)).
Proof.
  intros G. rewrite (einsatzplan_range_shifts _ _ _ _ _ G).
  pose proof (shift_definitions_NoDup st) as ND.
  pose proof (shift_schedules_NoDup (shift_definitions st)) as NS.
  pose proof (shift_schedules_get (shift_definitions st)) as SG.
  split.
  - intros k. rewrite map_map. cbn [rs_id]. split.
    + intros H. apply in_map_iff in H as ([k0 row0] & <- & Hin). cbn [snd].
      destruct (shift_schedules_entries _ _ _ ND Hin) as [-> _].
      apply (In_get Z.eqb Z_eqb_eq) in Hin; trivial.
      rewrite (SG k0 ND) in Hin.
      destruct (Z.eqb_spec k0 99998); auto.
      destruct (Z.eqb_spec k0 99999); auto.
      right. right. unfold PyDict.mem.
      now destruct (PyDict.get Z.eqb k0 (shift_definitions st)).
    + intros H.
      assert (X : exists row0,
                 PyDict.get Z.eqb k (shift_schedules (shift_definitions st))
                 = Some row0).
      { rewrite (SG k ND).
        destruct (Z.eqb_spec k 99998); [eauto|].
        destruct (Z.eqb_spec k 99999); [eauto|].
        destruct H as [H|[H|H]]; try contradiction.
        unfold PyDict.mem in H.
        destruct (PyDict.get Z.eqb k (shift_definitions st)); [|discriminate].
        cbn [option_map]. eauto. }
      destruct X as [row0 X]. apply (get_In _ Z_eqb_eq) in X.
      apply in_map_iff. exists (k, row0). split; trivial. cbn [snd].
      now destruct (shift_schedules_entries _ _ _ ND X).
  - intros row H. apply in_map_iff in H as ([k0 row0] & <- & Hin).
    cbn [fst snd rs_id rs_name].
    destruct (shift_schedules_entries _ _ _ ND Hin) as [-> _].
    apply (In_get Z.eqb Z_eqb_eq) in Hin; trivial.
    rewrite (SG k0 ND) in Hin.
    destruct (Z.eqb_spec k0 99998) as [->|N1].
    { injection Hin as <-. repeat split; trivial; [discriminate | congruence]. }
    destruct (Z.eqb_spec k0 99999) as [->|N2].
    { injection Hin as <-. repeat split; trivial; [discriminate | congruence]. }
    destruct (PyDict.get Z.eqb k0 (shift_definitions st)) as [sd|] eqn:D;
      [|discriminate].
    injection Hin as <-. cbn [rs_name].
    repeat split; try congruence. intros _ _. now exists sd.
Qed.
Lemma einsatzplan_range_rows_witness :
  exists out,
    get_einsatzplan_range store_late_first queries_june
      (mkdate 2025 6 1) (mkdate 2025 6 7) = Ok out
    /\ NoDup (map rs_id (er_shifts out)).
Proof.
  eexists. split; [reflexivity|].
  exact (proj2 (einsatzplan_range_rows store_late_first queries_june
                  (mkdate 2025 6 1) (mkdate 2025 6 7) _ eq_refl)).
Defined.

Lemma einsatzplan_range_row_names_witness :
  exists out,
    get_einsatzplan_range store_late_first queries_june
      (mkdate 2025 6 1) (mkdate 2025 6 7) = Ok out
    /\ In 99998 (map rs_id (er_shifts out)).
Proof.
  eexists. split; [reflexivity|].
  apply (proj1 (einsatzplan_range_row_names store_late_first queries_june
                  (mkdate 2025 6 1) (mkdate 2025 6 7) _ eq_refl)).
  right. now left.
Defined.

Lemma range_schedules_NoDup (employees : list employee) :
  NoDup (PyDict.keys (range_schedules employees)).
Proof.
  unfold range_schedules.
  apply (fold_set_NoDup Z.eqb Z_eqb_eq emp_id
           (fun e => mkrange_employee (emp_id e) (employee_label e) [])).
  constructor.
Qed.

(** X11: the month grid of a range fails as soon as one of its two range
    queries raises.  Otherwise, when the ids of the employees are
    distinct, it lists the employees in the order they were given, each
    with exactly the main and then the special assignments that name the
    employee, in the order they were loaded; no date is parsed or
    checked, and no assignment is dropped or merged. *)
Theorem dienstplan_range_schedules (st : store) (employees : list employee)
  (mashi spshi : option (list shift_row)) (start_date end_date : date) :
  (get_dienstplan_range st employees mashi spshi start_date end_date = HTTP500
   <-> mashi = None \/ spshi = None)
  /\ forall main_shifts special_shifts,
       mashi = Some main_shifts -> spshi = Some special_shifts ->
       NoDup (map emp_id employees) ->
       exists out,
         get_dienstplan_range st employees mashi spshi start_date end_date
         = Ok out
         /\ dr_employees out
            = map (fun e =>
                     mkrange_employee (emp_id e) (employee_label e)
                       (map (range_entry_of (shift_definitions st))
                          (filter (goes_to Z.eqb sr_employee_id (emp_id e))
                             (main_shifts ++ special_shifts))))
                  employees.
Proof.
  split.
  - unfold get_dienstplan_range.
    destruct mashi, spshi; split; auto; try discriminate.
    intros [H|H]; discriminate.
  - intros main_shifts special_shifts -> -> ND.
    eexists. split; [reflexivity|]. cbn [dr_employees].
    change (dienstplan_range_step (shift_definitions st))
      with (append_step Z.eqb sr_employee_id rg_schedule
              (fun es l => mkrange_employee (rg_id es) (rg_name es) l)
              (range_entry_of (shift_definitions st))).
    rewrite (append_loop Z.eqb Z_eqb_eq);
      trivial; try (now intros []); try apply range_schedules_NoDup.
    unfold PyDict.values, range_schedules.
    rewrite (fold_set_fresh Z.eqb Z_eqb_eq emp_id
               (fun e => mkrange_employee (emp_id e) (employee_label e) []))
      by (trivial; reflexivity).
    cbn [app]. now rewrite !map_map.
Qed.

Lemma dienstplan_range_schedules_witness :
  exists out,
    get_dienstplan_range store_late_first [employee_7]
      (rq_mashi queries_june) (rq_spshi queries_june)
      (mkdate 2025 6 1) (mkdate 2025 6 7) = Ok out
    /\ map (fun e => List.length (rg_schedule e)) (dr_employees out) = [2%nat].
Proof.
  assert (ND : NoDup (map emp_id [employee_7])).
  { repeat constructor. intros []. }
  destruct (proj2 (dienstplan_range_schedules store_late_first [employee_7]
                     (rq_mashi queries_june) (rq_spshi queries_june)
                     (mkdate 2025 6 1) (mkdate 2025 6 7))
              _ _ eq_refl eq_refl ND) as (out & G & E).
  exists out. split; [exact G|]. rewrite E. reflexivity.
Defined.
(** ** Employee names *)

Lemma lstrip_spec (s : string) :
  exists a, s = (a ++ lstrip s)%string /\ blank a = true.
Proof.
  induction s as [|c s (a & E & B)]; cbn [lstrip].
  - now exists EmptyString.
  - destruct (is_space c) eqn:C.
    + exists (String c a). cbn [String.append blank].
      rewrite C, B. split; [now rewrite <- E | reflexivity].
    + now exists EmptyString.
Qed.

Lemma lstrip_head (s : string) :
  lstrip s = EmptyString
  \/ exists c r, lstrip s = String c r /\ is_space c = false.
Proof.
  induction s as [|c s IH]; cbn [lstrip]; auto.
  destruct (is_space c) eqn:C; trivial. right. now exists c, s.
Qed.

Lemma rstrip_spec (s : string) :
  exists b, s = (rstrip s ++ b)%string /\ blank b = true.
Proof.
  induction s as [|c s (b & E & B)]; cbn [rstrip].
  - now exists EmptyString.
  - destruct (rstrip s) as [|c' r'] eqn:R.
    + cbn [String.append] in E. subst b.
      destruct (is_space c) eqn:C.
      * exists (String c s). cbn [String.append blank]. now rewrite C, B.
      * exists s. now split.
    + exists b. cbn [String.append] in *. now rewrite <- E.
Qed.

Lemma rstrip_head (c : ascii) (s : string) :
  is_space c = false -> exists r, rstrip (String c s) = String c r.
Proof.
  intros C. cbn [rstrip]. destruct (rstrip s); rewrite ?C; eauto.
Qed.

Lemma rstrip_last (s : string) :
  rstrip s = EmptyString
  \/ exists r c, rstrip s = (r ++ String c EmptyString)%string
                 /\ is_space c = false.
Proof.
  induction s as [|c s IH]; cbn [rstrip]; auto.
  destruct (rstrip s) as [|c' r'] eqn:R.
  - destruct (is_space c) eqn:C; auto.
    right. now exists EmptyString, c.
  - right. destruct IH as [IH|(r & x & E & X)]; [discriminate|].
    exists (String c r), x. cbn [String.append]. now rewrite E.
Qed.

Lemma strip_spec (s : string) :
  (exists a b, s = (a ++ strip s ++ b)%string
               /\ blank a = true /\ blank b = true)
  /\ (strip s = EmptyString
      \/ (exists c r, strip s = String c r /\ is_space c = false)
         /\ (exists r c, strip s = (r ++ String c EmptyString)%string
                         /\ is_space c = false)).
Proof.
  unfold strip. split.
  - destruct (lstrip_spec s) as (a & Ea & Ba).
    destruct (rstrip_spec (lstrip s)) as (b & Eb & Bb).
    exists a, b. repeat split; trivial. now rewrite <- Eb.
  - destruct (rstrip_last (lstrip s)) as [E|L]; auto.
    right. split; trivial.
    destruct (lstrip_head s) as [E|(c & r & E & C)].
    + rewrite E in *. destruct L as (r & c & L & _).
      cbn in L. destruct r; discriminate.
    + rewrite E. destruct (rstrip_head c r C) as [r' ->]. now exists c, r'.
Qed.

Lemma blank_app (a b : string) :
  blank (a ++ b) = blank a && blank b.
Proof.
  induction a as [|c a IH]; cbn [String.append blank]; trivial.
  now rewrite IH, andb_assoc.
Qed.

Lemma blank_strip (s : string) : strip s = EmptyString <-> blank s = true.
Proof.
  destruct (strip_spec s) as [(a & b & E & Ba & Bb) Ends]. split.
  - intros Z. rewrite Z in E. cbn [String.append] in E.
    rewrite E, blank_app, Ba, Bb. reflexivity.
  - intros B. destruct Ends as [Z|[(c & r & Z & C) _]]; trivial.
    exfalso. rewrite E, Z, !blank_app in B. cbn [blank] in B.
    rewrite C, Ba in B. discriminate.
Qed.

(** X12: the name shown for an employee is the first name, a space and the
    name, without the white space around them; a null field reads
    ["None"].  It neither starts nor ends with white space, and it is
    empty only when both fields are blank text.  The label of the range
    views is that name, or ["Mitarbeiter"] and the id when the name is
    empty; it is never empty. *)
Theorem employee_label_spec (e : employee) :
  (exists a b,
     (fmt (emp_firstname e) ++ " " ++ fmt (emp_name e))%string
     = (a ++ display_name e ++ b)%string
     /\ blank a = true /\ blank b = true)
  /\ (display_name e = EmptyString
      \/ (exists c r, display_name e = String c r /\ is_space c = false)
         /\ (exists r c, display_name e = (r ++ String c EmptyString)%string
                         /\ is_space c = false))
  /\ (display_name e = EmptyString
      <-> exists f n, emp_firstname e = Some f /\ emp_name e = Some n
                      /\ blank f = true /\ blank n = true)
  /\ employee_label e <> EmptyString
  /\ employee_label e
     = if PyStr.truthy (display_name e) then display_name e
       else ("Mitarbeiter " ++ str_of_Z (emp_id e))%string.
Proof.
  destruct (strip_spec (fmt (emp_firstname e) ++ " " ++ fmt (emp_name e)))
    as [D Ends].
  split; [exact D|]. split; [exact Ends|]. split; [|split].
  - unfold display_name. rewrite blank_strip, !blank_app. cbn [blank].
    destruct (emp_firstname e) as [f|], (emp_name e) as [n|]; cbn [fmt].
    + split.
      * intros B. exists f, n. repeat split; trivial.
        -- now destruct (blank f).
        -- destruct (blank f); [|discriminate]. now destruct (blank n).
      * intros (f' & n' & [= <-] & [= <-] & -> & ->). reflexivity.
    + split; [|intros (? & ? & _ & X & _); discriminate].
      rewrite andb_false_r. discriminate.
    + split; [discriminate|]. intros (? & ? & X & _); discriminate.
    + split; [discriminate|]. intros (? & ? & X & _); discriminate.
  - unfold employee_label. apply py_or_nonempty. discriminate.
  - reflexivity.
Qed.
(** ** The number of days of a range *)

Example str_of_Z_examples :
  str_of_Z 7 = "7"%string /\ str_of_Z 0 = "0"%string
  /\ str_of_Z 120 = "120"%string /\ str_of_Z (-5) = "-5"%string.
Proof. repeat split. Qed.

Lemma days_before_year_succ (y : Z) :
  days_before_year (y + 1)
  = days_before_year y + 365 + (if is_leap y then 1 else 0).
Proof.
  unfold days_before_year, is_leap. cbn zeta.
  replace (y + 1 - 1) with y by lia.
  destruct (Z.eqb_spec (y mod 4) 0), (Z.eqb_spec (y mod 100) 0),
    (Z.eqb_spec (y mod 400) 0); cbn [andb orb negb];
    Z.to_euclidean_division_equations; lia.
Qed.

Lemma days_before_year_mono (y y' : Z) :
  y <= y' -> days_before_year y <= days_before_year y'.
Proof.
  unfold days_before_year. cbn zeta. intros H.
  Z.to_euclidean_division_equations. lia.
Qed.

Ltac month_table y :=
  unfold days_before_month, days_in_month;
  generalize (is_leap y); intros leap.

Lemma days_before_month_mono (y m m' : Z) :
  1 <= m -> m < m' -> m' <= 12 ->
  days_before_month y m + days_in_month y m <= days_before_month y m'.
Proof.
  intros H1 H2 H3. month_table y.
  enumerate_Z m; enumerate_Z m'; destruct leap; vm_compute; discriminate.
Qed.

Lemma days_before_month_bounds (y m : Z) :
  1 <= m <= 12 ->
  0 <= days_before_month y m
  /\ days_before_month y m + days_in_month y m
     <= 365 + (if is_leap y then 1 else 0).
Proof.
  intros H. month_table y.
  enumerate_Z m; destruct leap; vm_compute; split; discriminate.
Qed.

Lemma days_before_month_next (y m : Z) :
  1 <= m <= 11 ->
  days_before_month y (m + 1) = days_before_month y m + days_in_month y m.
Proof.
  intros H. month_table y.
  enumerate_Z m; destruct leap; vm_compute; reflexivity.
Qed.

Lemma days_before_month_ends (y : Z) :
  days_before_month y 1 = 0
  /\ days_before_month y 12 + days_in_month y 12
     = 365 + (if is_leap y then 1 else 0).
Proof.
  month_table y. destruct leap; vm_compute; split; reflexivity.
Qed.

(** The ordinal is strictly increasing on the dates whose month and day
    are those of a calendar date, whatever the year *)
Lemma toordinal_lt (a b : date) :
  1 <= month a <= 12 -> 1 <= day a <= days_in_month (year a) (month a) ->
  1 <= month b <= 12 -> 1 <= day b <= days_in_month (year b) (month b) ->
  date_ltb a b = true -> toordinal a < toordinal b.
Proof.
  intros Ma Da Mb Db.
  unfold date_ltb, toordinal. intros L.
  pose proof (days_before_month_bounds (year a) (month a)) as Ba.
  pose proof (days_before_month_bounds (year b) (month b)) as Bb.
  destruct (Z.ltb_spec (year a) (year b)) as [Y|Y].
  - pose proof (days_before_year_mono (year a + 1) (year b)) as M.
    rewrite days_before_year_succ in M. lia.
  - cbn [orb] in L. apply andb_prop in L as [E L].
    apply Z.eqb_eq in E. rewrite E in *.
    destruct (Z.ltb_spec (month a) (month b)) as [Mo|Mo].
    + pose proof (days_before_month_mono (year b) (month a) (month b)). lia.
    + cbn [orb] in L. apply andb_prop in L as [E' L].
      apply Z.eqb_eq in E'. rewrite E' in *. apply Z.ltb_lt in L. lia.
Qed.

Lemma valid_date_shape (d : date) :
  valid_date d = true ->
  1 <= month d <= 12 /\ 1 <= day d <= days_in_month (year d) (month d).
Proof.
  unfold valid_date, valid_ymd. lia.
Qed.

Lemma next_day_shape (d : date) :
  1 <= month d <= 12 -> 1 <= day d <= days_in_month (year d) (month d) ->
  1 <= month (next_day d) <= 12
  /\ 1 <= day (next_day d)
          <= days_in_month (year (next_day d)) (month (next_day d)).
Proof.
  intros M D. unfold next_day.
  destruct (Z.ltb_spec (day d) (days_in_month (year d) (month d))).
  - cbn [year month day]. lia.
  - destruct (Z.ltb_spec (month d) 12); cbn [year month day].
    + pose proof (days_in_month_bounds (year d) (month d + 1)). lia.
    + pose proof (days_in_month_bounds (year d + 1) 1). lia.
Qed.

(** The day after a date has the next ordinal, also across the end of a
    month, of February in a leap year, and of a year *)
Lemma toordinal_next (d : date) :
  1 <= month d <= 12 -> 1 <= day d <= days_in_month (year d) (month d) ->
  toordinal (next_day d) = toordinal d + 1.
Proof.
  intros M D. unfold next_day, toordinal.
  destruct (Z.ltb_spec (day d) (days_in_month (year d) (month d))).
  - cbn [year month day]. lia.
  - destruct (Z.ltb_spec (month d) 12); cbn [year month day].
    + rewrite days_before_month_next by lia. lia.
    + assert (E : month d = 12) by lia. rewrite E in *.
      rewrite days_before_year_succ.
      destruct (days_before_month_ends (year d)) as [_ E12].
      destruct (days_before_month_ends (year d + 1)) as [E1 _].
      lia.
Qed.

Lemma iter_next_day (a : date) (n : nat) :
  1 <= month a <= 12 -> 1 <= day a <= days_in_month (year a) (month a) ->
  (1 <= month (Nat.iter n next_day a) <= 12
   /\ 1 <= day (Nat.iter n next_day a)
           <= days_in_month (year (Nat.iter n next_day a))
                (month (Nat.iter n next_day a)))
  /\ toordinal (Nat.iter n next_day a) = toordinal a + Z.of_nat n.
Proof.
  intros M D. induction n as [|n [[Mn Dn] IH]].
  - cbn [Nat.iter nat_rect]. split; [now split | lia].
  - rewrite Nat.iter_succ. split; [now apply next_day_shape|].
    rewrite toordinal_next, IH by assumption. lia.
Qed.

Lemma date_leb_cases (a b : date) :
  date_leb a b = true
  <-> date_ltb a b = true
      \/ (year a = year b /\ month a = month b /\ day a = day b).
Proof. unfold date_leb, date_ltb. lia. Qed.

Lemma date_leb_total (a b : date) :
  date_leb a b = false -> date_ltb b a = true.
Proof. unfold date_leb, date_ltb. lia. Qed.

Lemma toordinal_inj (a b : date) :
  1 <= month a <= 12 -> 1 <= day a <= days_in_month (year a) (month a) ->
  1 <= month b <= 12 -> 1 <= day b <= days_in_month (year b) (month b) ->
  toordinal a = toordinal b -> a = b.
Proof.
  intros Ma Da Mb Db E.
  destruct (date_leb a b) eqn:L.
  - apply date_leb_cases in L as [L|(Y & M & D)].
    + pose proof (toordinal_lt a b Ma Da Mb Db L). lia.
    + destruct a as [ya ma da], b as [yb mb db].
      cbn [year month day] in *. now subst.
  - apply date_leb_total in L.
    pose proof (toordinal_lt b a Mb Db Ma Da L). lia.
Qed.

(** X13: both range views report the number of days from the start to the
    end, both included: a range of one day has one day, and moving the
    end to the next day of the calendar adds one, also across the end of
    a month, of a leap February and of a year.  So the range from a day
    to the day [n] day steps later has [n + 1] days, and whenever the
    start is not after the end, the end is reached from the start in
    [days_in_range - 1] day steps.  The number is positive exactly when
    the start is not after the end; a range given in the wrong order is
    not refused, and its number of days is zero or negative.  For the
    first and the last day of a month it is the length of the month. *)
Theorem days_in_range_spec (start_date end_date : date) :
  valid_date start_date = true -> valid_date end_date = true ->
  days_in_range start_date start_date = 1
  /\ days_in_range start_date (next_day end_date)
     = days_in_range start_date end_date + 1
  /\ (forall n,
        days_in_range start_date (Nat.iter n next_day start_date)
        = Z.of_nat n + 1)
  /\ (date_leb start_date end_date = true ->
      end_date
      = Nat.iter (Z.to_nat (days_in_range start_date end_date - 1))
          next_day start_date)
  /\ (date_leb start_date end_date = true
      <-> 1 <= days_in_range start_date end_date)
  /\ (forall y m,
        month_window y m = Ok (start_date, end_date) ->
        days_in_range start_date end_date = days_in_month y m)
  /\ (forall st q out,
        get_einsatzplan_range st q start_date end_date = Ok out ->
        er_days_in_range out = days_in_range start_date end_date)
  /\ (forall st employees mashi spshi out,
        get_dienstplan_range st employees mashi spshi start_date end_date
        = Ok out ->
        dr_days_in_range out = days_in_range start_date end_date).
Proof.
  intros Va Vb.
  destruct (valid_date_shape _ Va) as [Ma Da].
  destruct (valid_date_shape _ Vb) as [Mb Db].
  assert (Pos : date_leb start_date end_date = true
                <-> 1 <= days_in_range start_date end_date).
  { unfold days_in_range. split.
    - intros L. apply date_leb_cases in L as [L|(Y & M & D)].
      + pose proof (toordinal_lt _ _ Ma Da Mb Db L). lia.
      + unfold toordinal. rewrite Y, M, D. lia.
    - intros H. destruct (date_leb start_date end_date) eqn:L; trivial.
      apply date_leb_total in L.
      pose proof (toordinal_lt _ _ Mb Db Ma Da L). lia. }
  split; [unfold days_in_range; lia|].
  split; [unfold days_in_range; rewrite toordinal_next by assumption; lia|].
  split.
  { intros n. unfold days_in_range.
    destruct (iter_next_day start_date n Ma Da) as [_ ->]. lia. }
  split.
  { intros L. apply Pos in L.
    destruct (iter_next_day start_date
                (Z.to_nat (days_in_range start_date end_date - 1)) Ma Da)
      as [[Mn Dn] En].
    apply toordinal_inj; trivial.
    rewrite En. unfold days_in_range in *. lia. }
  split; [exact Pos|].
  split; [|split].
  - intros y m. unfold month_window, make_date.
    destruct (valid_ymd y m 1); [|discriminate].
    destruct (valid_ymd y m (days_in_month y m)); [|discriminate].
    intros [= <- <-]. unfold days_in_range, toordinal. cbn [year month day]. lia.
  - intros st q out [= <-]. reflexivity.
  - intros st employees mashi spshi out. unfold get_dienstplan_range.
    destruct mashi, spshi; try discriminate. now intros [= <-].
Qed.

Lemma days_in_range_spec_witness :
  Nat.iter 3 next_day (mkdate 2024 2 27) = mkdate 2024 3 1
  /\ days_in_range (mkdate 2024 2 27) (mkdate 2024 3 1) = 4
  /\ days_in_range (mkdate 2023 12 30) (mkdate 2024 1 2) = 4
  /\ mkdate 2024 1 2
     = Nat.iter (Z.to_nat (days_in_range (mkdate 2023 12 30) (mkdate 2024 1 2) - 1))
         next_day (mkdate 2023 12 30).
Proof.
  split; [reflexivity|]. split; [|split].
  - exact (proj1 (proj2 (proj2 (days_in_range_spec (mkdate 2024 2 27)
                                  (mkdate 2024 3 1) eq_refl eq_refl)))
             3%nat).
  - exact (proj1 (proj2 (proj2 (days_in_range_spec (mkdate 2023 12 30)
                                  (mkdate 2024 1 2) eq_refl eq_refl)))
             3%nat).
  - apply (proj1 (proj2 (proj2 (proj2 (days_in_range_spec (mkdate 2023 12 30)
                                         (mkdate 2024 1 2) eq_refl eq_refl))))).
    reflexivity.
Defined.
(** ** The reports *)

Lemma summary_dates_fold (rows : list shift_row) : forall dates,
  fold_left (fun dates shift =>
               match report_date (sr_date shift) with
               | Some shift_date => dates ++ [shift_date]
               | None => dates
               end) rows dates
  = dates ++ flat_map (fun shift =>
                         match report_date (sr_date shift) with
                         | Some shift_date => [shift_date]
                         | None => []
                         end) rows.
Proof.
  induction rows as [|r rows IH]; intros dates; cbn [fold_left flat_map].
  - now rewrite app_nil_r.
  - rewrite IH. destruct (report_date (sr_date r)); trivial.
    now rewrite <- app_assoc.
Qed.

Lemma summary_dates_In (st : store) (d : date) :
  In d (summary_dates st)
  <-> exists r, In r (tbl_5MASHI st ++ tbl_5SPSHI st)
                /\ report_date (sr_date r) = Some d.
Proof.
  unfold summary_dates. rewrite summary_dates_fold. cbn [app].
  rewrite in_flat_map. split; intros (r & Hin & H); exists r; split; trivial.
  - destruct (report_date (sr_date r)); [|destruct H].
    destruct H as [->|[]]. reflexivity.
  - rewrite H. now left.
Qed.

Lemma summary_dates_length (st : store) :
  Z.of_nat (List.length (summary_dates st))
  = count has_report_date (tbl_5MASHI st ++ tbl_5SPSHI st).
Proof.
  unfold summary_dates. rewrite summary_dates_fold. cbn [app]. unfold count.
  induction (tbl_5MASHI st ++ tbl_5SPSHI st) as [|r rows IH];
    cbn [flat_map filter]; trivial.
  unfold has_report_date at 1.
  destruct (report_date (sr_date r)); cbn [app List.length]; lia.
Qed.

Lemma date_leb_trans (p q r : date) :
  date_leb p q = true -> date_leb q r = true -> date_leb p r = true.
Proof. unfold date_leb. lia. Qed.

Lemma min_date_spec (l : list date) : forall x,
  In (min_date x l) (x :: l)
  /\ forall d, In d (x :: l) -> date_leb (min_date x l) d = true.
Proof.
  unfold min_date. induction l as [|a l IH]; intros x; cbn [fold_left].
  - split; [now left|]. intros d [<-|[]]. unfold date_leb. lia.
  - destruct (IH (if date_ltb a x then a else x)) as [I B]. split.
    + destruct I as [I|I]; [|now right; right].
      rewrite <- I. destruct (date_ltb a x); [right|]; now left.
    + intros d Hd.
      assert (X : date_leb (if date_ltb a x then a else x) x = true
                  /\ date_leb (if date_ltb a x then a else x) a = true).
      { destruct (date_ltb a x) eqn:L; revert L; unfold date_ltb, date_leb; lia. }
      destruct X as [Xx Xa].
      pose proof (B _ (or_introl eq_refl)) as B0.
      destruct Hd as [<-|[<-|Hd]].
      * exact (date_leb_trans _ _ _ B0 Xx).
      * exact (date_leb_trans _ _ _ B0 Xa).
      * apply B. now right.
Qed.

Lemma max_date_spec (l : list date) : forall x,
  In (max_date x l) (x :: l)
  /\ forall d, In d (x :: l) -> date_leb d (max_date x l) = true.
Proof.
  unfold max_date. induction l as [|a l IH]; intros x; cbn [fold_left].
  - split; [now left|]. intros d [<-|[]]. unfold date_leb. lia.
  - destruct (IH (if date_ltb x a then a else x)) as [I B]. split.
    + destruct I as [I|I]; [|now right; right].
      rewrite <- I. destruct (date_ltb x a); [right|]; now left.
    + intros d Hd.
      assert (X : date_leb x (if date_ltb x a then a else x) = true
                  /\ date_leb a (if date_ltb x a then a else x) = true).
      { destruct (date_ltb x a) eqn:L; revert L; unfold date_ltb, date_leb; lia. }
      destruct X as [Xx Xa].
      pose proof (B _ (or_introl eq_refl)) as B0.
      destruct Hd as [<-|[<-|Hd]].
      * exact (date_leb_trans _ _ _ Xx B0).
      * exact (date_leb_trans _ _ _ Xa B0).
      * apply B. now right.
Qed.

(** X14: the date range of the summary is taken from the main and special
    assignments whose date is text that parses as an ISO date, and from
    no other: [total_shifts] is their number, which is at most the
    number of all assignments; when there is none, no date is reported;
    otherwise the earliest and the latest reported date are dates of
    such assignments, and the date of every such assignment lies
    between them. *)
Theorem reports_summary_date_range (st : store) :
  total_shifts (st_date_range (get_reports_summary st))
  = count has_report_date (tbl_5MASHI st ++ tbl_5SPSHI st)
  /\ total_shifts (st_date_range (get_reports_summary st))
     <= st_total_assignments (get_reports_summary st)
  /\ (total_shifts (st_date_range (get_reports_summary st)) = 0 ->
      earliest (st_date_range (get_reports_summary st)) = None
      /\ latest (st_date_range (get_reports_summary st)) = None)
  /\ (0 < total_shifts (st_date_range (get_reports_summary st)) ->
      exists lo hi,
        earliest (st_date_range (get_reports_summary st)) = Some (isoformat lo)
        /\ latest (st_date_range (get_reports_summary st)) = Some (isoformat hi)
        /\ (exists r, In r (tbl_5MASHI st ++ tbl_5SPSHI st)
                      /\ report_date (sr_date r) = Some lo)
        /\ (exists r, In r (tbl_5MASHI st ++ tbl_5SPSHI st)
                      /\ report_date (sr_date r) = Some hi)
        /\ forall r d, In r (tbl_5MASHI st ++ tbl_5SPSHI st) ->
             report_date (sr_date r) = Some d ->
             date_leb lo d = true /\ date_leb d hi = true).
Proof.
  pose proof (summary_dates_length st) as Len.
  pose proof (summary_dates_In st) as Mem.
  unfold get_reports_summary.
  cbn [st_date_range st_total_assignments].
  destruct (summary_dates st) as [|x l] eqn:D;
    cbn [total_shifts earliest latest].
  - cbn [List.length] in Len. split; [exact Len|]. split; [lia|].
    split; [now split|]. lia.
  - split; [exact Len|]. split.
    + rewrite Len. unfold count.
      pose proof (filter_length_le has_report_date
                    (tbl_5MASHI st ++ tbl_5SPSHI st)) as F.
      rewrite length_app in F. lia.
    + split; [cbn [List.length]; lia|]. intros _.
      destruct (min_date_spec l x) as [Imin Bmin].
      destruct (max_date_spec l x) as [Imax Bmax].
      exists (min_date x l), (max_date x l).
      split; [reflexivity|]. split; [reflexivity|].
      split; [now apply Mem|]. split; [now apply Mem|].
      intros r d Hin Hd.
      assert (X : In d (x :: l)). { apply Mem. now exists r. }
      split; [now apply Bmin | now apply Bmax].
Qed.
Lemma opt_string_eqb_eq (a b : option string) :
  opt_string_eqb a b = true <-> a = b.
Proof.
  destruct a as [x|], b as [y|]; cbn [opt_string_eqb];
    try (split; [discriminate | congruence]); [|now split].
  rewrite String.eqb_eq. split; congruence.
Qed.

Lemma filtered_fold defs y m (rows : list shift_row) : forall filtered,
  fold_left (filter_step defs y m) rows filtered
  = filtered
    ++ flat_map (fun a =>
                   match report_date (sr_date a) with
                   | Some shift_date =>
                       if in_period y m shift_date
                       then [mkreport_assignment a shift_date
                               (def_get_or sd_name "Unknown"%string
                                  (lookup_def defs (sr_shift_id a)))]
                       else []
                   | None => []
                   end) rows.
Proof.
  induction rows as [|r rows IH]; intros filtered; cbn [fold_left flat_map].
  - now rewrite app_nil_r.
  - rewrite IH. unfold filter_step.
    destruct (report_date (sr_date r)) as [d|]; trivial.
    destruct (in_period y m d); trivial. now rewrite <- app_assoc.
Qed.

Lemma filtered_In defs y m (rows : list shift_row) (x : report_assignment) :
  In x (filtered_assignments defs y m rows)
  <-> In (rp_assignment x) rows
      /\ report_date (sr_date (rp_assignment x)) = Some (rp_parsed_date x)
      /\ in_period y m (rp_parsed_date x) = true
      /\ rp_shift_name x
         = def_get_or sd_name "Unknown"%string
             (lookup_def defs (sr_shift_id (rp_assignment x))).
Proof.
  unfold filtered_assignments. rewrite filtered_fold. cbn [app].
  rewrite in_flat_map. split.
  - intros (a & Hin & H).
    destruct (report_date (sr_date a)) as [d|] eqn:D; [|destruct H].
    destruct (in_period y m d) eqn:P; [|destruct H].
    destruct H as [<-|[]]. cbn. auto.
  - intros (Hin & D & P & N). exists (rp_assignment x). split; trivial.
    rewrite D, P. left. destruct x. cbn in *. now subst.
Qed.

Lemma filtered_length defs y m (rows : list shift_row) :
  Z.of_nat (List.length (filtered_assignments defs y m rows))
  = count (fun a => match report_date (sr_date a) with
                    | Some d => in_period y m d
                    | None => false
                    end) rows.
Proof.
  unfold filtered_assignments. rewrite filtered_fold. cbn [app]. unfold count.
  induction rows as [|r rows IH]; cbn [flat_map filter]; trivial.
  destruct (report_date (sr_date r)) as [d|]; trivial.
  destruct (in_period y m d); cbn [app List.length]; lia.
Qed.

Lemma Ok_inj {A} (a b : A) : Ok a = Ok b -> a = b.
Proof. congruence. Qed.

Lemma In_firstn {A} (n : nat) (l : list A) (x : A) :
  In x (firstn n l) -> In x l.
Proof.
  intros H. rewrite <- (firstn_skipn n l). apply in_or_app. now left.
Qed.

(** X15: the employee report counts the main and special assignments of the
    employee whose date is text that parses to a day of the requested
    year, and month when one is given; each listed assignment is one of
    these, with the name of its shift or ["Unknown"], and at most the
    first fifty are listed while [total_shifts] counts them all. *)
Theorem employee_report_assignments (st : store) (employee_id y : Z)
  (m : option Z) (out : employee_report) :
  get_employee_shifts_report st employee_id y m = Ok out ->
  rep_total_shifts out
  = count (fun a => match report_date (sr_date a) with
                    | Some d => in_period y m d
                    | None => false
                    end)
      (for_employee sr_employee_id employee_id (tbl_5MASHI st)
       ++ for_employee sr_employee_id employee_id (tbl_5SPSHI st))
  /\ Z.of_nat (List.length (rep_assignments out))
     = Z.min 50 (rep_total_shifts out)
  /\ (forall x, In x (rep_assignments out) ->
        sr_employee_id (rp_assignment x) = Some employee_id
        /\ In (rp_assignment x) (tbl_5MASHI st ++ tbl_5SPSHI st)
        /\ report_date (sr_date (rp_assignment x)) = Some (rp_parsed_date x)
        /\ year (rp_parsed_date x) = y
        /\ (forall k, m = Some k -> month (rp_parsed_date x) = k)
        /\ rp_shift_name x
           = def_get_or sd_name "Unknown"%string
               (lookup_def (shift_definitions st)
                  (sr_shift_id (rp_assignment x))))
  /\ In (rep_employee out) (tbl_5EMPL st)
  /\ emp_id (rep_employee out) = employee_id.
Proof.
  unfold get_employee_shifts_report.
  destruct (filter _ (tbl_5EMPL st)) as [|employee rest] eqn:F; [discriminate|].
  intros H. apply Ok_inj in H. subst out.
  cbn [rep_total_shifts rep_assignments rep_employee].
  split; [apply filtered_length|]. split.
  { rewrite length_firstn. lia. }
  split.
  - intros x Hx. apply In_firstn in Hx. apply filtered_In in Hx
      as (Hin & D & P & N).
    assert (R : In (rp_assignment x) (tbl_5MASHI st ++ tbl_5SPSHI st)
                /\ sr_employee_id (rp_assignment x) = Some employee_id).
    { unfold for_employee in Hin.
      apply in_app_or in Hin as [Hin|Hin]; apply filter_In in Hin as [Hin E];
        (split; [apply in_or_app; auto|]);
        destruct (sr_employee_id (rp_assignment x)) as [i|];
        cbn [opt_Z_eqb] in E; try discriminate;
        apply Z.eqb_eq in E; now subst. }
    destruct R as [R1 R2]. unfold in_period in P.
    apply andb_prop in P as [Py Pm]. apply Z.eqb_eq in Py.
    repeat split; trivial.
    intros k ->. now apply Z.eqb_eq in Pm.
  - assert (X : In employee (filter (fun e => emp_id e =? employee_id)
                               (tbl_5EMPL st))).
    { rewrite F. now left. }
    apply filter_In in X as [X1 X2]. apply Z.eqb_eq in X2. now split.
Qed.

Lemma employee_report_assignments_witness :
  exists out,
    get_employee_shifts_report store_late_first 7 2025 (Some 6) = Ok out
    /\ rep_total_shifts out = 2
    /\ Z.of_nat (List.length (rep_assignments out)) = Z.min 50 2.
Proof.
  eexists. split; [reflexivity|]. split; [reflexivity|].
  exact (proj1 (proj2 (employee_report_assignments store_late_first 7 2025
                         (Some 6) _ eq_refl))).
Defined.

Lemma stats_get (l : list report_assignment) (n : option string) :
  forall d,
    PyDict.get opt_string_eqb n (fold_left stats_step l d)
    = match filter (fun a => opt_string_eqb (rp_shift_name a) n) l with
      | [] => PyDict.get opt_string_eqb n d
      | matching =>
          Some (mkshift_stat
                  (match PyDict.get opt_string_eqb n d with
                   | Some s => ss_count s
                   | None => 0
                   end + Z.of_nat (List.length matching))
                  (match PyDict.get opt_string_eqb n d with
                   | Some s => ss_dates s
                   | None => []
                   end
                   ++ map (fun a => isoformat (rp_parsed_date a)) matching))
      end.
Proof.
  induction l as [|a l IH]; intros d; cbn [fold_left filter]; trivial.
  rewrite IH. unfold stats_step.
  destruct (opt_string_eqb (rp_shift_name a) n) eqn:B.
  - apply opt_string_eqb_eq in B. subst n.
    rewrite (get_set_same _ opt_string_eqb_eq).
    destruct (PyDict.get opt_string_eqb (rp_shift_name a) d) as [s|];
      cbn [ss_count ss_dates];
      destruct (filter _ l) as [|b l']; cbn [List.length map];
      f_equal; f_equal; try lia; now rewrite <- ?app_assoc.
  - rewrite (get_set_other _ opt_string_eqb_eq).
    2:{ intros E. subst n.
        rewrite (proj2 (opt_string_eqb_eq _ _) eq_refl) in B. discriminate. }
    reflexivity.
Qed.

Lemma stats_NoDup (l : list report_assignment) : forall d,
  NoDup (PyDict.keys d) -> NoDup (PyDict.keys (fold_left stats_step l d)).
Proof.
  induction l as [|a l IH]; intros d ND; cbn [fold_left]; trivial.
  apply IH. now apply (NoDup_keys_set _ opt_string_eqb_eq).
Qed.

Lemma stats_sum (l : list report_assignment) : forall d,
  fold_right Z.add 0 (map (fun kv => ss_count (snd kv)) (fold_left stats_step l d))
  = fold_right Z.add 0 (map (fun kv => ss_count (snd kv)) d)
    + Z.of_nat (List.length l).
Proof.
  induction l as [|a l IH]; intros d; cbn [fold_left List.length]; [lia|].
  rewrite IH. unfold stats_step.
  assert (S : forall k (d : list (option string * shift_stat)),
             fold_right Z.add 0
               (map (fun kv => ss_count (snd kv))
                  (PyDict.set opt_string_eqb k
                     (mkshift_stat
                        (ss_count match PyDict.get opt_string_eqb k d with
                                  | Some s => s
                                  | None => mkshift_stat 0 []
                                  end + 1)
                        (ss_dates match PyDict.get opt_string_eqb k d with
                                  | Some s => s
                                  | None => mkshift_stat 0 []
                                  end
                         ++ [isoformat (rp_parsed_date a)])) d))
             = fold_right Z.add 0 (map (fun kv => ss_count (snd kv)) d) + 1).
  { clear. intros k d. induction d as [|[k' v'] d IHd];
      cbn [PyDict.get PyDict.set map fold_right snd ss_count]; [lia|].
    destruct (opt_string_eqb k k');
      cbn [map fold_right snd ss_count]; [lia|].
    rewrite IHd. lia. }
  rewrite S. lia.
Qed.

(** X16: the shift distribution of the employee report groups the counted
    assignments by the name of their shift: each name has one entry,
    whose count is the number of counted assignments of that name and
    whose dates are their dates in ISO form, in the order of the
    assignments; a name without a counted assignment has no entry, and
    the counts add up to [total_shifts]. *)
Theorem employee_report_distribution (st : store) (employee_id y : Z)
  (m : option Z) (out : employee_report) :
  get_employee_shifts_report st employee_id y m = Ok out ->
  (forall n,
     PyDict.get opt_string_eqb n (rep_shift_distribution out)
     = match filter (fun a => opt_string_eqb (rp_shift_name a) n)
               (filtered_assignments (shift_definitions st) y m
                  (for_employee sr_employee_id employee_id (tbl_5MASHI st)
                   ++ for_employee sr_employee_id employee_id (tbl_5SPSHI st)))
       with
       | [] => None
       | matching =>
           Some (mkshift_stat (Z.of_nat (List.length matching))
                   (map (fun a => isoformat (rp_parsed_date a)) matching))
       end)
  /\ NoDup (PyDict.keys (rep_shift_distribution out))
  /\ fold_right Z.add 0
       (map (fun kv => ss_count (snd kv)) (rep_shift_distribution out))
     = rep_total_shifts out.
Proof.
  unfold get_employee_shifts_report.
  destruct (filter _ (tbl_5EMPL st)) as [|employee rest]; [discriminate|].
  intros H. apply Ok_inj in H. subst out.
  cbn [rep_shift_distribution rep_total_shifts].
  split; [|split].
  - intros n. rewrite stats_get. cbn [PyDict.get].
    now destruct (filter _ _).
  - apply stats_NoDup. constructor.
  - rewrite stats_sum. cbn. lia.
Qed.

Lemma employee_report_distribution_witness :
  exists out,
    get_employee_shifts_report store_late_first 7 2025 (Some 6) = Ok out
    /\ PyDict.get opt_string_eqb (Some "Yard"%string)
         (rep_shift_distribution out)
       = Some (mkshift_stat 1 ["2025-06-05"%string]).
Proof.
  eexists. split; [reflexivity|].
  exact (proj1 (employee_report_distribution store_late_first 7 2025
                  (Some 6) _ eq_refl) (Some "Yard"%string)).
Defined.
Lemma coverage_step_ok (y m : Z) (start stop : date) defs employees_dict
  (data : list (option string * coverage_row)) (a : shift_row) :
  month_window y m = Ok (start, stop) ->
  NoDup (PyDict.keys data) ->
  (forall n row, In (n, row) data -> coverage_row_ok (days_in_month y m) row) ->
  NoDup (PyDict.keys (coverage_step start stop defs employees_dict data a))
  /\ (forall n row,
        In (n, row) (coverage_step start stop defs employees_dict data a) ->
        coverage_row_ok (days_in_month y m) row)
  /\ fold_right Z.add 0
       (map (fun kv => cv_total_assignments (snd kv))
          (coverage_step start stop defs employees_dict data a))
     = fold_right Z.add 0 (map (fun kv => cv_total_assignments (snd kv)) data)
       + (if covered start stop a then 1 else 0).
Proof.
  intros W ND Hok. unfold coverage_step, covered.
  destruct (report_date (sr_date a)) as [d|];
    [|split; [exact ND|]; split; [exact Hok|]; cbn beta iota; lia].
  destruct (in_window start stop d) eqn:I;
    [|split; [exact ND|]; split; [exact Hok|]; cbn beta iota; lia].
  destruct (in_month_window _ _ _ _ _ W I) as (_ & _ & Dd).
  set (name := def_get_or sd_name "Unknown"%string (lookup_def defs (sr_shift_id a))).
  set (entry := mkcoverage_entry (sr_employee_id a)
                  (coverage_name employees_dict (sr_employee_id a))).
  assert (Rok : NoDup (PyDict.keys (cv_coverage_by_day
                  match PyDict.get opt_string_eqb name data with
                  | Some r => r
                  | None => mkcoverage_row (lookup_def defs (sr_shift_id a)) [] 0
                  end))
                /\ (forall k people,
                      In (k, people) (cv_coverage_by_day
                        match PyDict.get opt_string_eqb name data with
                        | Some r => r
                        | None =>
                            mkcoverage_row (lookup_def defs (sr_shift_id a)) [] 0
                        end) ->
                      1 <= k <= days_in_month y m /\ people <> [])
                /\ cv_total_assignments
                     match PyDict.get opt_string_eqb name data with
                     | Some r => r
                     | None =>
                         mkcoverage_row (lookup_def defs (sr_shift_id a)) [] 0
                     end
                   = Z.of_nat (total (@List.length coverage_entry)
                       (cv_coverage_by_day
                          match PyDict.get opt_string_eqb name data with
                          | Some r => r
                          | None =>
                              mkcoverage_row (lookup_def defs (sr_shift_id a)) [] 0
                          end))).
  { destruct (PyDict.get opt_string_eqb name data) as [r|] eqn:G.
    - apply (get_In _ opt_string_eqb_eq) in G. now apply (Hok name r).
    - cbn. split; [constructor|]. split; [intros ? ? []|reflexivity]. }
  set (row := match PyDict.get opt_string_eqb name data with
              | Some r => r
              | None => mkcoverage_row (lookup_def defs (sr_shift_id a)) [] 0
              end) in *.
  destruct Rok as (RND & Rcells & Rtotal).
  split; [now apply (NoDup_keys_set _ opt_string_eqb_eq)|]. split.
  - intros n r Hin. apply (In_set _ opt_string_eqb_eq) in Hin as [Hin|Hin].
    { eapply Hok; eauto. }
    injection Hin as _ ->. unfold coverage_row_ok.
    cbn [cv_coverage_by_day cv_total_assignments].
    split.
    { destruct (cv_coverage_by_day row) as [|[k0 p0] r0]; cbn [PyDict.set];
        [discriminate|]. now destruct (day d =? k0). }
    split; [now apply (NoDup_keys_set _ Z_eqb_eq)|]. split.
    + intros k people Hk. apply (In_set _ Z_eqb_eq) in Hk as [Hk|Hk].
      * eapply Rcells; eauto.
      * injection Hk as -> ->. split; trivial.
        destruct (PyDict.get Z.eqb (day d) (cv_coverage_by_day row)) as [l|];
          [now destruct l | discriminate].
    + pose proof (total_set Z.eqb (@List.length coverage_entry) (day d)
                    (match PyDict.get Z.eqb (day d) (cv_coverage_by_day row) with
                     | Some l => l
                     | None => []
                     end ++ [entry])
                    (cv_coverage_by_day row)) as T.
      rewrite length_app in T. cbn [List.length] in T.
      destruct (PyDict.get Z.eqb (day d) (cv_coverage_by_day row));
        cbn [List.length] in T; lia.
  - clear - row. subst row.
    induction data as [|[k v] data IH];
      cbn [PyDict.get PyDict.set map fold_right snd cv_total_assignments];
      [lia|].
    destruct (opt_string_eqb name k);
      cbn [map fold_right snd cv_total_assignments]; lia.
Qed.

Lemma coverage_loop_ok (y m : Z) (start stop : date) defs employees_dict
  (rows : list shift_row) :
  month_window y m = Ok (start, stop) ->
  forall data,
    NoDup (PyDict.keys data) ->
    (forall n row, In (n, row) data -> coverage_row_ok (days_in_month y m) row) ->
    NoDup (PyDict.keys
             (fold_left (coverage_step start stop defs employees_dict) rows data))
    /\ (forall n row,
          In (n, row)
             (fold_left (coverage_step start stop defs employees_dict) rows data) ->
          coverage_row_ok (days_in_month y m) row)
    /\ fold_right Z.add 0
         (map (fun kv => cv_total_assignments (snd kv))
            (fold_left (coverage_step start stop defs employees_dict) rows data))
       = fold_right Z.add 0 (map (fun kv => cv_total_assignments (snd kv)) data)
         + count (covered start stop) rows.
Proof.
  intros W. induction rows as [|a rows IH]; intros data ND Hok; cbn [fold_left].
  - split; [exact ND|]. split; [exact Hok|]. unfold count. cbn. lia.
  - destruct (coverage_step_ok y m start stop defs employees_dict data a W ND Hok)
      as (ND' & Hok' & S').
    destruct (IH _ ND' Hok') as (ND2 & Hok2 & S2).
    split; [exact ND2|]. split; [exact Hok2|].
    rewrite S2, S', count_cons. lia.
Qed.

Lemma coverage_stats_map (last_day : Z)
  (data : list (option string * coverage_row)) :
  NoDup (PyDict.keys data) ->
  coverage_stats last_day data
  = map (fun item =>
           (fst item,
            mkcoverage_stat
              (Z.of_nat (List.length (cv_coverage_by_day (snd item))))
              last_day
              (cv_total_assignments (snd item))
              (cv_coverage_by_day (snd item))))
        data.
Proof.
  intros ND. unfold coverage_stats.
  rewrite (fold_set_fresh opt_string_eqb opt_string_eqb_eq fst
             (fun item =>
                mkcoverage_stat
                  (Z.of_nat (List.length (cv_coverage_by_day (snd item))))
                  last_day
                  (cv_total_assignments (snd item))
                  (cv_coverage_by_day (snd item))));
    trivial.
Qed.

Lemma keys_within (l : list Z) (n : Z) :
  NoDup l -> (forall k, In k l -> 1 <= k <= n) ->
  Z.of_nat (List.length l) <= Z.max 0 n.
Proof.
  intros ND B.
  assert (I : incl l (range 1 (n + 1))).
  { intros k Hk. apply In_range. specialize (B k Hk). lia. }
  pose proof (NoDup_incl_length ND I) as L.
  unfold range in L. rewrite length_map, length_seq in L. lia.
Qed.

Lemma length_le_total (d : list (Z * list coverage_entry)) :
  (forall k people, In (k, people) d -> people <> []) ->
  (List.length d <= total (@List.length coverage_entry) d)%nat.
Proof.
  unfold total, list_sum.
  induction d as [|[k p] d IH]; intros H;
    cbn [map fold_right List.length snd]; [lia|].
  assert (P : p <> []) by (apply (H k); now left).
  assert (R : (List.length d
               <= fold_right Nat.add 0%nat
                    (map (fun kv : Z * list coverage_entry =>
                            List.length (snd kv)) d))%nat).
  { apply IH. intros k' p' Hin. apply (H k'). now right. }
  destruct p as [|x p]; [contradiction|]. cbn [List.length]. lia.
Qed.

(** X17: in the coverage report every shift name has one entry.  Its days are
    days of the month, each with at least one person; [days_covered] is
    the number of these days, at least one and at most the length of the
    month; [total_assignments] is the number of people over all its
    days.  The totals of all entries add up to the number of main and
    special assignments whose date is text that parses to a day of the
    month. *)
Theorem coverage_report_statistics (st : store) (y m : Z)
  (out : coverage_report) (start stop : date) :
  get_shift_coverage_report st y m = Ok out ->
  month_window y m = Ok (start, stop) ->
  NoDup (PyDict.keys (cr_coverage_statistics out))
  /\ cr_total_shift_types out
     = Z.of_nat (List.length (cr_coverage_statistics out))
  /\ (forall name stat, In (name, stat) (cr_coverage_statistics out) ->
        cs_days_in_month stat = days_in_month y m
        /\ cs_days_covered stat
           = Z.of_nat (List.length (cs_coverage_by_day stat))
        /\ 1 <= cs_days_covered stat <= days_in_month y m
        /\ NoDup (PyDict.keys (cs_coverage_by_day stat))
        /\ (forall k people, In (k, people) (cs_coverage_by_day stat) ->
              1 <= k <= days_in_month y m /\ people <> [])
        /\ cs_total_assignments stat
           = Z.of_nat (total (@List.length coverage_entry)
                         (cs_coverage_by_day stat))
        /\ cs_days_covered stat <= cs_total_assignments stat)
  /\ fold_right Z.add 0
       (map (fun kv => cs_total_assignments (snd kv))
          (cr_coverage_statistics out))
     = count (covered start stop) (tbl_5MASHI st ++ tbl_5SPSHI st).
Proof.
  unfold get_shift_coverage_report. intros G W. rewrite W in G.
  cbn [bind fst snd] in G. apply Ok_inj in G. subst out.
  cbn [cr_coverage_statistics cr_total_shift_types].
  destruct (coverage_loop_ok y m start stop (shift_definitions st)
              (PyDict.of_list Z.eqb emp_id (tbl_5EMPL st))
              (tbl_5MASHI st ++ tbl_5SPSHI st) W [] (NoDup_nil _)
              (fun n row (H : In (n, row) []) => match H with end))
    as (ND & Hok & S).
  fold (coverage_data st start stop) in ND, Hok, S.
  rewrite (coverage_stats_map _ _ ND).
  split; [|split; [reflexivity|split]].
  - unfold PyDict.keys in *. now rewrite map_map.
  - intros name stat H. apply in_map_iff in H as ([n row] & E & Hin).
    injection E as <- <-.
    cbn [snd cs_days_in_month cs_days_covered cs_coverage_by_day
         cs_total_assignments].
    destruct (Hok n row Hin) as (Some1 & RND & Rcells & Rtotal).
    repeat split; trivial.
    + destruct (cv_coverage_by_day row); [contradiction|]. cbn. lia.
    + pose proof (keys_within (PyDict.keys (cv_coverage_by_day row))
                    (days_in_month y m) RND) as KW.
      unfold PyDict.keys in KW at 2. rewrite length_map in KW.
      pose proof (days_in_month_bounds y m) as Bd.
      assert (H0 : forall k, In k (PyDict.keys (cv_coverage_by_day row)) ->
                        1 <= k <= days_in_month y m).
      { intros k Hk. apply in_map_iff in Hk as ([k' p] & <- & Hp).
        now apply (Rcells k' p). }
      specialize (KW H0). lia.
    + eapply Rcells; eauto.
    + eapply Rcells; eauto.
    + eapply Rcells; eauto.
    + rewrite Rtotal. apply inj_le. apply length_le_total.
      intros k p Hp. now apply (Rcells k p).
  - rewrite map_map. cbn [snd cs_total_assignments].
    cbn in S. exact S.
Qed.
Lemma coverage_report_statistics_witness :
  exists out,
    get_shift_coverage_report store_late_first 2025 6 = Ok out
    /\ fold_right Z.add 0
         (map (fun kv => cs_total_assignments (snd kv))
            (cr_coverage_statistics out))
       = 2.
Proof.
  eexists. split; [reflexivity|].
  destruct (coverage_report_statistics store_late_first 2025 6 _
              (mkdate 2025 6 1) (mkdate 2025 6 30) eq_refl eq_refl)
    as (_ & _ & _ & S).
  exact S.
Defined.

Lemma report_date_not_text (v : date_value) :
  is_text v = false -> report_date v = None.
Proof.
  unfold report_date. destruct v; try discriminate; now destruct (truthy _).
Qed.

Lemma no_text_no_dates (rows : list shift_row) :
  Forall (fun r => is_text (sr_date r) = false) rows ->
  Forall (fun r => report_date (sr_date r) = None) rows.
Proof.
  apply Forall_impl. intros r. apply report_date_not_text.
Qed.

(** X18: the reports read text dates only.  When no main or special
    assignment has a text date, as when the table holds native dates,
    the summary reports no date and no shift, the employee report
    counts and lists nothing, and the coverage report has no entry,
    whatever the dates are. *)
Theorem reports_ignore_native_dates (st : store) :
  Forall (fun r => is_text (sr_date r) = false)
         (tbl_5MASHI st ++ tbl_5SPSHI st) ->
  st_date_range (get_reports_summary st) = mkdate_range None None 0
  /\ (forall employee_id y m out,
        get_employee_shifts_report st employee_id y m = Ok out ->
        rep_total_shifts out = 0
        /\ rep_shift_distribution out = []
        /\ rep_assignments out = [])
  /\ (forall y m out,
        get_shift_coverage_report st y m = Ok out ->
        cr_coverage_statistics out = [] /\ cr_total_shift_types out = 0).
Proof.
  intros T. apply no_text_no_dates in T. split; [|split].
  - unfold get_reports_summary. cbn [st_date_range].
    assert (E : summary_dates st = []).
    { unfold summary_dates. rewrite summary_dates_fold. cbn [app].
      induction T as [|r rows R _ IH]; cbn [flat_map]; trivial.
      now rewrite R. }
    now rewrite E.
  - intros employee_id y m out. unfold get_employee_shifts_report.
    destruct (filter _ (tbl_5EMPL st)) as [|employee rest]; [discriminate|].
    intros H. apply Ok_inj in H. subst out.
    cbn [rep_total_shifts rep_shift_distribution rep_assignments].
    assert (E : filtered_assignments (shift_definitions st) y m
                  (for_employee sr_employee_id employee_id (tbl_5MASHI st)
                   ++ for_employee sr_employee_id employee_id (tbl_5SPSHI st))
                = []).
    { unfold filtered_assignments. rewrite filtered_fold. cbn [app].
      apply Forall_app in T as [T1 T2].
      assert (T' : Forall (fun r => report_date (sr_date r) = None)
                     (for_employee sr_employee_id employee_id (tbl_5MASHI st)
                      ++ for_employee sr_employee_id employee_id (tbl_5SPSHI st))).
      { apply Forall_app. split; now apply Forall_filter. }
      induction T' as [|r rows R _ IH]; cbn [flat_map]; trivial.
      now rewrite R. }
    rewrite E. now repeat split.
  - intros y m out. unfold get_shift_coverage_report.
    destruct (month_window y m) as [w|]; cbn [bind]; [|discriminate].
    intros H. apply Ok_inj in H. subst out.
    cbn [cr_coverage_statistics cr_total_shift_types].
    assert (E : coverage_data st (fst w) (snd w) = []).
    { unfold coverage_data.
      induction T as [|r rows R _ IH]; cbn [fold_left]; trivial.
      unfold coverage_step at 2. now rewrite R. }
    rewrite E. now split.
Qed.

Lemma reports_ignore_native_dates_witness :
  st_date_range (get_reports_summary store_native_date)
  = mkdate_range None None 0.
Proof.
  assert (T : Forall (fun r => is_text (sr_date r) = false)
                (tbl_5MASHI store_native_date ++ tbl_5SPSHI store_native_date)).
  { repeat constructor. }
  exact (proj1 (reports_ignore_native_dates store_native_date T)).
Defined.
